(** * Date-filtered metrics aggregation: the dashboard's views, embedded

  Every chart and table component of the dashboard follows one pattern:
  build a query from the committed date range, fetch an array of records,
  map raw zone identifiers onto display regions, fold the records into one
  accumulator per region and finalise the accumulators into display rows.
  This file embeds each view's [fetchData] and the filter store, and
  proves the properties the specification states about them.

  Modelling conventions.
  - A JavaScript number is an exact rational ([Q]): rounding and overflow
    of IEEE doubles are not modelled, except in [MetricsCard.Doubles],
    which replays one accumulation on doubles.  A value that comes from a
    division by zero, or from arithmetic on [undefined], is explicit:
    [jsdiv] returns a [jsnum], either [Fin q] or [NotFinite] (NaN or an
    infinity).
  - An object literal with a fixed set of keys is an association list in
    the literal's order, which is the order [Object.entries] enumerates;
    a [Map] is an association list in insertion order.  [JS.get] looks a
    key up among the own keys; [JS.lookup] is [table[k]], which also
    reaches the members that every object literal inherits from
    [Object.prototype].  The one object whose keys come from the input
    ([regionGroups] of MetricsCard) is a [gmap]; its rows are stated
    order-independently.
  - [throw], [try]/[catch]/[finally] are an error monad ([result]).
  - [fetch] is the environment: a view receives a [FetchOutcome], either
    a rejection or a response with a status, a status text and a body. *)

From Stdlib Require Import QArith Qround Qabs ZArith Lia Lqa DecimalString.
From Stdlib Require Import Sorted.
From Stdlib Require PrimFloat.
From stdpp Require Import gmap strings list.

(** ** Shared JavaScript vocabulary *)

Module JS.

(** A computed number: a rational, or the NaN or infinity that a division
    by zero or arithmetic on [undefined] yields. *)
Inductive jsnum : Type :=
| Fin (q : Q)
| NotFinite.

(** [a / b] on numbers. *)
Definition jsdiv (a b : Q) : jsnum :=
  if Qeq_bool b 0 then NotFinite else Fin (a / b).

(** [a > b] on numbers. *)
Definition gtb (a b : Q) : bool :=
  match (a ?= b)%Q with Gt => true | _ => false end.

(** [x || 0] on a number: 0 is the only falsy rational. *)
Definition orZero (x : Q) : Q := if Qeq_bool x 0 then 0%Q else x.

(** [x !== undefined] and [x || 0] on an optional number. *)
Definition defined (x : option Q) : bool :=
  match x with Some _ => true | None => false end.

Definition orZeroOpt (x : option Q) : Q :=
  match x with Some q => orZero q | None => 0%Q end.

(** [Math.round]: the nearest integer, halves rounded up. *)
Definition round (x : jsnum) : jsnum :=
  match x with
  | Fin q => Fin (inject_Z (Qfloor (q + (1 # 2))))
  | NotFinite => NotFinite
  end.

(** [arr.length] as a number. *)
Definition len {A} (l : list A) : Q := inject_Z (Z.of_nat (length l)).

(** [arr.reduce((a, b) => a + b, 0)]. *)
Definition sum (l : list Q) : Q := fold_left Qplus l 0%Q.

(** A template literal's rendering of a non-negative integer. *)
Definition showNat (n : nat) : string :=
  NilZero.string_of_uint (Nat.to_uint n).

(** [s.includes(sub)]. *)
Fixpoint includes (sub s : string) : bool :=
  String.prefix sub s ||
  match s with
  | EmptyString => false
  | String _ s' => includes sub s'
  end.

(** Thrown values: an [Error] with its message, or anything else. *)
Inductive thrown : Type :=
| ErrorObject (message : string)
| NonError.

Inductive result (A : Type) : Type :=
| Ok (a : A)
| Throw (e : thrown).
Arguments Ok {A} a.
Arguments Throw {A} e.

Definition bind {A B} (r : result A) (k : A -> result B) : result B :=
  match r with
  | Ok a => k a
  | Throw e => Throw e
  end.

#[global] Instance result_ret : MRet result := fun A a => Ok a.
#[global] Instance result_bind : MBind result := fun A B k r => bind r k.

(** [err instanceof Error ? err.message : fallback]. *)
Definition messageOf (fallback : string) (e : thrown) : string :=
  match e with
  | ErrorObject m => m
  | NonError => fallback
  end.

(** [arr.forEach(body)] over a state that the body updates or throws on. *)
Fixpoint forEach {A S} (body : S -> A -> result S) (l : list A) (s : S)
  : result S :=
  match l with
  | [] => Ok s
  | x :: l' =>
      match body s x with
      | Ok s' => forEach body l' s'
      | Throw e => Throw e
      end
  end.

(** The entry under [k] among the own keys of an object, or [map.get(k)]
    on a [Map]: [None] is [undefined]. *)
Fixpoint get {V} (k : string) (o : list (string * V)) : option V :=
  match o with
  | [] => None
  | (k', v) :: o' => if String.eqb k k' then Some v else get k o'
  end.

(** [obj[k].field op= ...]: update the entry under [k] in place; reading a
    field of [undefined] throws a [TypeError]. *)
Fixpoint update {V} (k : string) (f : V -> V) (o : list (string * V))
  : result (list (string * V)) :=
  match o with
  | [] => Throw (ErrorObject "Cannot read properties of undefined")
  | (k', v) :: o' =>
      if String.eqb k k' then Ok ((k', f v) :: o')
      else bind (update k f o') (fun o'' => Ok ((k', v) :: o''))
  end.

(** [map.set(k, v)]: replace in place, or append a new key. *)
Fixpoint set {V} (k : string) (v : V) (o : list (string * V))
  : list (string * V) :=
  match o with
  | [] => [(k, v)]
  | (k', v') :: o' =>
      if String.eqb k k' then (k', v) :: o' else (k', v') :: set k v o'
  end.

(** The names an object literal inherits from [Object.prototype].  Under
    one of them [table[k]] is not [undefined] but the inherited member: a
    built-in function, or the prototype object for [__proto__]. *)
Definition inheritedNames : list string :=
  [ "constructor"; "__defineGetter__"; "__defineSetter__"; "hasOwnProperty";
    "__lookupGetter__"; "__lookupSetter__"; "isPrototypeOf";
    "propertyIsEnumerable"; "toString"; "valueOf"; "__proto__";
    "toLocaleString" ].

Definition isInherited (k : string) : bool :=
  existsb (String.eqb k) inheritedNames.

(** What [table[k]] yields on an object literal whose own values are
    strings. *)
Inductive value : Type :=
| Undefined
| Str (s : string)
| Inherited (name : string).

(** [table[k]]: the own entry, else the member inherited under that name,
    else [undefined]. *)
Definition lookup (k : string) (table : list (string * string)) : value :=
  match get k table with
  | Some s => Str s
  | None => if isInherited k then Inherited k else Undefined
  end.

(** [if (v)] and [v || ...]: [undefined] and the empty string are falsy,
    functions and objects are truthy. *)
Definition isTruthy (v : value) : bool :=
  match v with
  | Undefined => false
  | Str s => negb (String.eqb s "")
  | Inherited _ => true
  end.

(** [String(v)] of an inherited member: the prototype object prints as
    [[object Object]], and a built-in function as V8 prints it (the text of
    a built-in function is left to the engine). *)
Definition inheritedText (name : string) : string :=
  if String.eqb name "__proto__" then "[object Object]"
  else if String.eqb name "constructor"
       then "function Object() { [native code] }"
       else "function " +:+ name +:+ "() { [native code] }".

(** The property key that [obj[v]] reads or writes: [String(v)]. *)
Definition propertyKey (v : value) : string :=
  match v with
  | Undefined => "undefined"
  | Str s => s
  | Inherited name => inheritedText name
  end.

(** [arr.sort(cmp)]: a stable sort; [cmp a b = Gt] is a positive result. *)
Fixpoint insertSorted {A} (cmp : A -> A -> comparison) (x : A) (l : list A)
  : list A :=
  match l with
  | [] => [x]
  | y :: l' =>
      match cmp x y with
      | Gt => y :: insertSorted cmp x l'
      | _ => x :: l
      end
  end.

Definition sort {A} (cmp : A -> A -> comparison) (l : list A) : list A :=
  fold_right (insertSorted cmp) [] l.

(** [URLSearchParams]: the appended entries, in order. *)
Definition URLSearchParams : Type := list (string * string).

Definition append (name value : string) (p : URLSearchParams)
  : URLSearchParams := p ++ [(name, value)].

(** A GET request: the endpoint's path and the query entries. *)
Record Request : Type := mkRequest {
  path : string;
  params : URLSearchParams
}.

(** What [fetch] yields: a response, whose [json()] is the parsed body or a
    thrown parse error, or a rejection (transport failure). *)
Record Response (A : Type) : Type := mkResponse {
  status : nat;
  statusText : string;
  json : result A
}.
Arguments mkResponse {A} _ _ _.
Arguments status {A} _.
Arguments statusText {A} _.
Arguments json {A} _.

(** [response.ok]: the status is in the range 200-299. *)
Definition ok {A} (r : Response A) : bool :=
  (200 <=? status r)%nat && (status r <=? 299)%nat.

Inductive FetchOutcome (A : Type) : Type :=
| Rejected (e : thrown)
| Resolved (r : Response A).
Arguments Rejected {A} e.
Arguments Resolved {A} r.

(** [await fetch(...)]. *)
Definition await {A} (o : FetchOutcome A) : result (Response A) :=
  match o with
  | Rejected e => Throw e
  | Resolved r => Ok r
  end.

(** The three [useState] cells every fetching view holds. *)
Record ViewState (D : Type) : Type := mkViewState {
  data : D;
  loading : bool;
  error : option string
}.
Arguments mkViewState {D} _ _ _.
Arguments data {D} _.
Arguments loading {D} _.
Arguments error {D} _.

Definition setData {D} (d : D) (st : ViewState D) : ViewState D :=
  mkViewState d (loading st) (error st).
Definition setLoading {D} (b : bool) (st : ViewState D) : ViewState D :=
  mkViewState (data st) b (error st).
Definition setError {D} (e : option string) (st : ViewState D)
  : ViewState D :=
  mkViewState (data st) (loading st) e.

(** The [catch] and [finally] blocks shared by every view: an exception of
    the [try] body becomes the error string, and the loading flag is
    cleared either way. *)
Definition catchFinally {D} (fallback : string)
    (body : result (ViewState D)) (st : ViewState D) : ViewState D :=
  let st' :=
    match body with
    | Ok st' => st'
    | Throw err => setError (Some (messageOf fallback err)) st
    end in
  setLoading false st'.

End JS.

Import JS.

(** ** contexts/DateFilterContext.tsx *)

Module DateFilterContext.

Record DateRange : Type := mkDateRange {
  startDate : string;
  endDate : string
}.

Definition initialRange : DateRange :=
  {| startDate := "2010-06-01"; endDate := "2011-01-01" |}.

(** The provider's two state cells. *)
Record Store : Type := mkStore {
  dateRange : DateRange;
  tempDateRange : DateRange
}.

Definition DateFilterProvider : Store :=
  {| dateRange := initialRange; tempDateRange := initialRange |}.

Definition setTempDateRange (range : DateRange) (s : Store) : Store :=
  {| dateRange := dateRange s; tempDateRange := range |}.

Definition applyDateRange (s : Store) : Store :=
  {| dateRange := tempDateRange s; tempDateRange := tempDateRange s |}.

(** The operations the context exposes to its consumers. *)
Inductive Action : Type :=
| SetTempDateRange (range : DateRange)
| ApplyDateRange.

Definition dispatch (a : Action) (s : Store) : Store :=
  match a with
  | SetTempDateRange range => setTempDateRange range s
  | ApplyDateRange => applyDateRange s
  end.

End DateFilterContext.

Import DateFilterContext.

(** A string used as a condition: only the empty string is falsy. *)
Definition truthy (s : string) : bool :=
  match s with
  | EmptyString => false
  | String _ _ => true
  end.

(** [if (dateRange.startDate) params.append("start_date", start);
     if (dateRange.endDate) params.append("end_date", end)], where the
    views differ in the value they append. *)
Definition appendRange (start_value end_value : string)
    (dateRange : DateRange) (params : URLSearchParams) : URLSearchParams :=
  let params :=
    if truthy (startDate dateRange)
    then JS.append "start_date" start_value params else params in
  if truthy (endDate dateRange)
  then JS.append "end_date" end_value params else params.

(** [if (error)] on the error cell: [null] and the empty string are falsy,
    any other message is shown. *)
Definition shownError (error : option string) : option string :=
  match error with
  | Some message => if truthy message then Some message else None
  | None => None
  end.

(** ** components/filters/DateRangeFilter.tsx *)

Module DateRangeFilter.

(** The [onChange] handler of the From input:
    [setTempDateRange({ ...tempDateRange, startDate: e.target.value })]. *)
Definition changeStart (value : string) (s : Store) : Store :=
  setTempDateRange
    {| startDate := value; endDate := endDate (tempDateRange s) |} s.

(** The [onChange] handler of the To input. *)
Definition changeEnd (value : string) (s : Store) : Store :=
  setTempDateRange
    {| startDate := startDate (tempDateRange s); endDate := value |} s.

(** What the user can do with the filter: type in either input, or press
    Update, whose [onClick] is [applyDateRange]. *)
Inductive Event : Type :=
| TypeStart (value : string)
| TypeEnd (value : string)
| ClickUpdate.

Definition handle (s : Store) (e : Event) : Store :=
  match e with
  | TypeStart value => changeStart value s
  | TypeEnd value => changeEnd value s
  | ClickUpdate => applyDateRange s
  end.

Definition isEdit (e : Event) : bool :=
  match e with
  | ClickUpdate => false
  | _ => true
  end.

End DateRangeFilter.

(** ** components/charts/DryVsRainyChart.tsx *)

Module DryVsRainyChart.

Record PrecipitationData : Type := mkPrecipitationData {
  zone : string;
  rainy_day : bool;
  avg_load_mw : Q;
  num_days : Q
}.

Record ChartDataPoint : Type := mkChartDataPoint {
  region : string;
  dry : jsnum;
  rainy : jsnum
}.

(** The per-region accumulator of [regionData]. *)
Module Values.
Record t : Type := mk {
  dry : Q;
  rainy : Q;
  dryCount : Q;
  rainyCount : Q
}.
Definition zero : t :=
  {| dry := 0; rainy := 0; dryCount := 0; rainyCount := 0 |}.
End Values.

Definition zoneToRegionMap : list (string * string) :=
  [ ("north", "North"); ("north_c", "North");
    ("southern", "South"); ("south_c", "South");
    ("west", "West"); ("far_west", "West");
    ("coast", "Houston"); ("east", "Houston") ].

Definition request (dateRange : DateRange) : Request :=
  {| path := "/weather/precipitation";
     params := appendRange (startDate dateRange) (endDate dateRange)
                 dateRange [] |}.

Definition regionData0 : list (string * Values.t) :=
  [ ("North", Values.zero); ("South", Values.zero);
    ("West", Values.zero); ("Houston", Values.zero) ].

Definition addRainy (x : Q) (v : Values.t) : Values.t :=
  Values.mk (Values.dry v) (Values.rainy v + x)
            (Values.dryCount v) (Values.rainyCount v).
Definition incRainyCount (v : Values.t) : Values.t :=
  Values.mk (Values.dry v) (Values.rainy v)
            (Values.dryCount v) (Values.rainyCount v + 1).
Definition addDry (x : Q) (v : Values.t) : Values.t :=
  Values.mk (Values.dry v + x) (Values.rainy v)
            (Values.dryCount v) (Values.rainyCount v).
Definition incDryCount (v : Values.t) : Values.t :=
  Values.mk (Values.dry v) (Values.rainy v)
            (Values.dryCount v + 1) (Values.rainyCount v).

(** The body of [apiData.forEach].  When the zone is a name inherited from
    [Object.prototype] the lookup is truthy, [regionData] has no entry under
    the key of the inherited member, and the first [+=] throws. *)
Definition accumulate (regionData : list (string * Values.t))
    (item : PrecipitationData) : result (list (string * Values.t)) :=
  let displayRegion := JS.lookup (zone item) zoneToRegionMap in
  if JS.isTruthy displayRegion then
    let key := JS.propertyKey displayRegion in
    if rainy_day item then
      regionData ← JS.update key (addRainy (avg_load_mw item)) regionData;
      JS.update key incRainyCount regionData
    else
      regionData ← JS.update key (addDry (avg_load_mw item)) regionData;
      JS.update key incDryCount regionData
  else Ok regionData.

(** The callback of [Object.entries(regionData).map]. *)
Definition toPoint (entry : string * Values.t) : ChartDataPoint :=
  let '(region, values) := entry in
  {| region := region;
     dry := if gtb (Values.dryCount values) 0
            then jsdiv (Values.dry values) (Values.dryCount values)
            else Fin 0;
     rainy := if gtb (Values.rainyCount values) 0
              then jsdiv (Values.rainy values) (Values.rainyCount values)
              else Fin 0 |}.

(** From the parsed array to [chartData]. *)
Definition aggregate (apiData : list PrecipitationData)
  : result (list ChartDataPoint) :=
  regionData ← forEach accumulate apiData regionData0;
  mret (map toPoint regionData).

Definition fetchData (outcome : FetchOutcome (list PrecipitationData))
    (st : ViewState (list ChartDataPoint)) : ViewState (list ChartDataPoint) :=
  let st := setError None (setLoading true st) in
  catchFinally "Failed to load data"
    (response ← await outcome;
     if negb (ok response)
     then Throw (ErrorObject ("API error: " +:+ showNat (status response)))
     else
       apiData ← json response;
       chartData ← aggregate apiData;
       mret (setData chartData st))
    st.

(** What the component returns for its state and its [selectedRegion]. *)
Inductive Rendered : Type :=
| Loading
| ErrorText (message : string)
| NoData
| BarChart (filteredData : list ChartDataPoint).

Definition render (selectedRegion : string)
    (st : ViewState (list ChartDataPoint)) : Rendered :=
  if loading st then Loading
  else
    match shownError (error st) with
    | Some message => ErrorText message
    | None =>
        match data st with
        | [] => NoData
        | _ :: _ =>
            BarChart
              (if String.eqb selectedRegion "all" then data st
               else List.filter
                      (fun d => String.eqb (region d) selectedRegion)
                      (data st))
        end
    end.

End DryVsRainyChart.

(** ** components/charts/HeatwavesByZoneChart.tsx *)

Module HeatwavesByZoneChart.

Record HeatwaveData : Type := mkHeatwaveData {
  zone : string;
  streak_start : string;
  streak_end : string;
  streak_days : Q;
  avg_peak_load_mw : option Q
}.

Module ChartDataPoint.
Record t : Type := mk {
  zone : string;
  heatwaves : jsnum
}.
End ChartDataPoint.

Definition zoneToDisplayMap : list (string * string) :=
  [ ("north", "North"); ("north_c", "North");
    ("southern", "South"); ("south_c", "South");
    ("west", "West"); ("far_west", "West");
    ("coast", "Houston"); ("east", "Houston") ].

Definition request (dateRange : DateRange) : Request :=
  {| path := "/weather/heatwaves";
     params := appendRange (startDate dateRange) (endDate dateRange)
                 dateRange [("min_temp_f", "100"); ("min_days", "3")] |}.

Definition zoneCount0 : list (string * jsnum) :=
  [ ("North", Fin 0); ("South", Fin 0); ("West", Fin 0); ("Houston", Fin 0) ].

(** [zoneCount[k]++]: the entry plus one; on a key that is absent the
    increment of [undefined] stores NaN under a new key. *)
Definition increment (k : string) (zoneCount : list (string * jsnum))
  : list (string * jsnum) :=
  match JS.get k zoneCount with
  | Some (Fin c) => JS.set k (Fin (c + 1)) zoneCount
  | Some NotFinite | None => JS.set k NotFinite zoneCount
  end.

(** The body of [apiData.forEach].  When the zone is a name inherited from
    [Object.prototype] the lookup is truthy and the increment stores NaN
    under the key of the inherited member, a fifth entry. *)
Definition countStreak (zoneCount : list (string * jsnum))
    (heatwave : HeatwaveData) : result (list (string * jsnum)) :=
  let displayZone := JS.lookup (zone heatwave) zoneToDisplayMap in
  if JS.isTruthy displayZone
  then Ok (increment (JS.propertyKey displayZone) zoneCount)
  else Ok zoneCount.

(** The callback of [Object.entries(zoneCount).map]. *)
Definition toPoint (entry : string * jsnum) : ChartDataPoint.t :=
  let '(zone, count) := entry in ChartDataPoint.mk zone count.

Definition aggregate (apiData : list HeatwaveData)
  : result (list ChartDataPoint.t) :=
  zoneCount ← forEach countStreak apiData zoneCount0;
  mret (map toPoint zoneCount).

Definition fetchData (outcome : FetchOutcome (list HeatwaveData))
    (st : ViewState (list ChartDataPoint.t))
  : ViewState (list ChartDataPoint.t) :=
  let st := setError None (setLoading true st) in
  catchFinally "Failed to load data"
    (response ← await outcome;
     if negb (ok response)
     then Throw (ErrorObject ("API error: " +:+ showNat (status response)))
     else
       apiData ← json response;
       chartData ← aggregate apiData;
       mret (setData chartData st))
    st.

(** What the component returns for its state and its [selectedZone];
    [NoData] is the text "No heatwaves detected". *)
Inductive Rendered : Type :=
| Loading
| ErrorText (message : string)
| NoData
| BarChart (filteredData : list ChartDataPoint.t).

Definition render (selectedZone : string)
    (st : ViewState (list ChartDataPoint.t)) : Rendered :=
  if loading st then Loading
  else
    match shownError (error st) with
    | Some message => ErrorText message
    | None =>
        match data st with
        | [] => NoData
        | _ :: _ =>
            BarChart
              (if String.eqb selectedZone "all" then data st
               else List.filter
                      (fun d => String.eqb (ChartDataPoint.zone d) selectedZone)
                      (data st))
        end
    end.

End HeatwavesByZoneChart.

(** ** components/charts/ExtremeHeatLoadTable.tsx *)

Module ExtremeHeatLoadTable.

Record ExtremeHeatData : Type := mkExtremeHeatData {
  zone : string;
  median_peak_load_mw : Q;
  num_extreme_heat_days : Q;
  threshold_percentile : Q;
  threshold_temp_f : Q
}.

Module RegionData.
Record t : Type := mk {
  region : string;
  median_peak_load_mw : Q;
  num_extreme_heat_days : jsnum;
  avg_threshold_temp_f : jsnum
}.
End RegionData.

(** The arrays collected per region in [regionMap]. *)
Record Collected : Type := mkCollected {
  loads : list Q;
  days : list Q;
  temps : list Q
}.

Definition zoneToRegionMap : list (string * string) :=
  [ ("north", "North"); ("north_c", "North");
    ("southern", "South"); ("south_c", "South");
    ("west", "West"); ("far_west", "West");
    ("coast", "Houston"); ("east", "Houston") ].

Definition request (dateRange : DateRange) : Request :=
  {| path := "/load/peak-load-extreme-heat";
     params := appendRange (startDate dateRange) (endDate dateRange)
                 dateRange [] |}.

(** The three [push] calls on the arrays of one region. *)
Definition pushItem (item : ExtremeHeatData) (c : Collected) : Collected :=
  {| loads := loads c ++ [median_peak_load_mw item];
     days := days c ++ [num_extreme_heat_days item];
     temps := temps c ++ [threshold_temp_f item] |}.

(** The body of [apiData.forEach]: a region's entry is created by the first
    record that maps to it.  When the zone is a name inherited from
    [Object.prototype] the lookup is truthy and the [Map] gets an entry
    whose key is the inherited member itself; the entry is listed here under
    the member's text, which no region name equals.  The comparator of the
    sort below then calls [localeCompare] on a value that is not a string,
    and whether that call is reached depends on the order in which the
    engine's sort compares: the properties of the rows of this view are
    stated for responses without such a zone. *)
Definition collect (regionMap : list (string * Collected))
    (item : ExtremeHeatData) : result (list (string * Collected)) :=
  let found := JS.lookup (zone item) zoneToRegionMap in
  if JS.isTruthy found then
    let region := JS.propertyKey found in
    let regionMap :=
      match JS.get region regionMap with
      | None => JS.set region (mkCollected [] [] []) regionMap
      | Some _ => regionMap
      end in
    JS.update region (pushItem item) regionMap
  else Ok regionMap.

(** The callback of [Array.from(regionMap.entries()).map]. *)
Definition toRow (entry : string * Collected) : RegionData.t :=
  let '(region, data) := entry in
  {| RegionData.region := region;
     RegionData.median_peak_load_mw := JS.sum (loads data);
     RegionData.num_extreme_heat_days :=
       JS.round (jsdiv (JS.sum (days data)) (JS.len (days data)));
     RegionData.avg_threshold_temp_f :=
       jsdiv (JS.sum (temps data)) (JS.len (temps data)) |}.

Section Collation.

(** [a.localeCompare(b)], the platform's collation of two strings. *)
Variable localeCompare : string -> string -> comparison.

Definition byRegion (a b : RegionData.t) : comparison :=
  localeCompare (RegionData.region a) (RegionData.region b).

Definition aggregate (apiData : list ExtremeHeatData)
  : result (list RegionData.t) :=
  regionMap ← forEach collect apiData [];
  mret (JS.sort byRegion (map toRow regionMap)).

Definition fetchData (outcome : FetchOutcome (list ExtremeHeatData))
    (st : ViewState (list RegionData.t)) : ViewState (list RegionData.t) :=
  let st := setError None (setLoading true st) in
  catchFinally "An error occurred"
    (response ← await outcome;
     if negb (ok response)
     then Throw (ErrorObject ("Failed to fetch data: " +:+ statusText response))
     else
       apiData ← json response;
       regionData ← aggregate apiData;
       mret (setData regionData st))
    st.

End Collation.

(** What the component returns for its state; the error is shown behind
    the prefix "Error: ". *)
Inductive Rendered : Type :=
| Loading
| ErrorText (message : string)
| NoData
| Table (rows : list RegionData.t).

Definition render (st : ViewState (list RegionData.t)) : Rendered :=
  if loading st then Loading
  else
    match shownError (error st) with
    | Some message => ErrorText ("Error: " +:+ message)
    | None =>
        match data st with
        | [] => NoData
        | rows => Table rows
        end
    end.

End ExtremeHeatLoadTable.

(** ** components/charts/LoadByRegionChart.tsx *)

Module LoadByRegionChart.

Record HourlyLoadData : Type := mkHourlyLoadData {
  hour_end : string;
  north : Q;
  southern : Q;
  south_c : Q;
  west : Q;
  north_c : Q;
  coast : Q;
  east : Q;
  far_west : Q
}.

Record ChartDataPoint : Type := mkChartDataPoint {
  hour : string;
  North : Q;
  South : Q;
  West : Q;
  Houston : Q
}.

Definition MAX_CHART_POINTS : nat := 100.

(** [sampleData]: the input itself when it is short enough, otherwise
    [maxPoints] reads [data[Math.floor(i * step)]].  A read is [Some x], or
    [None] where JavaScript yields [undefined].  (When [maxPoints] is 0 the
    loop body does not run and [step] is not used.) *)
Definition sampleData {T} (data : list T) (maxPoints : nat)
  : list (option T) :=
  if (length data <=? maxPoints)%nat then map Some data
  else
    let step := (JS.len data / inject_Z (Z.of_nat maxPoints))%Q in
    map (fun i : nat =>
           let index := Qfloor (inject_Z (Z.of_nat i) * step) in
           data !! Z.to_nat index)
        (seq 0 maxPoints).

Definition request (dateRange : DateRange) : Request :=
  let params : URLSearchParams := [] in
  let params :=
    if truthy (startDate dateRange)
    then JS.append "start_date" (startDate dateRange +:+ "T00:00:00") params
    else params in
  let params :=
    if truthy (endDate dateRange)
    then JS.append "end_date" (endDate dateRange +:+ "T23:59:59") params
    else params in
  {| path := "/load/hourly"; params := params |}.

Section Locale.

(** [new Date(s).toLocaleString("en-US", {month, day, hour})], the
    platform's rendering of a timestamp. *)
Variable formatHour : string -> string.

(** The callback of [apiData.map]. *)
Definition toPoint (item : HourlyLoadData) : ChartDataPoint :=
  {| hour := formatHour (hour_end item);
     North := orZero (north item) + orZero (north_c item);
     South := orZero (southern item) + orZero (south_c item);
     West := orZero (west item) + orZero (far_west item);
     Houston := orZero (coast item) + orZero (east item) |}.

(** From the parsed array to the sampled chart data. *)
Definition transform (apiData : list HourlyLoadData)
  : list (option ChartDataPoint) :=
  sampleData (map toPoint apiData) MAX_CHART_POINTS.

Definition fetchData (outcome : FetchOutcome (list HourlyLoadData))
    (st : ViewState (list (option ChartDataPoint)))
  : ViewState (list (option ChartDataPoint)) :=
  let st := setError None (setLoading true st) in
  catchFinally "Failed to load data"
    (response ← await outcome;
     if negb (ok response)
     then Throw (ErrorObject ("API error: " +:+ showNat (status response)))
     else
       apiData ← json response;
       mret (setData (transform apiData) st))
    st.

End Locale.

(** The lines the chart can draw: a data key and a colour each. *)
Definition REGION_LINES : list (string * string) :=
  [ ("North", "#011F5B"); ("South", "#990000");
    ("West", "#8884d8"); ("Houston", "#82ca9d") ].

(** What the component returns: the chart holds the points and the lines
    selected by [selectedRegion]. *)
Inductive Rendered : Type :=
| Loading
| ErrorText (message : string)
| NoData
| LineChart (points : list (option ChartDataPoint))
            (lines : list (string * string)).

Definition render (selectedRegion : string)
    (st : ViewState (list (option ChartDataPoint))) : Rendered :=
  if loading st then Loading
  else
    match shownError (error st) with
    | Some message => ErrorText message
    | None =>
        match data st with
        | [] => NoData
        | _ :: _ =>
            LineChart (data st)
              (List.filter
                 (fun r => String.eqb selectedRegion "all"
                           || String.eqb (fst r) selectedRegion)
                 REGION_LINES)
        end
    end.

End LoadByRegionChart.

(** ** components/forecasting/MetricsCard.tsx *)

Module MetricsCard.

Record ForecastMetrics : Type := mkForecastMetrics {
  region : string;
  n : Q;
  mse : Q;
  mae : Q;
  mape_pct : Q;
  r2 : Q
}.

Module DisplayMetrics.
Record t : Type := mk {
  region : string;
  mape : jsnum;
  r2 : jsnum;
  mse : jsnum;
  mae : jsnum
}.
End DisplayMetrics.

(** The per-region accumulator of [regionGroups]. *)
Module Group.
Record t : Type := mk {
  totalN : Q;
  weightedMse : Q;
  weightedMae : Q;
  weightedMape : Q;
  weightedR2 : Q
}.
Definition zero : t :=
  {| totalN := 0; weightedMse := 0; weightedMae := 0;
     weightedMape := 0; weightedR2 := 0 |}.
End Group.

Definition regionToDisplayMap : list (string * string) :=
  [ ("coast", "Houston"); ("east", "Houston");
    ("far_west", "West");
    ("north", "North"); ("north_c", "North");
    ("southern", "South"); ("south_c", "South");
    ("west", "West") ].

(** [selectedModel === "Statistical Model" ? "statistical" :
     selectedModel === "XGBoost" ? "xgb" : "statistical"]. *)
Definition modelParam (selectedModel : string) : string :=
  if String.eqb selectedModel "Statistical Model" then "statistical"
  else if String.eqb selectedModel "XGBoost" then "xgb"
  else "statistical".

Definition request (dateRange : DateRange) (selectedModel : string)
  : Request :=
  {| path := "/forecast/metrics";
     params :=
       JS.append "model" (modelParam selectedModel)
         (appendRange (startDate dateRange +:+ "T00:00:00")
            (endDate dateRange +:+ "T23:59:59") dateRange []) |}.

(** [regionToDisplayMap[metric.region] || metric.region], as the key of
    [regionGroups] it is used for: a region that is a name inherited from
    [Object.prototype] yields the inherited member, whose text becomes the
    key. *)
Definition displayRegionOf (metric : ForecastMetrics) : string :=
  let found := JS.lookup (region metric) regionToDisplayMap in
  if JS.isTruthy found then JS.propertyKey found else region metric.

(** The five [+=] on the region's group. *)
Definition addTo (metric : ForecastMetrics) (group : Group.t) : Group.t :=
  {| Group.totalN := Group.totalN group + n metric;
     Group.weightedMse := Group.weightedMse group + mse metric * n metric;
     Group.weightedMae := Group.weightedMae group + mae metric * n metric;
     Group.weightedMape :=
       Group.weightedMape group + mape_pct metric * n metric;
     Group.weightedR2 := Group.weightedR2 group + r2 metric * n metric |}.

(** The body of [apiData.forEach]: the group of a display region is created
    on first use, then updated in place. *)
Definition accumulate (regionGroups : gmap string Group.t)
    (metric : ForecastMetrics) : gmap string Group.t :=
  let displayRegion := displayRegionOf metric in
  let regionGroups :=
    match regionGroups !! displayRegion with
    | None => <[displayRegion := Group.zero]> regionGroups
    | Some _ => regionGroups
    end in
  alter (addTo metric) displayRegion regionGroups.

Definition regionGroupsOf (apiData : list ForecastMetrics)
  : gmap string Group.t :=
  foldl accumulate ∅ apiData.

(** The callback of [Object.entries(regionGroups).map]. *)
Definition toDisplay (entry : string * Group.t) : DisplayMetrics.t :=
  let '(region, group) := entry in
  let guarded (weighted : Q) : jsnum :=
    if gtb (Group.totalN group) 0
    then jsdiv weighted (Group.totalN group) else Fin 0 in
  {| DisplayMetrics.region := region;
     DisplayMetrics.mape := guarded (Group.weightedMape group);
     DisplayMetrics.r2 := guarded (Group.weightedR2 group);
     DisplayMetrics.mse := guarded (Group.weightedMse group);
     DisplayMetrics.mae := guarded (Group.weightedMae group) |}.

(** The accumulation and the finalisation of one metric of one group on
    IEEE 754 doubles, the numbers the code computes with: [records] are
    the pairs of a record's metric and its [n], and the state of the fold
    is the pair of [totalN] and the weighted sum. *)
Module Doubles.
Import PrimFloat.

Definition weightedMean (records : list (float * float)) : float :=
  let group :=
    fold_left
      (fun group record =>
         (fst group + snd record, snd group + fst record * snd record)%float)
      records (0, 0)%float in
  if (0 <? fst group)%float then (snd group / fst group)%float else 0%float.

(** Two records of sample count 2 whose metric is 2^1023 and -2^1023. *)
Definition overflowing : list (float * float) :=
  [ (0x1p+1023, 2); (-0x1p+1023, 2) ]%float.

End Doubles.

(** From the parsed array to [displayData]. *)
Definition aggregate (apiData : list ForecastMetrics)
  : list DisplayMetrics.t :=
  map toDisplay (map_to_list (regionGroupsOf apiData)).

Definition fetchData (outcome : FetchOutcome (list ForecastMetrics))
    (st : ViewState (list DisplayMetrics.t))
  : ViewState (list DisplayMetrics.t) :=
  let st := setError None (setLoading true st) in
  catchFinally "Failed to load data"
    (response ← await outcome;
     if negb (ok response)
     then Throw (ErrorObject ("API error: " +:+ showNat (status response)))
     else
       apiData ← json response;
       mret (setData (aggregate apiData) st))
    st.

(** What the card shows for its state and the region chosen in its
    select; [NoMetrics] is the text "No metrics available". *)
Inductive Rendered : Type :=
| Loading
| ErrorText (message : string)
| NoMetrics
| Table (metricsData : list DisplayMetrics.t).

Definition metricsDataOf (metricsRegion : string)
    (data : list DisplayMetrics.t) : list DisplayMetrics.t :=
  if String.eqb metricsRegion "All" then data
  else List.filter
         (fun m => String.eqb (DisplayMetrics.region m) metricsRegion) data.

Definition render (metricsRegion : string)
    (st : ViewState (list DisplayMetrics.t)) : Rendered :=
  if loading st then Loading
  else
    match shownError (error st) with
    | Some message => ErrorText message
    | None =>
        match metricsDataOf metricsRegion (data st) with
        | [] => NoMetrics
        | metricsData => Table metricsData
        end
    end.

End MetricsCard.

(** ** components/forecasting/OutlierDetectionCard.tsx *)

Module OutlierDetectionCard.

Inductive OutlierType : Type := high | low.

Record LoadOutlier : Type := mkLoadOutlier {
  hour_end : string;
  region : string;
  load_mw : Q;
  mean : Q;
  std_dev : Q;
  z_score : Q;
  outlier_type : OutlierType
}.

Module ScatterDataPoint.
Record t : Type := mk {
  time : string;
  residual : Q;
  region : string
}.
End ScatterDataPoint.

(** The body of the response: an object whose [data] field is the array. *)
Record OutlierResult : Type := mkOutlierResult {
  data : list LoadOutlier
}.

Record Thresholds : Type := mkThresholds {
  upper : Q;
  lower : Q
}.

(** The view's [data] and [thresholds] cells. *)
Record Cells : Type := mkCells {
  scatter : list ScatterDataPoint.t;
  thresholds : Thresholds
}.

Definition regionToDisplayMap : list (string * string) :=
  [ ("coast", "Houston"); ("east", "Houston");
    ("far_west", "West");
    ("north", "North"); ("north_c", "North");
    ("southern", "South"); ("south_c", "South");
    ("west", "West");
    ("ercot", "All") ].

Definition STD_DEV_THRESHOLD : Q := 3.

Definition request (dateRange : DateRange) : Request :=
  {| path := "/load/outliers";
     params :=
       appendRange (startDate dateRange +:+ "T00:00:00")
         (endDate dateRange +:+ "T23:59:59") dateRange
         [("std_dev_threshold", "3"); ("limit", "1000")] |}.

Section Locale.

(** [new Date(s).toLocaleString("en-US", {month, day, hour})]. *)
Variable formatHour : string -> string.

(** The callback of [apiData.map].  A region that is a name inherited from
    [Object.prototype] yields the inherited member as the point's region,
    listed here by its text; it equals no option of the region select. *)
Definition toPoint (outlier : LoadOutlier) : ScatterDataPoint.t :=
  let found := JS.lookup (region outlier) regionToDisplayMap in
  let displayRegion :=
    if JS.isTruthy found then JS.propertyKey found else region outlier in
  let residual := (load_mw outlier - mean outlier)%Q in
  {| ScatterDataPoint.time := formatHour (hour_end outlier);
     ScatterDataPoint.residual := residual;
     ScatterDataPoint.region := displayRegion |}.

Definition scatterData (apiData : list LoadOutlier)
  : list ScatterDataPoint.t :=
  map toPoint apiData.

(** The threshold lines, from the first record when there is one. *)
Definition thresholdsOf (apiData : list LoadOutlier) (old : Thresholds)
  : Thresholds :=
  match apiData with
  | first :: _ =>
      {| upper := STD_DEV_THRESHOLD * std_dev first;
         lower := - STD_DEV_THRESHOLD * std_dev first |}
  | [] => old
  end.

Definition fetchData (outcome : FetchOutcome OutlierResult)
    (st : ViewState Cells) : ViewState Cells :=
  let st := setError None (setLoading true st) in
  catchFinally "Failed to load data"
    (response ← await outcome;
     if negb (ok response)
     then Throw (ErrorObject ("API error: " +:+ showNat (status response)))
     else
       result ← json response;
       let apiData := data result in
       let old := thresholds (JS.data st) in
       mret (setData
               {| scatter := scatterData apiData;
                  thresholds := thresholdsOf apiData old |}
               st))
    st.

End Locale.

(** The cells as [useState] initialises them. *)
Definition initial : ViewState Cells :=
  mkViewState {| scatter := []; thresholds := {| upper := 0; lower := 0 |} |}
    true None.

(** The points of the region chosen in the card's select. *)
Definition residualsFiltered (outlierRegion : string)
    (points : list ScatterDataPoint.t) : list ScatterDataPoint.t :=
  if String.eqb outlierRegion "All" then points
  else List.filter
         (fun r => String.eqb (ScatterDataPoint.region r) outlierRegion)
         points.

(** [residual > thresholds.upper || residual < thresholds.lower]. *)
Definition isOutlier (t : Thresholds) (residual : Q) : bool :=
  gtb residual (upper t) || gtb (lower t) residual.

Definition outliers (outlierRegion : string) (cells : Cells)
  : list ScatterDataPoint.t :=
  List.filter
    (fun r => isOutlier (thresholds cells) (ScatterDataPoint.residual r))
    (residualsFiltered outlierRegion (scatter cells)).

(** The list on the right: [outliers.slice(0, 20)], and the number behind
    "+... more" when there are more than 20. *)
Definition listed (found : list ScatterDataPoint.t)
  : list ScatterDataPoint.t := firstn 20 found.

Definition more (found : list ScatterDataPoint.t) : option nat :=
  if (20 <? length found)%nat then Some (length found - 20)%nat else None.

End OutlierDetectionCard.

(** ** components/forecasting/HistoricalForecastCard.tsx *)

Module HistoricalForecastCard.

Record LoadComparison : Type := mkLoadComparison {
  hour_end : string;
  coast_actual : option Q;
  coast_expected : option Q;
  east_actual : option Q;
  east_expected : option Q;
  far_west_actual : option Q;
  far_west_expected : option Q;
  north_actual : option Q;
  north_expected : option Q;
  north_c_actual : option Q;
  north_c_expected : option Q;
  southern_actual : option Q;
  southern_expected : option Q;
  south_c_actual : option Q;
  south_c_expected : option Q;
  west_actual : option Q;
  west_expected : option Q;
  ercot_actual : option Q;
  ercot_expected : option Q
}.

Record ChartDataPoint : Type := mkChartDataPoint {
  time : string;
  historical : Q;
  forecast : Q
}.

(** [Record<Region, ChartDataPoint[]>]: one series per region option. *)
Record RegionSeries : Type := mkRegionSeries {
  All : list ChartDataPoint;
  North : list ChartDataPoint;
  South : list ChartDataPoint;
  West : list ChartDataPoint;
  Houston : list ChartDataPoint
}.

Record DateLabels : Type := mkDateLabels {
  start : string;
  end_ : string
}.

(** The view's [data] and [dateLabels] cells. *)
Record Cells : Type := mkCells {
  series : RegionSeries;
  dateLabels : DateLabels
}.

Definition modelParam (selectedModel : string) : string :=
  if String.eqb selectedModel "Statistical Model" then "statistical"
  else if String.eqb selectedModel "XGBoost" then "xgb"
  else "statistical".

Definition request (dateRange : DateRange) (selectedModel : string)
  : Request :=
  {| path := "/load/comparison";
     params :=
       JS.append "model" (modelParam selectedModel)
         (appendRange (startDate dateRange +:+ "T00:00:00")
            (endDate dateRange +:+ "T23:59:59") dateRange []) |}.

Section Locale.

(** [toLocaleString] with month, day and hour, and [toLocaleDateString]
    with month, day and year. *)
Variable formatHour : string -> string.
Variable formatDate : string -> string.

(** A region's point from two zones, pushed when all four readings are
    defined. *)
Definition pairPoint (time : string) (a_actual a_expected
    b_actual b_expected : option Q) (l : list ChartDataPoint)
  : list ChartDataPoint :=
  if defined a_actual && defined a_expected
     && defined b_actual && defined b_expected
  then l ++ [ {| time := time;
                 historical := orZeroOpt a_actual + orZeroOpt b_actual;
                 forecast := orZeroOpt a_expected + orZeroOpt b_expected |} ]
  else l.

(** The body of [apiData.forEach]. *)
Definition pushItem (regionData : RegionSeries) (item : LoadComparison)
  : RegionSeries :=
  let time := formatHour (hour_end item) in
  {| All :=
       if defined (ercot_actual item) && defined (ercot_expected item)
       then All regionData ++
              [ {| time := time;
                   historical := orZeroOpt (ercot_actual item);
                   forecast := orZeroOpt (ercot_expected item) |} ]
       else All regionData;
     North := pairPoint time (north_actual item) (north_expected item)
                (north_c_actual item) (north_c_expected item)
                (North regionData);
     South := pairPoint time (southern_actual item) (southern_expected item)
                (south_c_actual item) (south_c_expected item)
                (South regionData);
     West := pairPoint time (west_actual item) (west_expected item)
               (far_west_actual item) (far_west_expected item)
               (West regionData);
     Houston := pairPoint time (coast_actual item) (coast_expected item)
                  (east_actual item) (east_expected item)
                  (Houston regionData) |}.

Definition transform (apiData : list LoadComparison) : RegionSeries :=
  foldl pushItem (mkRegionSeries [] [] [] [] []) apiData.

(** The labels, from the first and last record when there is one. *)
Definition labelsOf (apiData : list LoadComparison) (old : DateLabels)
  : DateLabels :=
  match head apiData, last apiData with
  | Some first, Some final =>
      {| start := formatDate (hour_end first);
         end_ := formatDate (hour_end final) |}
  | _, _ => old
  end.

Definition fetchData (outcome : FetchOutcome (list LoadComparison))
    (st : ViewState Cells) : ViewState Cells :=
  let st := setError None (setLoading true st) in
  catchFinally "Failed to load data"
    (response ← await outcome;
     if negb (ok response)
     then Throw (ErrorObject ("API error: " +:+ showNat (status response)))
     else
       apiData ← json response;
       mret (setData
               {| series := transform apiData;
                  dateLabels := labelsOf apiData (dateLabels (data st)) |}
               st))
    st.

End Locale.

(** [data[selectedRegion] || []]: the series of the region chosen in the
    card's select. *)
Definition chartData (selectedRegion : string) (series : RegionSeries)
  : list ChartDataPoint :=
  if String.eqb selectedRegion "All" then All series
  else if String.eqb selectedRegion "North" then North series
  else if String.eqb selectedRegion "South" then South series
  else if String.eqb selectedRegion "West" then West series
  else if String.eqb selectedRegion "Houston" then Houston series
  else [].

End HistoricalForecastCard.

(** ** components/charts/ExtremeHeatLoadChart.tsx *)

Module ExtremeHeatLoadChart.

Record Point : Type := mkPoint {
  day : string;
  load : Q
}.

Definition data : list Point :=
  [ {| day := "Day 1"; load := 3400 |};
    {| day := "Day 2"; load := 3600 |};
    {| day := "Day 3"; load := 3550 |};
    {| day := "Day 4"; load := 3700 |};
    {| day := "Day 5"; load := 3650 |} ].

(** What rendering the component amounts to: the series handed to the line
    chart and the requests its effects issue. *)
Record Rendered : Type := mkRendered {
  chartData : list Point;
  requests : list Request
}.

(** The component has no state and declares no effect. *)
Definition ExtremeHeatLoadChart (dateRange : DateRange) : Rendered :=
  {| chartData := data; requests := [] |}.

End ExtremeHeatLoadChart.

(** ** Vocabulary of the properties *)

(** The view shows an error whose message contains the status code. *)
Definition errorShowsStatus {D} (code : nat) (st : ViewState D) : Prop :=
  exists msg, error st = Some msg /\ JS.includes (showNat code) msg = true.

(** A response with the given status line. *)
Definition responded {A} (code : nat) (text : string) (body : result A)
  : FetchOutcome A :=
  Resolved (mkResponse code text body).

(** The four display regions, in the order of the object literals. *)
Definition displayRegions : list string :=
  ["North"; "South"; "West"; "Houston"].

(** No record of a response carries, as its zone, a name that object
    literals inherit from [Object.prototype]. *)
Definition plainZones {A} (zone : A -> string) (apiData : list A) : Prop :=
  Forall (fun item => JS.isInherited (zone item) = false) apiData.

(** The tables of a list agree as functions: they have the same keys and
    the same value under each key. *)
Definition tablesAgree (tables : list (list (string * string))) : Prop :=
  forall t1 t2 z, In t1 tables -> In t2 tables -> JS.get z t1 = JS.get z t2.

(** The positions of a list never decrease from left to right. *)
Definition nondecreasing (indices : list nat) : Prop :=
  forall i j a b,
    (i <= j)%nat -> indices !! i = Some a -> indices !! j = Some b ->
    (a <= b)%nat.

(** Two statistics are the same number. *)
Definition jsnum_eq (x y : jsnum) : Prop :=
  match x, y with
  | Fin a, Fin b => (a == b)%Q
  | NotFinite, NotFinite => True
  | _, _ => False
  end.

(** The records of a precipitation response that contribute to a region's
    dry, respectively rainy, mean. *)
Definition dryRecords (r : string)
    (apiData : list DryVsRainyChart.PrecipitationData)
  : list DryVsRainyChart.PrecipitationData :=
  filter (fun item =>
            JS.get (DryVsRainyChart.zone item) DryVsRainyChart.zoneToRegionMap
            = Some r /\ DryVsRainyChart.rainy_day item = false) apiData.

Definition rainyRecords (r : string)
    (apiData : list DryVsRainyChart.PrecipitationData)
  : list DryVsRainyChart.PrecipitationData :=
  filter (fun item =>
            JS.get (DryVsRainyChart.zone item) DryVsRainyChart.zoneToRegionMap
            = Some r /\ DryVsRainyChart.rainy_day item = true) apiData.

(** The records of a metrics response that fall into a region's group. *)
Definition metricsOf (r : string)
    (apiData : list MetricsCard.ForecastMetrics)
  : list MetricsCard.ForecastMetrics :=
  filter (fun metric => MetricsCard.displayRegionOf metric = r) apiData.

(** Follows the specification's words: the simple mean of a metric over the
    records of a region, the sum divided by the count, and 0 when the count
    is 0. *)
Definition simpleMean (metric : MetricsCard.ForecastMetrics -> Q)
    (r : string) (apiData : list MetricsCard.ForecastMetrics) : jsnum :=
  let group := metricsOf r apiData in
  if gtb (JS.len group) 0
  then jsdiv (JS.sum (map metric group)) (JS.len group)
  else Fin 0.

(** The rows of a region are the same in two outputs of MetricsCard. *)
Definition sameRowsOf (r : string)
    (before after : list MetricsCard.DisplayMetrics.t) : Prop :=
  forall row,
    MetricsCard.DisplayMetrics.region row = r ->
    (row ∈ after <-> row ∈ before).

(** The arithmetic mean of a list of numbers, 0 for the empty list. *)
Definition mean (l : list Q) : jsnum :=
  if gtb (JS.len l) 0 then jsdiv (JS.sum l) (JS.len l) else Fin 0.

(** The records of a heatwave response whose zone maps to a region. *)
Definition streaksOf (r : string)
    (apiData : list HeatwavesByZoneChart.HeatwaveData)
  : list HeatwavesByZoneChart.HeatwaveData :=
  filter (fun heatwave =>
            JS.get (HeatwavesByZoneChart.zone heatwave)
              HeatwavesByZoneChart.zoneToDisplayMap = Some r) apiData.

(** The records of an extreme-heat response whose zone maps to a region. *)
Definition heatRecords (r : string)
    (apiData : list ExtremeHeatLoadTable.ExtremeHeatData)
  : list ExtremeHeatLoadTable.ExtremeHeatData :=
  filter (fun item =>
            JS.get (ExtremeHeatLoadTable.zone item)
              ExtremeHeatLoadTable.zoneToRegionMap = Some r) apiData.

(** The three arrays ExtremeHeatLoadTable collects from a list of records. *)
Definition collectedOf (items : list ExtremeHeatLoadTable.ExtremeHeatData)
  : ExtremeHeatLoadTable.Collected :=
  {| ExtremeHeatLoadTable.loads :=
       map ExtremeHeatLoadTable.median_peak_load_mw items;
     ExtremeHeatLoadTable.days :=
       map ExtremeHeatLoadTable.num_extreme_heat_days items;
     ExtremeHeatLoadTable.temps :=
       map ExtremeHeatLoadTable.threshold_temp_f items |}.

(** The rows of a table are in the order of a comparator: the comparator
    puts no row after a row that follows it. *)
Definition inOrder (localeCompare : string -> string -> comparison)
    (rows : list ExtremeHeatLoadTable.RegionData.t) : Prop :=
  StronglySorted
    (fun a b =>
       localeCompare (ExtremeHeatLoadTable.RegionData.region a)
         (ExtremeHeatLoadTable.RegionData.region b) <> Gt) rows.

(** A comparator is consistent on a set of names: swapping the arguments
    reverses the result, and its order is transitive. *)
Definition consistentOn (names : list string)
    (localeCompare : string -> string -> comparison) : Prop :=
  (forall a b,
      In a names -> In b names ->
      localeCompare b a = CompOpp (localeCompare a b))
  /\ (forall a b c,
        In a names -> In b names -> In c names ->
        localeCompare a b <> Gt -> localeCompare b c <> Gt ->
        localeCompare a c <> Gt).

(** A statistic is finalised behind a guard: it is 0 when the count is not
    positive, and otherwise the quotient of the total by the count, whose
    divisor is then not zero. *)
Definition guardedQuotient (total count : Q) (x : jsnum) : Prop :=
  if gtb count 0
  then x = jsdiv total count /\ ~ (count == 0)%Q
  else x = Fin 0.


(** A query entry that is sent only when its date field is not empty. *)
Definition whenGiven (date value : string) : option string :=
  if truthy date then Some value else None.

(** A record has all four readings of a region that is made of two zones. *)
Definition bothZones (a_actual a_expected b_actual b_expected : option Q)
  : bool :=
  defined a_actual && defined a_expected
  && defined b_actual && defined b_expected.

(** The point of a record in a series of the comparison card. *)
Definition comparisonPoint (formatHour : string -> string)
    (item : HistoricalForecastCard.LoadComparison) (actual expected : Q)
  : HistoricalForecastCard.ChartDataPoint :=
  {| HistoricalForecastCard.time :=
       formatHour (HistoricalForecastCard.hour_end item);
     HistoricalForecastCard.historical := actual;
     HistoricalForecastCard.forecast := expected |}.

(** The two threshold lines lie at the same distance from zero. *)
Definition symmetric (t : OutlierDetectionCard.Thresholds) : Prop :=
  (OutlierDetectionCard.lower t == - OutlierDetectionCard.upper t)%Q.

(** * Properties *)

(** ** Strings *)

Lemma prefix_append (s t : string) : String.prefix s (s +:+ t) = true.
Proof.
  induction s as [|a s IH]; simpl.
  - now destruct t.
  - destruct (Ascii.ascii_dec a a) as [_|ne]; [exact IH | now destruct ne].
Qed.

Lemma includes_prefix (sub s : string) :
  String.prefix sub s = true -> JS.includes sub s = true.
Proof.
  intros H. destruct s; unfold JS.includes; fold JS.includes;
    rewrite H; reflexivity.
Qed.

Lemma includes_append (pre sub post : string) :
  JS.includes sub (pre +:+ (sub +:+ post)) = true.
Proof.
  induction pre as [|a pre IH].
  - change (JS.includes sub (sub +:+ post) = true).
    apply includes_prefix, prefix_append.
  - change (JS.includes sub (String a (pre +:+ (sub +:+ post))) = true).
    unfold JS.includes; fold JS.includes. rewrite IH. apply orb_true_r.
Qed.

Lemma includes_suffix (pre sub : string) :
  JS.includes sub (pre +:+ sub) = true.
Proof.
  pose proof (includes_append pre sub "") as H.
  replace (sub +:+ "") with sub in H; [exact H|].
  clear H. induction sub as [|a sub IH]; [reflexivity|].
  change (String a sub = String a (sub +:+ "")). now rewrite <- IH.
Qed.

(** ** The filter state store *)

(** C7: the store is seeded with committed and draft range both
    2010-06-01..2011-01-01; writing the draft leaves the committed range
    unchanged; committing copies the draft into the committed range and
    leaves the draft unchanged; and of the two operations only committing
    changes the committed range. *)
Theorem filter_store_commit_only :
  DateFilterContext.dateRange DateFilterProvider
    = mkDateRange "2010-06-01" "2011-01-01"
  /\ tempDateRange DateFilterProvider = mkDateRange "2010-06-01" "2011-01-01"
  /\ (forall range s,
        DateFilterContext.dateRange (setTempDateRange range s)
          = DateFilterContext.dateRange s
        /\ tempDateRange (setTempDateRange range s) = range)
  /\ (forall s,
        DateFilterContext.dateRange (applyDateRange s) = tempDateRange s
        /\ tempDateRange (applyDateRange s) = tempDateRange s)
  /\ (forall a s,
        DateFilterContext.dateRange (dispatch a s) =
          match a with
          | ApplyDateRange => tempDateRange s
          | SetTempDateRange _ => DateFilterContext.dateRange s
          end).
Proof.
  repeat split.
  intros [range|] s; reflexivity.
Qed.

(** ** The static extreme-heat chart *)

(** C10: whatever date range it is given, the extreme-heat chart renders
    the same five points, Day 1 to Day 5 with loads 3400, 3600, 3550, 3700
    and 3650, and issues no request. *)
Theorem extreme_heat_chart_ignores_range :
  forall r1 r2 : DateRange,
    ExtremeHeatLoadChart.ExtremeHeatLoadChart r1
      = ExtremeHeatLoadChart.ExtremeHeatLoadChart r2
    /\ map (fun p => (ExtremeHeatLoadChart.day p, ExtremeHeatLoadChart.load p))
         (ExtremeHeatLoadChart.chartData
            (ExtremeHeatLoadChart.ExtremeHeatLoadChart r1))
       = [ ("Day 1", 3400%Q); ("Day 2", 3600%Q); ("Day 3", 3550%Q);
           ("Day 4", 3700%Q); ("Day 5", 3650%Q) ]
    /\ ExtremeHeatLoadChart.requests
         (ExtremeHeatLoadChart.ExtremeHeatLoadChart r1) = [].
Proof.
  intros r1 r2. repeat split.
Qed.

(** ** The zone-to-region tables *)

Ltac by_zone z :=
  cbn [JS.get];
  repeat match goal with
         | |- context [String.eqb z ?k] =>
             destruct (String.eqb_spec z k); [subst z; reflexivity|]
         end;
  reflexivity.

Lemma heatwaves_table_same (z : string) :
  JS.get z HeatwavesByZoneChart.zoneToDisplayMap
  = JS.get z DryVsRainyChart.zoneToRegionMap.
Proof. reflexivity. Qed.

Lemma extreme_heat_table_same (z : string) :
  JS.get z ExtremeHeatLoadTable.zoneToRegionMap
  = JS.get z DryVsRainyChart.zoneToRegionMap.
Proof. reflexivity. Qed.

Lemma metrics_table_same (z : string) :
  JS.get z MetricsCard.regionToDisplayMap
  = JS.get z DryVsRainyChart.zoneToRegionMap.
Proof.
  unfold MetricsCard.regionToDisplayMap, DryVsRainyChart.zoneToRegionMap.
  by_zone z.
Qed.

Lemma outlier_table_ercot (z : string) :
  JS.get z OutlierDetectionCard.regionToDisplayMap
  = if String.eqb z "ercot" then Some "All"
    else JS.get z DryVsRainyChart.zoneToRegionMap.
Proof.
  unfold OutlierDetectionCard.regionToDisplayMap,
    DryVsRainyChart.zoneToRegionMap.
  by_zone z.
Qed.

(** C4, as stated, fails: the table of OutlierDetectionCard has the key
    [ercot], which the other four tables do not have. *)
Lemma outlier_table_has_extra_key :
  ~ tablesAgree
      [ DryVsRainyChart.zoneToRegionMap;
        HeatwavesByZoneChart.zoneToDisplayMap;
        ExtremeHeatLoadTable.zoneToRegionMap;
        OutlierDetectionCard.regionToDisplayMap;
        MetricsCard.regionToDisplayMap ].
Proof.
  intros H.
  specialize (H DryVsRainyChart.zoneToRegionMap
                OutlierDetectionCard.regionToDisplayMap "ercot").
  simpl in H. discriminate H; tauto.
Qed.

(** C4, amended: the tables of DryVsRainyChart, HeatwavesByZoneChart,
    ExtremeHeatLoadTable and MetricsCard agree as functions (same keys, same
    value per key), and the table of OutlierDetectionCard agrees with them
    on every identifier except [ercot], which it alone maps, to "All". *)
Theorem zone_tables_agree_up_to_ercot :
  tablesAgree
    [ DryVsRainyChart.zoneToRegionMap;
      HeatwavesByZoneChart.zoneToDisplayMap;
      ExtremeHeatLoadTable.zoneToRegionMap;
      MetricsCard.regionToDisplayMap ]
  /\ (forall z,
        JS.get z OutlierDetectionCard.regionToDisplayMap
        = if String.eqb z "ercot" then Some "All"
          else JS.get z DryVsRainyChart.zoneToRegionMap)
  /\ JS.get "ercot" DryVsRainyChart.zoneToRegionMap = None.
Proof.
  split; [|split; [exact outlier_table_ercot | reflexivity]].
  assert (Hall : forall t z,
    In t [ DryVsRainyChart.zoneToRegionMap;
           HeatwavesByZoneChart.zoneToDisplayMap;
           ExtremeHeatLoadTable.zoneToRegionMap;
           MetricsCard.regionToDisplayMap ] ->
    JS.get z t = JS.get z DryVsRainyChart.zoneToRegionMap).
  { intros t z Ht. simpl in Ht.
    destruct Ht as [<-|[<-|[<-|[<-|[]]]]];
      auto using heatwaves_table_same, extreme_heat_table_same,
        metrics_table_same. }
  intros t1 t2 z H1 H2. rewrite (Hall t1 z H1), (Hall t2 z H2). reflexivity.
Qed.

(** ** Lookups that reach the prototype *)

Lemma zone_region_cases (z r : string) :
  JS.get z DryVsRainyChart.zoneToRegionMap = Some r -> In r displayRegions.
Proof.
  unfold DryVsRainyChart.zoneToRegionMap. cbn [JS.get].
  repeat match goal with
         | |- context [String.eqb z ?k] => destruct (String.eqb z k)
         end;
    intros [= <-]; simpl; tauto.
Qed.

Ltac by_region H :=
  simpl in H; destruct H as [<-|[<-|[<-|[<-|[]]]]].

Ltac by_inherited H :=
  apply existsb_exists in H as (? & H & ?%String.eqb_eq); subst;
  simpl in H;
  repeat match type of H with
         | _ \/ _ => destruct H as [<-|H]
         | False => destruct H
         end.

(** A name that is not inherited is looked up among the own keys only. *)
Lemma lookup_plain (z : string) (table : list (string * string)) :
  JS.isInherited z = false ->
  JS.lookup z table
  = match JS.get z table with
    | Some s => JS.Str s
    | None => JS.Undefined
    end.
Proof. intros H. unfold JS.lookup. now rewrite H. Qed.

(** An inherited name is not a key of the zone tables, and the text of its
    member is not a display region. *)
Lemma inherited_unmapped (z : string) :
  JS.isInherited z = true ->
  JS.lookup z DryVsRainyChart.zoneToRegionMap = JS.Inherited z.
Proof.
  intros H. unfold JS.lookup. rewrite H.
  by_inherited H; reflexivity.
Qed.

Lemma inherited_text_fresh (z : string) :
  JS.isInherited z = true -> ~ In (JS.inheritedText z) displayRegions.
Proof.
  intros H. by_inherited H; vm_compute; intuition discriminate.
Qed.

(** On a zone that is not an inherited name the loop bodies look the zone
    up among the eight keys of the table. *)
Lemma dry_vs_rainy_plain_step (s : list (string * DryVsRainyChart.Values.t))
    (x : DryVsRainyChart.PrecipitationData) :
  JS.isInherited (DryVsRainyChart.zone x) = false ->
  DryVsRainyChart.accumulate s x
  = match JS.get (DryVsRainyChart.zone x) DryVsRainyChart.zoneToRegionMap with
    | Some displayRegion =>
        if DryVsRainyChart.rainy_day x then
          s ← JS.update displayRegion
                (DryVsRainyChart.addRainy (DryVsRainyChart.avg_load_mw x)) s;
          JS.update displayRegion DryVsRainyChart.incRainyCount s
        else
          s ← JS.update displayRegion
                (DryVsRainyChart.addDry (DryVsRainyChart.avg_load_mw x)) s;
          JS.update displayRegion DryVsRainyChart.incDryCount s
    | None => Ok s
    end.
Proof.
  intros H. unfold DryVsRainyChart.accumulate. rewrite lookup_plain by exact H.
  destruct (JS.get _ _) as [r|] eqn:E; [|reflexivity].
  apply zone_region_cases in E. by_region E; reflexivity.
Qed.

Lemma heatwaves_plain_step (s : list (string * jsnum))
    (x : HeatwavesByZoneChart.HeatwaveData) :
  JS.isInherited (HeatwavesByZoneChart.zone x) = false ->
  HeatwavesByZoneChart.countStreak s x
  = match JS.get (HeatwavesByZoneChart.zone x)
            HeatwavesByZoneChart.zoneToDisplayMap with
    | Some displayZone => Ok (HeatwavesByZoneChart.increment displayZone s)
    | None => Ok s
    end.
Proof.
  intros H. unfold HeatwavesByZoneChart.countStreak.
  rewrite lookup_plain by exact H.
  destruct (JS.get _ _) as [r|] eqn:E; [|reflexivity].
  rewrite heatwaves_table_same in E.
  apply zone_region_cases in E. by_region E; reflexivity.
Qed.

Lemma extreme_heat_plain_step
    (s : list (string * ExtremeHeatLoadTable.Collected))
    (x : ExtremeHeatLoadTable.ExtremeHeatData) :
  JS.isInherited (ExtremeHeatLoadTable.zone x) = false ->
  ExtremeHeatLoadTable.collect s x
  = match JS.get (ExtremeHeatLoadTable.zone x)
            ExtremeHeatLoadTable.zoneToRegionMap with
    | Some region =>
        JS.update region (ExtremeHeatLoadTable.pushItem x)
          match JS.get region s with
          | None =>
              JS.set region (ExtremeHeatLoadTable.mkCollected [] [] []) s
          | Some _ => s
          end
    | None => Ok s
    end.
Proof.
  intros H. unfold ExtremeHeatLoadTable.collect.
  rewrite lookup_plain by exact H.
  destruct (JS.get _ _) as [r|] eqn:E; [|reflexivity].
  rewrite extreme_heat_table_same in E.
  apply zone_region_cases in E. by_region E; reflexivity.
Qed.

Lemma metrics_plain_region (metric : MetricsCard.ForecastMetrics) :
  JS.isInherited (MetricsCard.region metric) = false ->
  MetricsCard.displayRegionOf metric
  = match JS.get (MetricsCard.region metric)
            MetricsCard.regionToDisplayMap with
    | Some displayRegion => displayRegion
    | None => MetricsCard.region metric
    end.
Proof.
  intros H. unfold MetricsCard.displayRegionOf.
  rewrite lookup_plain by exact H.
  destruct (JS.get _ _) as [r|] eqn:E; [|reflexivity].
  rewrite metrics_table_same in E.
  apply zone_region_cases in E. by_region E; reflexivity.
Qed.

(** ** The query of the hourly-load view *)

(** C6: for a date range whose start and end date are non-empty, the
    hourly-load view's query carries [start_date], the start date followed
    by T00:00:00, and [end_date], the end date followed by T23:59:59, in
    this order and nothing else. *)
Theorem hourly_query_day_boundaries (dateRange : DateRange) :
  startDate dateRange <> "" ->
  endDate dateRange <> "" ->
  LoadByRegionChart.request dateRange
  = {| path := "/load/hourly";
       params := [ ("start_date", startDate dateRange +:+ "T00:00:00");
                   ("end_date", endDate dateRange +:+ "T23:59:59") ] |}.
Proof.
  intros Hs He. unfold LoadByRegionChart.request.
  destruct (startDate dateRange) as [|a s]; [contradiction|].
  destruct (endDate dateRange) as [|b e]; [contradiction|].
  reflexivity.
Qed.

Lemma hourly_query_example :
  params (LoadByRegionChart.request (mkDateRange "2010-06-01" "2010-06-02"))
  = [ ("start_date", "2010-06-01T00:00:00");
      ("end_date", "2010-06-02T23:59:59") ].
Proof.
  exact (f_equal params
           (hourly_query_day_boundaries
              (mkDateRange "2010-06-01" "2010-06-02")
              ltac:(discriminate) ltac:(discriminate))).
Defined.

(** ** Empty input *)

(** C1, as stated, fails: on an empty record list ExtremeHeatLoadTable
    produces no rows, not four rows keyed by the display regions. *)
Lemma extreme_heat_table_empty_has_no_rows :
  ~ exists rows,
      ExtremeHeatLoadTable.aggregate String.compare [] = Ok rows
      /\ map ExtremeHeatLoadTable.RegionData.region rows = displayRegions.
Proof.
  intros (rows & Hagg & Hkeys). vm_compute in Hagg.
  injection Hagg as <-. discriminate Hkeys.
Qed.

(** C1, amended: on an empty record list DryVsRainyChart and
    HeatwavesByZoneChart return exactly four rows, keyed North, South, West,
    Houston, with every statistic zero, while ExtremeHeatLoadTable and the
    time-series pipeline of LoadByRegionChart return no rows. *)
Theorem empty_input_rows :
  DryVsRainyChart.aggregate []
    = Ok (map (fun r => DryVsRainyChart.mkChartDataPoint r (Fin 0) (Fin 0))
            displayRegions)
  /\ HeatwavesByZoneChart.aggregate []
     = Ok (map (fun r => HeatwavesByZoneChart.ChartDataPoint.mk r (Fin 0))
             displayRegions)
  /\ (forall localeCompare,
        ExtremeHeatLoadTable.aggregate localeCompare [] = Ok [])
  /\ (forall formatHour, LoadByRegionChart.transform formatHour [] = []).
Proof.
  repeat split.
Qed.

(** ** Failed requests *)

Lemma ok_false {A} (code : nat) (text : string) (body : result A) :
  code < 200 \/ 299 < code -> JS.ok (mkResponse code text body) = false.
Proof.
  intros H. unfold JS.ok. cbn [status].
  apply andb_false_iff. rewrite !Nat.leb_gt. lia.
Qed.

Lemma api_error_shows_status {D} (code : nat) (st : ViewState D) :
  errorShowsStatus code
    (catchFinally "Failed to load data"
       (Throw (ErrorObject ("API error: " +:+ showNat code))) st).
Proof.
  exists ("API error: " +:+ showNat code). split; [reflexivity|].
  apply includes_suffix.
Qed.

Lemma catchFinally_loading {D} (fallback : string)
    (body : result (ViewState D)) (st : ViewState D) :
  loading (catchFinally fallback body st) = false.
Proof. reflexivity. Qed.

(** Run a view's [fetchData] up to the test of [response.ok]. *)
Ltac unfold_fetch :=
  unfold DryVsRainyChart.fetchData, HeatwavesByZoneChart.fetchData,
    LoadByRegionChart.fetchData, MetricsCard.fetchData,
    OutlierDetectionCard.fetchData, HistoricalForecastCard.fetchData,
    ExtremeHeatLoadTable.fetchData, responded;
  cbn [JS.await mbind result_bind JS.bind].

(** C3, as stated, fails: on a 404 response ExtremeHeatLoadTable shows the
    response's status text; the status code is not in the message. *)
Lemma extreme_heat_table_hides_status_code :
  ~ errorShowsStatus 404
      (ExtremeHeatLoadTable.fetchData String.compare
         (responded 404 "Not Found" (Ok []))
         (mkViewState [] true None)).
Proof.
  intros (msg & Herr & Hinc). vm_compute in Herr.
  injection Herr as <-. vm_compute in Hinc. discriminate Hinc.
Qed.

(** C3, amended: on a response whose status is outside 200-299, every view
    but ExtremeHeatLoadTable shows the error "API error: " followed by the
    status code, and ExtremeHeatLoadTable shows "Failed to fetch data: "
    followed by the response's status text; in every view the data is left
    as it was, and the loading flag is cleared when the fetch completes,
    whether it succeeded or failed. *)
Theorem non_ok_response_error_state (code : nat) (text : string) :
  code < 200 \/ 299 < code ->
  (forall body st,
      let st' := DryVsRainyChart.fetchData (responded code text body) st in
      error st' = Some ("API error: " +:+ showNat code)
        /\ errorShowsStatus code st' /\ data st' = data st)
  /\ (forall body st,
        let st' :=
          HeatwavesByZoneChart.fetchData (responded code text body) st in
        error st' = Some ("API error: " +:+ showNat code)
        /\ errorShowsStatus code st' /\ data st' = data st)
  /\ (forall formatHour body st,
        let st' :=
          LoadByRegionChart.fetchData formatHour
            (responded code text body) st in
        error st' = Some ("API error: " +:+ showNat code)
        /\ errorShowsStatus code st' /\ data st' = data st)
  /\ (forall body st,
        let st' := MetricsCard.fetchData (responded code text body) st in
        error st' = Some ("API error: " +:+ showNat code)
        /\ errorShowsStatus code st' /\ data st' = data st)
  /\ (forall formatHour body st,
        let st' :=
          OutlierDetectionCard.fetchData formatHour
            (responded code text body) st in
        error st' = Some ("API error: " +:+ showNat code)
        /\ errorShowsStatus code st' /\ data st' = data st)
  /\ (forall formatHour formatDate body st,
        let st' :=
          HistoricalForecastCard.fetchData formatHour formatDate
            (responded code text body) st in
        error st' = Some ("API error: " +:+ showNat code)
        /\ errorShowsStatus code st' /\ data st' = data st)
  /\ (forall localeCompare body st,
        let st' :=
          ExtremeHeatLoadTable.fetchData localeCompare
            (responded code text body) st in
        error st' = Some ("Failed to fetch data: " +:+ text)
        /\ data st' = data st)
  /\ (forall outcome st,
        loading (DryVsRainyChart.fetchData outcome st) = false)
  /\ (forall outcome st,
        loading (HeatwavesByZoneChart.fetchData outcome st) = false)
  /\ (forall formatHour outcome st,
        loading (LoadByRegionChart.fetchData formatHour outcome st) = false)
  /\ (forall outcome st,
        loading (MetricsCard.fetchData outcome st) = false)
  /\ (forall formatHour outcome st,
        loading (OutlierDetectionCard.fetchData formatHour outcome st)
        = false)
  /\ (forall formatHour formatDate outcome st,
        loading
          (HistoricalForecastCard.fetchData formatHour formatDate outcome st)
        = false)
  /\ (forall localeCompare outcome st,
        loading (ExtremeHeatLoadTable.fetchData localeCompare outcome st)
        = false).
Proof.
  intros Hcode.
  repeat match goal with |- _ /\ _ => split end; intros.
  1-6: subst st'; unfold_fetch; rewrite ok_false by exact Hcode;
       split; [reflexivity|];
       split; [apply api_error_shows_status | reflexivity].
  - subst st'. unfold_fetch. rewrite ok_false by exact Hcode.
    split; reflexivity.
  - apply catchFinally_loading.
  - apply catchFinally_loading.
  - apply catchFinally_loading.
  - apply catchFinally_loading.
  - apply catchFinally_loading.
  - apply catchFinally_loading.
  - apply catchFinally_loading.
Qed.

Lemma non_ok_response_example :
  errorShowsStatus 500
    (DryVsRainyChart.fetchData
       (responded 500 "Internal Server Error" (Ok []))
       (mkViewState [] true None)).
Proof.
  exact (proj1 (proj2 (proj1 (non_ok_response_error_state 500
                                "Internal Server Error" ltac:(right; lia))
                         (Ok []) (mkViewState [] true None)))).
Defined.

(** ** Sampling *)

(** The index the loop computes at step [i] is the integer quotient of
    [i * length] by [maxPoints]. *)
Lemma sample_index (i n m : nat) :
  m <> 0%nat ->
  Z.to_nat (Qfloor (inject_Z (Z.of_nat i)
                    * (inject_Z (Z.of_nat n) / inject_Z (Z.of_nat m))))
  = (i * n / m)%nat.
Proof.
  intros Hm.
  assert (E : Qfloor (inject_Z (Z.of_nat i)
                      * (inject_Z (Z.of_nat n) / inject_Z (Z.of_nat m)))
              = (Z.of_nat (i * n) / Z.of_nat m)%Z).
  { rewrite Zdiv_Qdiv. apply Qfloor_comp.
    rewrite Nat2Z.inj_mul, inject_Z_mult. field.
    intros H. unfold Qeq in H. simpl in H. lia. }
  rewrite E, <- Nat2Z.inj_div. apply Nat2Z.id.
Qed.

Lemma sampleData_long {T} (data : list T) (maxPoints : nat) :
  (maxPoints < length data)%nat ->
  LoadByRegionChart.sampleData data maxPoints
  = map (fun i => data !! (i * length data / maxPoints)%nat)
      (seq 0 maxPoints).
Proof.
  intros Hlen. unfold LoadByRegionChart.sampleData.
  destruct (Nat.leb_spec (length data) maxPoints) as [Hle|_]; [lia|].
  apply map_ext_in. intros i Hi. apply in_seq in Hi.
  unfold JS.len. rewrite sample_index by lia. reflexivity.
Qed.

Lemma quotient_lt (i n m : nat) :
  (i < m)%nat -> (0 < n)%nat -> (i * n / m < n)%nat.
Proof.
  intros Hi Hn. apply Nat.Div0.div_lt_upper_bound. nia.
Qed.

Lemma quotient_mono (i j n m : nat) :
  (i <= j)%nat -> (i * n / m <= j * n / m)%nat.
Proof.
  intros Hij. apply Nat.Div0.div_le_mono. nia.
Qed.

Lemma sampleData_length {T} (data : list T) (maxPoints : nat) :
  (length (LoadByRegionChart.sampleData data maxPoints) <= maxPoints)%nat.
Proof.
  unfold LoadByRegionChart.sampleData.
  destruct (Nat.leb_spec (length data) maxPoints) as [Hle|Hgt].
  - now rewrite length_map.
  - now rewrite length_map, length_seq.
Qed.

(** C9: with [maxPoints] 100, [sampleData] returns the list itself when it
    has at most 100 elements; otherwise it returns exactly 100 elements,
    each the element of the input at an index of a non-decreasing sequence
    of valid indices.  Hence the hourly-load chart receives at most 100
    points however many records the API returns. *)
Theorem sampleData_at_most_100 {T} (data : list T) :
  ((length data <= 100)%nat ->
     LoadByRegionChart.sampleData data 100 = map Some data)
  /\ ((100 < length data)%nat ->
        exists indices : list nat,
          length indices = 100%nat
          /\ nondecreasing indices
          /\ Forall (fun i => (i < length data)%nat) indices
          /\ Forall2 (fun i sampled =>
                        exists x, data !! i = Some x /\ sampled = Some x)
               indices (LoadByRegionChart.sampleData data 100))
  /\ (forall formatHour apiData,
        (length (LoadByRegionChart.transform formatHour apiData) <= 100)%nat).
Proof.
  split; [|split].
  - intros Hle. unfold LoadByRegionChart.sampleData.
    destruct (Nat.leb_spec (length data) 100) as [_|Hgt]; [reflexivity|lia].
  - intros Hgt.
    exists (map (fun i => (i * length data / 100)%nat) (seq 0 100)).
    split; [now rewrite length_map, length_seq|].
    split; [|split].
    + intros i j a b Hij Ha Hb.
      rewrite list_lookup_fmap in Ha, Hb.
      destruct (seq 0 100 !! i) as [i'|] eqn:Ei; [|discriminate].
      destruct (seq 0 100 !! j) as [j'|] eqn:Ej; [|discriminate].
      apply lookup_seq in Ei as [-> _]. apply lookup_seq in Ej as [-> _].
      change (Some (i * length data / 100)%nat = Some a) in Ha.
      change (Some (j * length data / 100)%nat = Some b) in Hb.
      injection Ha as <-. injection Hb as <-.
      exact (quotient_mono i j (length data) 100 Hij).
    + apply Forall_forall. intros k Hk.
      apply list_elem_of_fmap in Hk as (i & -> & Hi).
      apply list_elem_of_In, in_seq in Hi.
      apply (quotient_lt i (length data) 100); lia.
    + rewrite sampleData_long by exact Hgt.
      apply Forall2_fmap, Forall_Forall2_diag, Forall_forall.
      intros i Hi. apply list_elem_of_In, in_seq in Hi.
      destruct (lookup_lt_is_Some_2 data (i * length data / 100)) as [x Hx].
      { apply (quotient_lt i (length data) 100); lia. }
      exists x. split; [exact Hx | exact Hx].
  - intros formatHour apiData. apply sampleData_length.
Qed.

Lemma sampleData_example :
  exists indices : list nat,
    length indices = 100%nat
    /\ nondecreasing indices
    /\ Forall (fun i => (i < length (seq 0 250))%nat) indices
    /\ Forall2 (fun i sampled =>
                  exists x, seq 0 250 !! i = Some x /\ sampled = Some x)
         indices (LoadByRegionChart.sampleData (seq 0 250) 100).
Proof.
  apply (proj1 (proj2 (sampleData_at_most_100 (seq 0 250)))).
  vm_compute. repeat constructor.
Defined.

(** ** Folding a response *)

Lemma forEach_app {A S} (body : S -> A -> result S) (l1 l2 : list A) (s : S) :
  forEach body (l1 ++ l2) s = s' ← forEach body l1 s; forEach body l2 s'.
Proof.
  revert s. induction l1 as [|x l1 IH]; intros s; simpl; [reflexivity|].
  destruct (body s x) as [s'|e]; [apply IH | reflexivity].
Qed.

(** A record on which the body does nothing can be inserted anywhere. *)
Lemma forEach_skip {A S} (body : S -> A -> result S) (l1 l2 : list A)
    (x : A) (s : S) :
  (forall s', body s' x = Ok s') ->
  forEach body (l1 ++ x :: l2) s = forEach body (l1 ++ l2) s.
Proof.
  intros Hskip. rewrite !forEach_app. simpl.
  destruct (forEach body l1 s) as [s'|e]; simpl; [|reflexivity].
  rewrite Hskip. reflexivity.
Qed.

(** An invariant of the state and the records folded so far, kept by every
    step, holds at the end; in particular the loop does not throw. *)
Lemma forEach_invariant {A S} (body : S -> A -> result S)
    (Q : A -> Prop) (P : S -> list A -> Prop) :
  (forall s done x,
      Q x -> P s done -> exists s', body s x = Ok s' /\ P s' (done ++ [x])) ->
  forall l s done,
    Forall Q l -> P s done ->
    exists s', forEach body l s = Ok s' /\ P s' (done ++ l).
Proof.
  intros Hstep l. induction l as [|x l IH]; intros s done HQ HP; simpl.
  - exists s. rewrite app_nil_r. auto.
  - apply Forall_cons in HQ as [Hx HQ].
    destruct (Hstep s done x Hx HP) as (s' & -> & HP').
    destruct (IH s' (done ++ [x]) HQ HP') as (s'' & Hs'' & HP'').
    exists s''. rewrite <- app_assoc in HP''. auto.
Qed.

(** ** The groups of MetricsCard *)

Lemma accumulate_lookup (m : gmap string MetricsCard.Group.t)
    (x : MetricsCard.ForecastMetrics) (r : string) :
  MetricsCard.accumulate m x !! r
  = if decide (MetricsCard.displayRegionOf x = r)
    then Some (MetricsCard.addTo x
                 (default MetricsCard.Group.zero (m !! r)))
    else m !! r.
Proof.
  unfold MetricsCard.accumulate.
  destruct (decide (MetricsCard.displayRegionOf x = r)) as [->|Hne].
  - destruct (m !! r) as [g|] eqn:Eg.
    + rewrite lookup_alter_eq, Eg. reflexivity.
    + rewrite lookup_alter_eq, lookup_insert_eq. reflexivity.
  - rewrite lookup_alter_ne by exact Hne.
    destruct (m !! MetricsCard.displayRegionOf x); [reflexivity|].
    now rewrite lookup_insert_ne.
Qed.

(** The group under a key is the fold of the records that map to the key,
    in their order, and there is no group when there is no such record. *)
Lemma foldl_accumulate_lookup (l : list MetricsCard.ForecastMetrics)
    (m : gmap string MetricsCard.Group.t) (r : string) :
  foldl MetricsCard.accumulate m l !! r
  = match metricsOf r l with
    | [] => m !! r
    | group =>
        Some (foldl (fun g x => MetricsCard.addTo x g)
                (default MetricsCard.Group.zero (m !! r)) group)
    end.
Proof.
  revert m. induction l as [|x l IH]; intros m; [reflexivity|].
  simpl. rewrite IH, accumulate_lookup. unfold metricsOf.
  rewrite filter_cons.
  destruct (decide (MetricsCard.displayRegionOf x = r)) as [E|Hne].
  - simpl. now destruct (filter _ l).
  - reflexivity.
Qed.

Lemma regionGroups_lookup (apiData : list MetricsCard.ForecastMetrics)
    (r : string) :
  MetricsCard.regionGroupsOf apiData !! r
  = match metricsOf r apiData with
    | [] => None
    | group =>
        Some (foldl (fun g x => MetricsCard.addTo x g)
                MetricsCard.Group.zero group)
    end.
Proof.
  unfold MetricsCard.regionGroupsOf. rewrite foldl_accumulate_lookup.
  rewrite lookup_empty. reflexivity.
Qed.

(** The rows are the finalised groups, one per key. *)
Lemma metrics_row_iff (apiData : list MetricsCard.ForecastMetrics)
    (row : MetricsCard.DisplayMetrics.t) :
  row ∈ MetricsCard.aggregate apiData <->
  exists g,
    MetricsCard.regionGroupsOf apiData
      !! MetricsCard.DisplayMetrics.region row = Some g
    /\ row = MetricsCard.toDisplay (MetricsCard.DisplayMetrics.region row, g).
Proof.
  unfold MetricsCard.aggregate. rewrite list_elem_of_fmap. split.
  - intros ([r g] & -> & Hin). apply elem_of_map_to_list in Hin.
    exists g. simpl. auto.
  - intros (g & Hg & Hrow).
    exists (MetricsCard.DisplayMetrics.region row, g).
    split; [exact Hrow | now apply elem_of_map_to_list].
Qed.

Lemma metricsOf_insert (r : string) (l1 l2 : list MetricsCard.ForecastMetrics)
    (x : MetricsCard.ForecastMetrics) :
  MetricsCard.displayRegionOf x <> r ->
  metricsOf r (l1 ++ x :: l2) = metricsOf r (l1 ++ l2).
Proof.
  intros Hne. unfold metricsOf.
  rewrite !filter_app, filter_cons.
  destruct (decide (MetricsCard.displayRegionOf x = r)); [contradiction|].
  reflexivity.
Qed.

(** ** Records with an unmapped zone *)

(** C2, as stated, fails: the identifier "North" is not a key of the table
    of MetricsCard, yet a record that carries it is folded into the group of
    the display region North and changes that region's row. *)
Lemma metrics_card_folds_unmapped_record :
  let known := MetricsCard.mkForecastMetrics "north" 1 4 2 10 1 in
  let unmapped := MetricsCard.mkForecastMetrics "North" 1 0 0 30 0 in
  JS.get (MetricsCard.region unmapped) MetricsCard.regionToDisplayMap = None
  /\ ~ sameRowsOf "North"
         (MetricsCard.aggregate [known])
         (MetricsCard.aggregate [known; unmapped]).
Proof.
  split; [reflexivity|].
  intros Hsame.
  specialize (Hsame (MetricsCard.DisplayMetrics.mk "North"
                       (Fin 10) (Fin 1) (Fin 4) (Fin 2)) eq_refl).
  vm_compute in Hsame. destruct Hsame as [_ Hsame].
  specialize (Hsame (list_elem_of_here _ _)).
  apply list_elem_of_singleton in Hsame. discriminate Hsame.
Qed.

Lemma dry_vs_rainy_skips (bad : DryVsRainyChart.PrecipitationData) s :
  JS.get (DryVsRainyChart.zone bad) DryVsRainyChart.zoneToRegionMap = None ->
  JS.isInherited (DryVsRainyChart.zone bad) = false ->
  DryVsRainyChart.accumulate s bad = Ok s.
Proof.
  intros H Hplain. rewrite dry_vs_rainy_plain_step by exact Hplain.
  now rewrite H.
Qed.

Lemma heatwaves_skips (bad : HeatwavesByZoneChart.HeatwaveData) s :
  JS.get (HeatwavesByZoneChart.zone bad) HeatwavesByZoneChart.zoneToDisplayMap
  = None ->
  JS.isInherited (HeatwavesByZoneChart.zone bad) = false ->
  HeatwavesByZoneChart.countStreak s bad = Ok s.
Proof.
  intros H Hplain. rewrite heatwaves_plain_step by exact Hplain.
  now rewrite H.
Qed.

Lemma extreme_heat_skips (bad : ExtremeHeatLoadTable.ExtremeHeatData) s :
  JS.get (ExtremeHeatLoadTable.zone bad) ExtremeHeatLoadTable.zoneToRegionMap
  = None ->
  JS.isInherited (ExtremeHeatLoadTable.zone bad) = false ->
  ExtremeHeatLoadTable.collect s bad = Ok s.
Proof.
  intros H Hplain. rewrite extreme_heat_plain_step by exact Hplain.
  now rewrite H.
Qed.

(** C2, amended: let [z] be an identifier that is not a key of the zone
    table and not a name that the table inherits from [Object.prototype]
    (such as [constructor] or [toString]), so that [table[z]] is
    [undefined].  In DryVsRainyChart, HeatwavesByZoneChart and
    ExtremeHeatLoadTable a record with zone [z] is skipped: inserting it
    anywhere in the input leaves the whole output unchanged.  MetricsCard
    does not exclude it: the record is folded into a group keyed by [z]
    itself, so a row for [z] appears, while the rows of every other region
    are unchanged.  OutlierDetectionCard does not aggregate: the record
    becomes a point of its own, labelled [z] (or "All" when [z] is
    [ercot]). *)
Theorem unmapped_zone_records (z : string) :
  JS.get z DryVsRainyChart.zoneToRegionMap = None ->
  JS.isInherited z = false ->
  (forall bad l1 l2,
      DryVsRainyChart.zone bad = z ->
      DryVsRainyChart.aggregate (l1 ++ bad :: l2)
      = DryVsRainyChart.aggregate (l1 ++ l2))
  /\ (forall bad l1 l2,
        HeatwavesByZoneChart.zone bad = z ->
        HeatwavesByZoneChart.aggregate (l1 ++ bad :: l2)
        = HeatwavesByZoneChart.aggregate (l1 ++ l2))
  /\ (forall localeCompare bad l1 l2,
        ExtremeHeatLoadTable.zone bad = z ->
        ExtremeHeatLoadTable.aggregate localeCompare (l1 ++ bad :: l2)
        = ExtremeHeatLoadTable.aggregate localeCompare (l1 ++ l2))
  /\ (forall bad l1 l2,
        MetricsCard.region bad = z ->
        (forall r, r <> z ->
           sameRowsOf r (MetricsCard.aggregate (l1 ++ l2))
             (MetricsCard.aggregate (l1 ++ bad :: l2)))
        /\ exists row,
             row ∈ MetricsCard.aggregate (l1 ++ bad :: l2)
             /\ MetricsCard.DisplayMetrics.region row = z)
  /\ (forall formatHour bad l1 l2,
        OutlierDetectionCard.region bad = z ->
        OutlierDetectionCard.scatterData formatHour (l1 ++ bad :: l2)
        = OutlierDetectionCard.scatterData formatHour l1
          ++ {| OutlierDetectionCard.ScatterDataPoint.time :=
                  formatHour (OutlierDetectionCard.hour_end bad);
                OutlierDetectionCard.ScatterDataPoint.residual :=
                  OutlierDetectionCard.load_mw bad
                  - OutlierDetectionCard.mean bad;
                OutlierDetectionCard.ScatterDataPoint.region :=
                  if String.eqb z "ercot" then "All" else z |}
             :: OutlierDetectionCard.scatterData formatHour l2).
Proof.
  intros Hz Hplain. repeat match goal with |- _ /\ _ => split end.
  - intros bad l1 l2 <-. unfold DryVsRainyChart.aggregate.
    rewrite forEach_skip; [reflexivity|].
    intros s. now apply dry_vs_rainy_skips.
  - intros bad l1 l2 <-. unfold HeatwavesByZoneChart.aggregate.
    rewrite forEach_skip; [reflexivity|].
    intros s. apply heatwaves_skips; [|exact Hplain].
    now rewrite heatwaves_table_same.
  - intros localeCompare bad l1 l2 <-.
    unfold ExtremeHeatLoadTable.aggregate.
    rewrite forEach_skip; [reflexivity|].
    intros s. apply extreme_heat_skips; [|exact Hplain].
    now rewrite extreme_heat_table_same.
  - intros bad l1 l2 <-.
    assert (Hd : MetricsCard.displayRegionOf bad = MetricsCard.region bad).
    { rewrite metrics_plain_region by exact Hplain.
      now rewrite metrics_table_same, Hz. }
    split.
    + intros r Hr row <-. rewrite !metrics_row_iff.
      rewrite !regionGroups_lookup, metricsOf_insert; [reflexivity|].
      now rewrite Hd.
    + pose proof (regionGroups_lookup (l1 ++ bad :: l2)
                    (MetricsCard.region bad)) as Hg.
      assert (Hin : bad ∈ metricsOf (MetricsCard.region bad)
                            (l1 ++ bad :: l2)).
      { unfold metricsOf. apply list_elem_of_filter. split; [exact Hd|].
        apply elem_of_app. right. left. }
      destruct (metricsOf (MetricsCard.region bad) (l1 ++ bad :: l2))
        as [|x group]; [now apply elem_of_nil in Hin|].
      match type of Hg with
      | _ = Some ?g =>
          exists (MetricsCard.toDisplay (MetricsCard.region bad, g))
      end.
      split; [|reflexivity].
      apply metrics_row_iff. eexists. split; [exact Hg | reflexivity].
  - intros formatHour bad l1 l2 <-.
    unfold OutlierDetectionCard.scatterData. rewrite map_app. simpl.
    do 2 f_equal. unfold OutlierDetectionCard.toPoint.
    rewrite lookup_plain by exact Hplain.
    rewrite outlier_table_ercot, Hz. f_equal.
    now destruct (String.eqb _ _).
Qed.

Lemma unmapped_zone_example :
  let known := DryVsRainyChart.mkPrecipitationData "west" false 900 12 in
  let unmapped := DryVsRainyChart.mkPrecipitationData "mars" true 77 3 in
  DryVsRainyChart.aggregate ([known] ++ unmapped :: [known])
  = DryVsRainyChart.aggregate ([known] ++ [known]).
Proof.
  intros known unmapped.
  exact (proj1 (unmapped_zone_records "mars" eq_refl eq_refl)
           unmapped [known] [known] eq_refl).
Defined.

(** ** Objects and maps as association lists *)

Lemma get_is_Some {V} (k : string) (o : list (string * V)) :
  In k (map fst o) -> is_Some (JS.get k o).
Proof.
  induction o as [|[k' v] o IH]; simpl; [tauto|].
  intros [->|Hin].
  - rewrite String.eqb_refl. now eexists.
  - destruct (String.eqb k k'); [now eexists | auto].
Qed.

Lemma get_In {V} (k : string) (v : V) (o : list (string * V)) :
  JS.get k o = Some v -> In (k, v) o.
Proof.
  induction o as [|[k' v'] o IH]; simpl; [discriminate|].
  destruct (String.eqb_spec k k') as [->|Hne].
  - intros [= ->]. now left.
  - intros H. right. auto.
Qed.

Lemma In_get {V} (k : string) (v : V) (o : list (string * V)) :
  NoDup (map fst o) -> In (k, v) o -> JS.get k o = Some v.
Proof.
  induction o as [|[k' v'] o IH]; simpl; [tauto|].
  intros Hnd. apply NoDup_cons in Hnd as [Hk' Hnd].
  intros [[= -> ->]|Hin].
  - now rewrite String.eqb_refl.
  - destruct (String.eqb_spec k k') as [->|Hne]; [|auto].
    exfalso. apply Hk'. apply list_elem_of_In.
    change k' with (fst (k', v)). now apply in_map.
Qed.

(** An update of a present key succeeds, keeps the keys and their order,
    and changes the value under that key only. *)
Lemma update_present {V} (k : string) (f : V -> V) (o : list (string * V)) :
  is_Some (JS.get k o) ->
  exists o',
    JS.update k f o = Ok o'
    /\ map fst o' = map fst o
    /\ forall r,
         JS.get r o' = if String.eqb r k then f <$> JS.get r o
                       else JS.get r o.
Proof.
  induction o as [|[k' v] o IH]; simpl.
  - intros [? [=]].
  - destruct (String.eqb_spec k k') as [->|Hne].
    + intros _. eexists. split; [reflexivity|]. split; [reflexivity|].
      intros r. simpl. now destruct (String.eqb r k').
    + intros Hk. destruct (IH Hk) as (o' & -> & Hkeys & Hget).
      eexists. split; [reflexivity|]. simpl. split; [now rewrite Hkeys|].
      intros r. rewrite Hget.
      destruct (String.eqb_spec r k') as [->|Hne'];
        [|reflexivity].
      destruct (String.eqb_spec k' k) as [->|_]; [now destruct Hne|].
      reflexivity.
Qed.

Lemma set_absent {V} (k : string) (v : V) (o : list (string * V)) :
  JS.get k o = None -> JS.set k v o = o ++ [(k, v)].
Proof.
  induction o as [|[k' v'] o IH]; simpl; [reflexivity|].
  destruct (String.eqb k k'); [discriminate|].
  intros H. now rewrite IH.
Qed.

Lemma update_last {V} (k : string) (f : V -> V) (v : V)
    (o : list (string * V)) :
  JS.get k o = None -> JS.update k f (o ++ [(k, v)]) = Ok (o ++ [(k, f v)]).
Proof.
  induction o as [|[k' v'] o IH]; simpl.
  - now rewrite String.eqb_refl.
  - destruct (String.eqb k k'); [discriminate|].
    intros H. now rewrite IH.
Qed.

(** ** The accumulators of DryVsRainyChart *)

Lemma len_snoc {A} (l : list A) (x : A) :
  (JS.len (l ++ [x]) == JS.len l + 1)%Q.
Proof.
  unfold JS.len. rewrite length_app. simpl.
  rewrite Nat2Z.inj_add, inject_Z_plus. reflexivity.
Qed.

Lemma dryRecords_snoc_in (r : string) done x :
  JS.get (DryVsRainyChart.zone x) DryVsRainyChart.zoneToRegionMap = Some r ->
  DryVsRainyChart.rainy_day x = false ->
  dryRecords r (done ++ [x]) = dryRecords r done ++ [x].
Proof.
  intros Hz Hr. unfold dryRecords. rewrite filter_app, filter_cons.
  destruct (decide _) as [_|Hn]; [reflexivity | now destruct Hn].
Qed.

Lemma dryRecords_snoc_out (r : string) done x :
  ~ (JS.get (DryVsRainyChart.zone x) DryVsRainyChart.zoneToRegionMap = Some r
     /\ DryVsRainyChart.rainy_day x = false) ->
  dryRecords r (done ++ [x]) = dryRecords r done.
Proof.
  intros Hn. unfold dryRecords. rewrite filter_app, filter_cons.
  destruct (decide _) as [H|_]; [contradiction | apply app_nil_r].
Qed.

Lemma rainyRecords_snoc_in (r : string) done x :
  JS.get (DryVsRainyChart.zone x) DryVsRainyChart.zoneToRegionMap = Some r ->
  DryVsRainyChart.rainy_day x = true ->
  rainyRecords r (done ++ [x]) = rainyRecords r done ++ [x].
Proof.
  intros Hz Hr. unfold rainyRecords. rewrite filter_app, filter_cons.
  destruct (decide _) as [_|Hn]; [reflexivity | now destruct Hn].
Qed.

Lemma rainyRecords_snoc_out (r : string) done x :
  ~ (JS.get (DryVsRainyChart.zone x) DryVsRainyChart.zoneToRegionMap = Some r
     /\ DryVsRainyChart.rainy_day x = true) ->
  rainyRecords r (done ++ [x]) = rainyRecords r done.
Proof.
  intros Hn. unfold rainyRecords. rewrite filter_app, filter_cons.
  destruct (decide _) as [H|_]; [contradiction | apply app_nil_r].
Qed.

(** On a response without inherited zone names the loop of DryVsRainyChart
    does not throw; it keeps the four keys, and each region's two counters
    count the records that contribute to it. *)
Lemma dry_vs_rainy_accumulated
    (apiData : list DryVsRainyChart.PrecipitationData) :
  plainZones DryVsRainyChart.zone apiData ->
  exists regionData,
    forEach DryVsRainyChart.accumulate apiData DryVsRainyChart.regionData0
    = Ok regionData
    /\ map fst regionData = displayRegions
    /\ forall r v,
         JS.get r regionData = Some v ->
         (DryVsRainyChart.Values.dryCount v
          == JS.len (dryRecords r apiData))%Q
         /\ (DryVsRainyChart.Values.rainyCount v
             == JS.len (rainyRecords r apiData))%Q.
Proof.
  intros Hplain.
  apply (forEach_invariant DryVsRainyChart.accumulate
           (fun item => JS.isInherited (DryVsRainyChart.zone item) = false)
           (fun s done =>
              map fst s = displayRegions
              /\ forall r v,
                   JS.get r s = Some v ->
                   (DryVsRainyChart.Values.dryCount v
                    == JS.len (dryRecords r done))%Q
                   /\ (DryVsRainyChart.Values.rainyCount v
                       == JS.len (rainyRecords r done))%Q)
           ) with (done := []); [|exact Hplain|].
  - intros s done x Hx [Hkeys Hcount].
    rewrite dry_vs_rainy_plain_step by exact Hx.
    destruct (JS.get (DryVsRainyChart.zone x) DryVsRainyChart.zoneToRegionMap)
      as [r'|] eqn:Hz.
    + assert (Hr' : In r' (map fst s))
        by (rewrite Hkeys; eapply zone_region_cases; eauto).
      destruct (DryVsRainyChart.rainy_day x) eqn:Hrainy.
      * destruct (update_present r'
                    (DryVsRainyChart.addRainy (DryVsRainyChart.avg_load_mw x))
                    s (get_is_Some _ _ Hr')) as (s1 & -> & K1 & G1).
        rewrite <- K1 in Hr'.
        destruct (update_present r' DryVsRainyChart.incRainyCount
                    s1 (get_is_Some _ _ Hr')) as (s2 & E2 & K2 & G2).
        exists s2. split; [exact E2|]. split; [congruence|].
        intros r v Hv. rewrite G2, G1 in Hv.
        rewrite dryRecords_snoc_out by (rewrite Hrainy; intros [_ [=]]).
        destruct (String.eqb_spec r r') as [->|Hne].
        -- destruct (JS.get r' s) as [v0|] eqn:E0; [|discriminate].
           injection Hv as <-. destruct (Hcount r' v0 E0) as [Hd Hr].
           split; [exact Hd|].
           rewrite rainyRecords_snoc_in, len_snoc by assumption.
           simpl. now rewrite Hr.
        -- rewrite rainyRecords_snoc_out by (intros [H _]; congruence).
           auto.
      * destruct (update_present r'
                    (DryVsRainyChart.addDry (DryVsRainyChart.avg_load_mw x))
                    s (get_is_Some _ _ Hr')) as (s1 & -> & K1 & G1).
        rewrite <- K1 in Hr'.
        destruct (update_present r' DryVsRainyChart.incDryCount
                    s1 (get_is_Some _ _ Hr')) as (s2 & E2 & K2 & G2).
        exists s2. split; [exact E2|]. split; [congruence|].
        intros r v Hv. rewrite G2, G1 in Hv.
        rewrite rainyRecords_snoc_out by (rewrite Hrainy; intros [_ [=]]).
        destruct (String.eqb_spec r r') as [->|Hne].
        -- destruct (JS.get r' s) as [v0|] eqn:E0; [|discriminate].
           injection Hv as <-. destruct (Hcount r' v0 E0) as [Hd Hr].
           split; [|exact Hr].
           rewrite dryRecords_snoc_in, len_snoc by assumption.
           simpl. now rewrite Hd.
        -- rewrite dryRecords_snoc_out by (intros [H _]; congruence).
           auto.
    + exists s. split; [reflexivity|]. split; [exact Hkeys|].
      intros r v Hv.
      rewrite dryRecords_snoc_out, rainyRecords_snoc_out
        by (intros [H _]; congruence).
      auto.
  - split; [reflexivity|]. intros r v. unfold DryVsRainyChart.regionData0.
    cbn [JS.get].
    repeat match goal with
           | |- context [String.eqb r ?k] => destruct (String.eqb r k)
           end;
      intros [= <-]; split; reflexivity.
Qed.

(** ** Guarded and unguarded divisions *)

Lemma gtb_zero_false (c : Q) : (c == 0)%Q -> gtb c 0 = false.
Proof. intros H. unfold gtb. apply Qeq_alt in H. now rewrite H. Qed.

Lemma guarded_zero (s c : Q) :
  (c == 0)%Q -> (if gtb c 0 then jsdiv s c else Fin 0) = Fin 0.
Proof. intros H. now rewrite (gtb_zero_false c H). Qed.

Lemma sum_snoc (l : list Q) (x : Q) : JS.sum (l ++ [x]) = (JS.sum l + x)%Q.
Proof. unfold JS.sum. now rewrite fold_left_app. Qed.

Lemma len_map {A B} (f : A -> B) (l : list A) : JS.len (map f l) = JS.len l.
Proof. unfold JS.len. now rewrite length_map. Qed.

Lemma len_nil_iff {A} (l : list A) : (JS.len l == 0)%Q <-> l = [].
Proof.
  split; [|now intros ->].
  intros E. unfold JS.len, Qeq in E. simpl in E.
  destruct l; [reflexivity | simpl in E; lia].
Qed.

(** ** The arrays of ExtremeHeatLoadTable *)

Lemma In_insertSorted {A} (cmp : A -> A -> comparison) (x y : A) (l : list A) :
  In y (JS.insertSorted cmp x l) <-> y = x \/ In y l.
Proof.
  induction l as [|z l IH]; simpl; [intuition|].
  destruct (cmp x z); simpl; rewrite ?IH; intuition.
Qed.

Lemma In_sort {A} (cmp : A -> A -> comparison) (y : A) (l : list A) :
  In y (JS.sort cmp l) <-> In y l.
Proof.
  unfold JS.sort. induction l as [|x l IH]; simpl; [reflexivity|].
  rewrite In_insertSorted, IH. intuition.
Qed.

Lemma get_None_notin {V} (k : string) (o : list (string * V)) :
  JS.get k o = None -> ~ In k (map fst o).
Proof.
  intros Hget Hin. apply get_is_Some in Hin as [v Hv]. congruence.
Qed.

Lemma get_app_last {V} (r k : string) (v : V) (o : list (string * V)) :
  JS.get r (o ++ [(k, v)])
  = match JS.get r o with
    | Some x => Some x
    | None => if String.eqb r k then Some v else None
    end.
Proof.
  induction o as [|[k' v'] o IH]; simpl; [reflexivity|].
  now destruct (String.eqb r k').
Qed.

Lemma heatRecords_snoc (r : string) done x :
  heatRecords r (done ++ [x])
  = heatRecords r done
    ++ (if decide (JS.get (ExtremeHeatLoadTable.zone x)
                     ExtremeHeatLoadTable.zoneToRegionMap = Some r)
        then [x] else []).
Proof.
  unfold heatRecords. rewrite filter_app, filter_cons.
  now destruct (decide _).
Qed.

Lemma pushItem_collectedOf x items :
  ExtremeHeatLoadTable.pushItem x (collectedOf items)
  = collectedOf (items ++ [x]).
Proof.
  unfold ExtremeHeatLoadTable.pushItem, collectedOf. simpl.
  now rewrite !map_app.
Qed.

(** On a response without inherited zone names the loop of
    ExtremeHeatLoadTable does not throw; it holds one entry per region that
    has a record, and the entry's arrays are the readings of the region's
    records in their order. *)
Lemma extreme_heat_grouped
    (apiData : list ExtremeHeatLoadTable.ExtremeHeatData) :
  plainZones ExtremeHeatLoadTable.zone apiData ->
  exists regionMap,
    forEach ExtremeHeatLoadTable.collect apiData [] = Ok regionMap
    /\ NoDup (map fst regionMap)
    /\ forall r,
         JS.get r regionMap
         = match heatRecords r apiData with
           | [] => None
           | items => Some (collectedOf items)
           end.
Proof.
  intros Hplain.
  destruct (forEach_invariant ExtremeHeatLoadTable.collect
              (fun item =>
                 JS.isInherited (ExtremeHeatLoadTable.zone item) = false)
              (fun s done =>
                 NoDup (map fst s)
                 /\ forall r,
                      JS.get r s
                      = match heatRecords r done with
                        | [] => None
                        | items => Some (collectedOf items)
                        end))
    with (l := apiData)
         (s := @nil (string * ExtremeHeatLoadTable.Collected))
         (done := @nil ExtremeHeatLoadTable.ExtremeHeatData)
    as (s' & Hs' & HP); [|exact Hplain| |eauto].
  2: { split; [constructor | reflexivity]. }
  intros s done x Hx [Hnd Hget].
  rewrite extreme_heat_plain_step by exact Hx.
  destruct (JS.get (ExtremeHeatLoadTable.zone x)
              ExtremeHeatLoadTable.zoneToRegionMap) as [k|] eqn:Hz.
  - destruct (JS.get k s) as [c|] eqn:Ek.
    + destruct (update_present k (ExtremeHeatLoadTable.pushItem x) s)
        as (s' & Hu & Hkeys & Hget'); [now rewrite Ek|].
      exists s'. split; [exact Hu|]. split; [now rewrite Hkeys|].
      intros r. rewrite Hget', heatRecords_snoc, Hz, Hget.
      destruct (String.eqb_spec r k) as [->|Hne].
      * destruct (decide _) as [_|Hn]; [|now destruct Hn].
        rewrite Hget in Ek.
        destruct (heatRecords k done) as [|y items]; [discriminate|].
        simpl. now rewrite pushItem_collectedOf.
      * destruct (decide _) as [[= ->]|_]; [now destruct Hne|].
        now rewrite app_nil_r.
    + rewrite set_absent, update_last by exact Ek.
      eexists. split; [reflexivity|]. split.
      * rewrite map_app. apply NoDup_app. split; [exact Hnd|].
        split; [|apply NoDup_singleton].
        intros y Hy Hk. apply list_elem_of_singleton in Hk. simpl in Hk.
        subst y. apply list_elem_of_In in Hy.
        now apply get_None_notin in Ek.
      * intros r. rewrite get_app_last, heatRecords_snoc, Hz, Hget.
        destruct (String.eqb_spec r k) as [->|Hne].
        -- rewrite Hget in Ek.
           destruct (heatRecords k done) as [|y items]; [|discriminate].
           destruct (decide _) as [_|Hn]; [|now destruct Hn].
           reflexivity.
        -- destruct (decide _) as [[= ->]|_]; [now destruct Hne|].
           rewrite app_nil_r. now destruct (heatRecords r done).
  - exists s. split; [reflexivity|]. split; [exact Hnd|].
    intros r. rewrite heatRecords_snoc, Hz, Hget.
    destruct (decide _) as [[=]|_]. now rewrite app_nil_r.
Qed.

Lemma heatRecords_region (r : string) apiData :
  heatRecords r apiData <> [] -> In r displayRegions.
Proof.
  intros Hne. destruct (heatRecords r apiData) as [|x items] eqn:E;
    [contradiction|].
  assert (Hx : x ∈ heatRecords r apiData) by (rewrite E; left).
  apply list_elem_of_filter in Hx as [Hz _].
  rewrite extreme_heat_table_same in Hz. eapply zone_region_cases; eauto.
Qed.

(** The rows before sorting: one per entry of the map. *)
Lemma extreme_heat_rows localeCompare
    (apiData : list ExtremeHeatLoadTable.ExtremeHeatData) :
  plainZones ExtremeHeatLoadTable.zone apiData ->
  exists regionMap,
    ExtremeHeatLoadTable.aggregate localeCompare apiData
    = Ok (JS.sort (ExtremeHeatLoadTable.byRegion localeCompare)
            (map ExtremeHeatLoadTable.toRow regionMap))
    /\ NoDup (map fst regionMap)
    /\ forall r c,
         In (r, c) regionMap <->
         heatRecords r apiData <> []
         /\ c = collectedOf (heatRecords r apiData).
Proof.
  intros Hplain.
  destruct (extreme_heat_grouped apiData Hplain) as (s & Hs & Hnd & Hget).
  exists s. unfold ExtremeHeatLoadTable.aggregate. rewrite Hs.
  split; [reflexivity|]. split; [exact Hnd|]. intros r c. split.
  - intros Hin. apply In_get in Hin; [|exact Hnd]. rewrite Hget in Hin.
    destruct (heatRecords r apiData); [discriminate|].
    injection Hin as <-. now split.
  - intros [Hne ->]. apply get_In. rewrite Hget.
    now destruct (heatRecords r apiData).
Qed.

(** ** The totals of MetricsCard *)

Lemma totalN_foldl (l : list MetricsCard.ForecastMetrics)
    (g : MetricsCard.Group.t) :
  MetricsCard.Group.totalN (foldl (fun g x => MetricsCard.addTo x g) g l)
  = fold_left Qplus (map MetricsCard.n l) (MetricsCard.Group.totalN g).
Proof.
  revert g. induction l as [|x l IH]; intros g; simpl; [reflexivity|].
  now rewrite IH.
Qed.

Lemma metrics_row_group (apiData : list MetricsCard.ForecastMetrics)
    (row : MetricsCard.DisplayMetrics.t) :
  row ∈ MetricsCard.aggregate apiData ->
  let r := MetricsCard.DisplayMetrics.region row in
  metricsOf r apiData <> []
  /\ row = MetricsCard.toDisplay
             (r, foldl (fun g x => MetricsCard.addTo x g)
                   MetricsCard.Group.zero (metricsOf r apiData)).
Proof.
  intros Hrow r. apply metrics_row_iff in Hrow as (g & Hg & Hrow).
  rewrite regionGroups_lookup in Hg. fold r in Hg, Hrow.
  destruct (metricsOf r apiData) as [|x group]; [discriminate|].
  injection Hg as <-. split; [discriminate | exact Hrow].
Qed.

(** ** The counters of HeatwavesByZoneChart *)

Lemma set_present {V} (k : string) (v : V) (o : list (string * V)) :
  is_Some (JS.get k o) ->
  map fst (JS.set k v o) = map fst o
  /\ forall r,
       JS.get r (JS.set k v o) = if String.eqb r k then Some v
                                 else JS.get r o.
Proof.
  induction o as [|[k' v'] o IH]; simpl.
  - intros [? [=]].
  - destruct (String.eqb_spec k k') as [->|Hne].
    + intros _. split; [reflexivity|].
      intros r. simpl. now destruct (String.eqb r k').
    + intros Hk. destruct (IH Hk) as [Hkeys Hget]. simpl.
      split; [now rewrite Hkeys|].
      intros r. rewrite Hget.
      destruct (String.eqb_spec r k') as [->|_]; [|reflexivity].
      destruct (String.eqb_spec k' k) as [->|_]; [now destruct Hne|].
      reflexivity.
Qed.

Lemma displayRegions_NoDup : NoDup displayRegions.
Proof.
  unfold displayRegions. repeat constructor;
    rewrite ?list_elem_of_In; simpl; intuition discriminate.
Qed.

(** ** Zero counts *)

Lemma guarded_quotient (total count : Q) :
  guardedQuotient total count
    (if gtb count 0 then jsdiv total count else Fin 0).
Proof.
  unfold guardedQuotient. destruct (gtb count 0) eqn:E; [|reflexivity].
  split; [reflexivity|]. intros H. apply gtb_zero_false in H. congruence.
Qed.

Lemma zero_total (l : list MetricsCard.ForecastMetrics) (a : Q) :
  Forall (fun metric => (MetricsCard.n metric == 0)%Q) l ->
  (fold_left Qplus (map MetricsCard.n l) a == a)%Q.
Proof.
  intros Hl. revert a.
  induction Hl as [|x l Hx Hl IH]; intros a; simpl; [reflexivity|].
  rewrite IH, Hx. ring.
Qed.

(** C5, as stated, fails in three ways.  In ExtremeHeatLoadTable a region
    without contributing records has no statistic equal to 0: it has no row
    at all.  A statistic can be NaN without any division by zero: on IEEE
    doubles, two records of weight 2 whose metric is 2^1023 and -2^1023
    make the weighted sum of MetricsCard Infinity + -Infinity, which is NaN,
    and the guard passes because the total weight is 4.  And not every
    input has finalised statistics: a record whose zone is the inherited
    name [constructor] makes DryVsRainyChart throw, although no record
    contributes to any region. *)
Lemma zero_count_statistics_missing_or_nan :
  (let apiData :=
     [ExtremeHeatLoadTable.mkExtremeHeatData "west" 1000 3 95 101] in
   heatRecords "North" apiData = []
   /\ exists rows,
        ExtremeHeatLoadTable.aggregate String.compare apiData = Ok rows
        /\ ~ exists row,
               In row rows
               /\ ExtremeHeatLoadTable.RegionData.region row = "North")
  /\ PrimFloat.is_nan
       (MetricsCard.Doubles.weightedMean MetricsCard.Doubles.overflowing)
     = true
  /\ (let apiData :=
        [DryVsRainyChart.mkPrecipitationData "constructor" false 100 3] in
      (forall r, dryRecords r apiData = [] /\ rainyRecords r apiData = [])
      /\ ~ exists rows, DryVsRainyChart.aggregate apiData = Ok rows).
Proof.
  split; [|split; [vm_compute; reflexivity|]].
  - split; [reflexivity|].
    eexists. split; [vm_compute; reflexivity|].
    intros (row & [<-|[]] & Hregion). discriminate Hregion.
  - split.
    + intros r. unfold dryRecords, rainyRecords.
      rewrite !filter_cons, !filter_nil.
      split; (destruct (decide _) as [[Hz _]|_]; [discriminate Hz|]);
        reflexivity.
    + intros (rows & Hagg). vm_compute in Hagg. discriminate Hagg.
Qed.

(** C5, amended: the statistics are guarded against a zero divisor, not
    against NaN.  DryVsRainyChart and MetricsCard finalise every mean
    behind the guard [count > 0]: the value is 0 when the count, or the
    total weight, is not positive, and otherwise the total divided by a
    divisor that is not zero.  On a response without inherited zone names
    DryVsRainyChart has its four rows, and a row's dry (rainy) mean is 0
    when no dry (rainy) record contributes to the region.  In MetricsCard a
    row exists only for a region with a record, and its four values are 0
    when every record of the region has sample count 0.
    ExtremeHeatLoadTable has no guard and no zero row: on a response without
    inherited zone names it has an entry, and so a row, exactly for the
    regions with a record; the entry holds the readings of these records,
    so that the two lengths it divides by are not zero, and a region
    without records has no row.  Nothing is stated about NaN that arises
    from overflow. *)
Theorem zero_counts_are_guarded :
  (forall r v,
      guardedQuotient (DryVsRainyChart.Values.dry v)
        (DryVsRainyChart.Values.dryCount v)
        (DryVsRainyChart.dry (DryVsRainyChart.toPoint (r, v)))
      /\ guardedQuotient (DryVsRainyChart.Values.rainy v)
           (DryVsRainyChart.Values.rainyCount v)
           (DryVsRainyChart.rainy (DryVsRainyChart.toPoint (r, v))))
  /\ (forall apiData,
        plainZones DryVsRainyChart.zone apiData ->
        exists rows,
          DryVsRainyChart.aggregate apiData = Ok rows
          /\ map DryVsRainyChart.region rows = displayRegions
          /\ forall row,
               In row rows ->
               let r := DryVsRainyChart.region row in
               (dryRecords r apiData = [] ->
                DryVsRainyChart.dry row = Fin 0)
               /\ (rainyRecords r apiData = [] ->
                   DryVsRainyChart.rainy row = Fin 0))
  /\ (forall r g,
        let row := MetricsCard.toDisplay (r, g) in
        let totalN := MetricsCard.Group.totalN g in
        guardedQuotient (MetricsCard.Group.weightedMape g) totalN
          (MetricsCard.DisplayMetrics.mape row)
        /\ guardedQuotient (MetricsCard.Group.weightedR2 g) totalN
             (MetricsCard.DisplayMetrics.r2 row)
        /\ guardedQuotient (MetricsCard.Group.weightedMse g) totalN
             (MetricsCard.DisplayMetrics.mse row)
        /\ guardedQuotient (MetricsCard.Group.weightedMae g) totalN
             (MetricsCard.DisplayMetrics.mae row))
  /\ (forall apiData row,
        row ∈ MetricsCard.aggregate apiData ->
        let group :=
          metricsOf (MetricsCard.DisplayMetrics.region row) apiData in
        group <> []
        /\ (Forall (fun metric => (MetricsCard.n metric == 0)%Q) group ->
            MetricsCard.DisplayMetrics.mape row = Fin 0
            /\ MetricsCard.DisplayMetrics.r2 row = Fin 0
            /\ MetricsCard.DisplayMetrics.mse row = Fin 0
            /\ MetricsCard.DisplayMetrics.mae row = Fin 0))
  /\ (forall localeCompare apiData,
        plainZones ExtremeHeatLoadTable.zone apiData ->
        exists regionMap,
          ExtremeHeatLoadTable.aggregate localeCompare apiData
          = Ok (JS.sort (ExtremeHeatLoadTable.byRegion localeCompare)
                  (map ExtremeHeatLoadTable.toRow regionMap))
          /\ (forall r c,
                In (r, c) regionMap <->
                heatRecords r apiData <> []
                /\ c = collectedOf (heatRecords r apiData))
          /\ (forall r c,
                In (r, c) regionMap ->
                ~ (JS.len (ExtremeHeatLoadTable.days c) == 0)%Q
                /\ ~ (JS.len (ExtremeHeatLoadTable.temps c) == 0)%Q)).
Proof.
  split; [intros r v; split; apply guarded_quotient|].
  split; [|split; [intros r g row totalN; repeat split;
                   apply guarded_quotient|split]].
  - intros apiData Hplain.
    destruct (dry_vs_rainy_accumulated apiData Hplain)
      as (s & Hs & Hkeys & Hcount).
    exists (map DryVsRainyChart.toPoint s).
    unfold DryVsRainyChart.aggregate. rewrite Hs. split; [reflexivity|].
    split.
    { rewrite <- Hkeys, map_map. apply map_ext. now intros [r v]. }
    intros row Hrow. apply in_map_iff in Hrow as ([k v] & <- & Hin).
    apply In_get in Hin; [|rewrite Hkeys; apply displayRegions_NoDup].
    destruct (Hcount k v Hin) as [Hd Hr]. simpl.
    split; intros E; rewrite E in *; now apply guarded_zero.
  - intros apiData row Hrow group.
    destruct (metrics_row_group apiData row Hrow) as [Hne Hshape].
    split; [exact Hne|]. intros Hzero. rewrite Hshape. fold group. simpl.
    assert (Htotal :
      (MetricsCard.Group.totalN
         (foldl (fun g x => MetricsCard.addTo x g) MetricsCard.Group.zero
            group)
       == 0)%Q).
    { rewrite totalN_foldl. now apply zero_total. }
    repeat split; now apply guarded_zero.
  - intros localeCompare apiData Hplain.
    destruct (extreme_heat_rows localeCompare apiData Hplain)
      as (s & Hagg & Hnd & Hin).
    exists s. split; [exact Hagg|]. split; [exact Hin|].
    intros r c Hrc. apply Hin in Hrc as [Hne ->].
    unfold collectedOf. simpl. rewrite !len_map.
    split; intros E; now apply len_nil_iff in E.
Qed.

Lemma zero_count_example :
  let only := DryVsRainyChart.mkPrecipitationData "coast" true 1200 9 in
  plainZones DryVsRainyChart.zone [only]
  /\ exists rows,
       DryVsRainyChart.aggregate [only] = Ok rows
       /\ map DryVsRainyChart.region rows = displayRegions
       /\ forall row,
            In row rows ->
            let r := DryVsRainyChart.region row in
            (dryRecords r [only] = [] -> DryVsRainyChart.dry row = Fin 0)
            /\ (rainyRecords r [only] = [] ->
                DryVsRainyChart.rainy row = Fin 0).
Proof.
  intros only.
  assert (Hplain : plainZones DryVsRainyChart.zone [only])
    by (repeat constructor).
  split; [exact Hplain|].
  exact (proj1 (proj2 zero_counts_are_guarded) [only] Hplain).
Defined.

(** ** Unit weights *)

Lemma fold_left_Qplus_comp (l : list Q) (a b : Q) :
  (a == b)%Q -> (fold_left Qplus l a == fold_left Qplus l b)%Q.
Proof.
  revert a b. induction l as [|x l IH]; intros a b Hab; simpl; [exact Hab|].
  apply IH. now rewrite Hab.
Qed.

Lemma guarded_comp (s s' c c' : Q) :
  (s == s')%Q -> (c == c')%Q ->
  jsnum_eq (if gtb c 0 then jsdiv s c else Fin 0)
           (if gtb c' 0 then jsdiv s' c' else Fin 0).
Proof.
  intros Hs Hc. unfold gtb, jsdiv.
  rewrite (Qcompare_comp c c' Hc 0%Q 0%Q (Qeq_refl 0%Q)).
  destruct (c' ?= 0)%Q eqn:E; simpl; try reflexivity.
  assert (Hc' : Qeq_bool c' 0 = false).
  { destruct (Qeq_bool c' 0) eqn:E'; [|reflexivity].
    apply Qeq_bool_iff, Qeq_alt in E'. congruence. }
  assert (Hc0 : Qeq_bool c 0 = false).
  { destruct (Qeq_bool c 0) eqn:E'; [|reflexivity].
    apply Qeq_bool_iff in E'. rewrite Hc in E'.
    apply Qeq_alt in E'. congruence. }
  rewrite Hc', Hc0. simpl. now rewrite Hs, Hc.
Qed.

(** With unit weights the total weight of a group is its record count. *)
Lemma unit_total (l : list MetricsCard.ForecastMetrics) (a : Q) :
  Forall (fun metric => (MetricsCard.n metric == 1)%Q) l ->
  (fold_left Qplus (map MetricsCard.n l) a == a + JS.len l)%Q.
Proof.
  intros Hl. revert a.
  induction Hl as [|x l Hx Hl IH]; intros a; simpl.
  - unfold JS.len. simpl. ring.
  - rewrite IH. change (x :: l) with ([x] ++ l).
    unfold JS.len. rewrite length_app, Nat2Z.inj_add, inject_Z_plus.
    simpl. rewrite Hx. ring.
Qed.

(** With unit weights a weighted sum of a group is the plain sum. *)
Lemma unit_weighted (w : MetricsCard.Group.t -> Q)
    (m : MetricsCard.ForecastMetrics -> Q) :
  (forall g x,
      w (MetricsCard.addTo x g) = (w g + m x * MetricsCard.n x)%Q) ->
  forall l g,
    Forall (fun metric => (MetricsCard.n metric == 1)%Q) l ->
    (w (foldl (fun g x => MetricsCard.addTo x g) g l)
     == fold_left Qplus (map m l) (w g))%Q.
Proof.
  intros Hstep l. induction l as [|x l IH]; intros g Hl; simpl.
  - reflexivity.
  - apply Forall_cons in Hl as [Hx Hl]. rewrite IH by exact Hl.
    apply fold_left_Qplus_comp. rewrite Hstep, Hx. ring.
Qed.

(** C8: when every record has weight [n] equal to 1, each row of
    MetricsCard carries, for each of the four metrics, the simple mean of
    that metric over the records of the row's region; and every region that
    has a record has a row. *)
Theorem unit_weights_give_simple_mean
    (apiData : list MetricsCard.ForecastMetrics) :
  Forall (fun metric => (MetricsCard.n metric == 1)%Q) apiData ->
  (forall row,
      row ∈ MetricsCard.aggregate apiData ->
      let r := MetricsCard.DisplayMetrics.region row in
      jsnum_eq (MetricsCard.DisplayMetrics.mape row)
        (simpleMean MetricsCard.mape_pct r apiData)
      /\ jsnum_eq (MetricsCard.DisplayMetrics.r2 row)
           (simpleMean MetricsCard.r2 r apiData)
      /\ jsnum_eq (MetricsCard.DisplayMetrics.mse row)
           (simpleMean MetricsCard.mse r apiData)
      /\ jsnum_eq (MetricsCard.DisplayMetrics.mae row)
           (simpleMean MetricsCard.mae r apiData))
  /\ (forall metric,
        metric ∈ apiData ->
        exists row,
          row ∈ MetricsCard.aggregate apiData
          /\ MetricsCard.DisplayMetrics.region row
             = MetricsCard.displayRegionOf metric).
Proof.
  intros Hunit. split.
  - intros row Hrow r.
    destruct (metrics_row_group apiData row Hrow) as [_ ->]. fold r.
    assert (Hl : Forall (fun metric => (MetricsCard.n metric == 1)%Q)
                   (metricsOf r apiData)).
    { unfold metricsOf. rewrite Forall_forall in *.
      intros x Hx. apply list_elem_of_filter in Hx as [_ Hx]. auto. }
    assert (Htotal :
      (MetricsCard.Group.totalN
         (foldl (fun g x => MetricsCard.addTo x g) MetricsCard.Group.zero
            (metricsOf r apiData))
       == JS.len (metricsOf r apiData))%Q).
    { rewrite totalN_foldl, unit_total by exact Hl. simpl. ring. }
    unfold simpleMean, JS.sum. simpl.
    repeat split; (apply guarded_comp; [|exact Htotal]).
    + now apply (unit_weighted MetricsCard.Group.weightedMape
                   MetricsCard.mape_pct).
    + now apply (unit_weighted MetricsCard.Group.weightedR2 MetricsCard.r2).
    + now apply (unit_weighted MetricsCard.Group.weightedMse MetricsCard.mse).
    + now apply (unit_weighted MetricsCard.Group.weightedMae MetricsCard.mae).
  - intros metric Hin.
    pose proof (regionGroups_lookup apiData
                  (MetricsCard.displayRegionOf metric)) as Hg.
    assert (Hm : metric ∈ metricsOf (MetricsCard.displayRegionOf metric)
                            apiData).
    { unfold metricsOf. now apply list_elem_of_filter. }
    destruct (metricsOf (MetricsCard.displayRegionOf metric) apiData)
      as [|x group]; [now apply elem_of_nil in Hm|].
    match type of Hg with
    | _ = Some ?g =>
        exists (MetricsCard.toDisplay (MetricsCard.displayRegionOf metric, g))
    end.
    split; [|reflexivity].
    apply metrics_row_iff. eexists. split; [exact Hg | reflexivity].
Qed.

Lemma unit_weights_example :
  let apiData :=
    [ MetricsCard.mkForecastMetrics "north" 1 400 20 10 (1 # 2);
      MetricsCard.mkForecastMetrics "north_c" 1 900 30 30 (1 # 4);
      MetricsCard.mkForecastMetrics "coast" 1 100 10 5 (3 # 4) ] in
  Forall (fun metric => (MetricsCard.n metric == 1)%Q) apiData
  /\ (forall row,
        row ∈ MetricsCard.aggregate apiData ->
        let r := MetricsCard.DisplayMetrics.region row in
        jsnum_eq (MetricsCard.DisplayMetrics.mape row)
          (simpleMean MetricsCard.mape_pct r apiData)
        /\ jsnum_eq (MetricsCard.DisplayMetrics.r2 row)
             (simpleMean MetricsCard.r2 r apiData)
        /\ jsnum_eq (MetricsCard.DisplayMetrics.mse row)
             (simpleMean MetricsCard.mse r apiData)
        /\ jsnum_eq (MetricsCard.DisplayMetrics.mae row)
             (simpleMean MetricsCard.mae r apiData)).
Proof.
  intros apiData.
  assert (Hunit : Forall (fun metric => (MetricsCard.n metric == 1)%Q)
                    apiData) by (repeat constructor).
  split; [exact Hunit|].
  exact (proj1 (unit_weights_give_simple_mean apiData Hunit)).
Defined.

(** ** Worked examples *)

(** Zones [north] and [north_c] with dry-day loads 100 and 200: the North
    row shows their mean, 150, and the other rows stay at zero. *)
Example north_mean_of_two_zones :
  exists north,
    DryVsRainyChart.aggregate
      [ DryVsRainyChart.mkPrecipitationData "north" false 100 30;
        DryVsRainyChart.mkPrecipitationData "north_c" false 200 30 ]
    = Ok [ north;
           DryVsRainyChart.mkChartDataPoint "South" (Fin 0) (Fin 0);
           DryVsRainyChart.mkChartDataPoint "West" (Fin 0) (Fin 0);
           DryVsRainyChart.mkChartDataPoint "Houston" (Fin 0) (Fin 0) ]
    /\ DryVsRainyChart.region north = "North"
    /\ jsnum_eq (DryVsRainyChart.dry north) (Fin 150)
    /\ DryVsRainyChart.rainy north = Fin 0.
Proof.
  eexists. split; [vm_compute; reflexivity|]. vm_compute. auto.
Qed.

(** Two records of West and one of Houston: ExtremeHeatLoadTable sums the
    loads, averages the days and the thresholds, and sorts the two rows. *)
Example extreme_heat_two_regions :
  exists houston west,
    ExtremeHeatLoadTable.aggregate String.compare
      [ ExtremeHeatLoadTable.mkExtremeHeatData "west" 1000 3 95 101;
        ExtremeHeatLoadTable.mkExtremeHeatData "coast" 5000 7 95 99;
        ExtremeHeatLoadTable.mkExtremeHeatData "far_west" 500 4 95 103 ]
    = Ok [houston; west]
    /\ ExtremeHeatLoadTable.RegionData.region houston = "Houston"
    /\ ExtremeHeatLoadTable.RegionData.region west = "West"
    /\ (ExtremeHeatLoadTable.RegionData.median_peak_load_mw west == 1500)%Q
    /\ jsnum_eq (ExtremeHeatLoadTable.RegionData.num_extreme_heat_days west)
         (Fin 4)
    /\ jsnum_eq (ExtremeHeatLoadTable.RegionData.avg_threshold_temp_f west)
         (Fin 102).
Proof.
  do 2 eexists. split; [vm_compute; reflexivity|]. vm_compute. auto 6.
Qed.

(** A list of 250 elements is sampled at the indices 0, 2, 5, 7, 10, ... *)
Example sampleData_250 :
  firstn 5 (LoadByRegionChart.sampleData (seq 0 250) 100)
  = [Some 0; Some 2; Some 5; Some 7; Some 10]%nat
  /\ length (LoadByRegionChart.sampleData (seq 0 250) 100) = 100%nat.
Proof. split; vm_compute; reflexivity. Qed.

(** * Further properties of the views *)

(** ** Counts and means per region *)

Lemma streaksOf_snoc (r : string) done x :
  streaksOf r (done ++ [x])
  = streaksOf r done
    ++ (if decide (JS.get (HeatwavesByZoneChart.zone x)
                     HeatwavesByZoneChart.zoneToDisplayMap = Some r)
        then [x] else []).
Proof.
  unfold streaksOf. rewrite filter_app, filter_cons.
  now destruct (decide _).
Qed.

(** On a response without inherited zone names the loop of
    HeatwavesByZoneChart keeps the four keys and, under each region, the
    number of records seen so far whose zone maps to the region. *)
Lemma heatwaves_tallied (apiData : list HeatwavesByZoneChart.HeatwaveData) :
  plainZones HeatwavesByZoneChart.zone apiData ->
  exists zoneCount,
    forEach HeatwavesByZoneChart.countStreak apiData
      HeatwavesByZoneChart.zoneCount0 = Ok zoneCount
    /\ map fst zoneCount = displayRegions
    /\ forall r c,
         JS.get r zoneCount = Some c ->
         jsnum_eq c (Fin (JS.len (streaksOf r apiData))).
Proof.
  intros Hplain.
  destruct (forEach_invariant HeatwavesByZoneChart.countStreak
              (fun heatwave =>
                 JS.isInherited (HeatwavesByZoneChart.zone heatwave) = false)
              (fun s done =>
                 map fst s = displayRegions
                 /\ forall r c,
                      JS.get r s = Some c ->
                      jsnum_eq c (Fin (JS.len (streaksOf r done)))))
    with (l := apiData) (s := HeatwavesByZoneChart.zoneCount0)
         (done := @nil HeatwavesByZoneChart.HeatwaveData)
    as (s' & Hs' & HP); [|exact Hplain| |eauto].
  - intros s done x Hx [Hkeys Hcount].
    rewrite heatwaves_plain_step by exact Hx.
    destruct (JS.get (HeatwavesByZoneChart.zone x)
                HeatwavesByZoneChart.zoneToDisplayMap) as [k|] eqn:Hz.
    + eexists. split; [reflexivity|].
      assert (Hk : is_Some (JS.get k s)).
      { apply get_is_Some. rewrite Hkeys.
        eapply zone_region_cases. rewrite <- heatwaves_table_same. eauto. }
      unfold HeatwavesByZoneChart.increment.
      destruct Hk as [c Hc]. rewrite Hc.
      pose proof (Hcount k c Hc) as Hkc. destruct c as [q|]; [|destruct Hkc].
      destruct (set_present k (Fin (q + 1)) s) as [Hkeys' Hget];
        [now rewrite Hc|].
      split; [congruence|].
      intros r c Hr. rewrite Hget in Hr. rewrite streaksOf_snoc, Hz.
      destruct (String.eqb_spec r k) as [->|Hne].
      * injection Hr as <-. destruct (decide _) as [_|Hn]; [|now destruct Hn].
        simpl in *. now rewrite len_snoc, Hkc.
      * destruct (decide _) as [[= ->]|_]; [now destruct Hne|].
        rewrite app_nil_r. auto.
    + exists s. split; [reflexivity|]. split; [exact Hkeys|].
      intros r c Hr. rewrite streaksOf_snoc, Hz.
      destruct (decide _) as [[=]|_]. rewrite app_nil_r. auto.
  - split; [reflexivity|]. intros r c.
    unfold HeatwavesByZoneChart.zoneCount0. cbn [JS.get].
    repeat match goal with
           | |- context [String.eqb r ?k] => destruct (String.eqb r k)
           end;
      intros [= <-]; reflexivity.
Qed.

Lemma get_set {V} (r k : string) (v : V) (o : list (string * V)) :
  JS.get r (JS.set k v o) = if String.eqb r k then Some v else JS.get r o.
Proof.
  induction o as [|[k' v'] o IH]; simpl; [reflexivity|].
  destruct (String.eqb_spec k k') as [->|Hne]; simpl.
  - now destruct (String.eqb r k').
  - rewrite IH. destruct (String.eqb_spec r k') as [->|_]; [|reflexivity].
    destruct (String.eqb_spec k' k) as [->|_]; [now destruct Hne|].
    reflexivity.
Qed.

Lemma get_increment (r k : string) (s : list (string * jsnum)) :
  JS.get r (HeatwavesByZoneChart.increment k s)
  = if String.eqb r k
    then Some match JS.get k s with
              | Some (Fin c) => Fin (c + 1)
              | _ => NotFinite
              end
    else JS.get r s.
Proof.
  unfold HeatwavesByZoneChart.increment.
  destruct (JS.get k s) as [[c|]|]; now rewrite get_set.
Qed.

(** The loop of HeatwavesByZoneChart never throws.  Only the four regions
    hold a count; a record whose zone is an inherited name leaves NaN under
    the key of the inherited member. *)
Lemma heatwaves_inherited_entries
    (apiData : list HeatwavesByZoneChart.HeatwaveData) :
  exists zoneCount,
    forEach HeatwavesByZoneChart.countStreak apiData
      HeatwavesByZoneChart.zoneCount0 = Ok zoneCount
    /\ forall heatwave,
         In heatwave apiData ->
         JS.isInherited (HeatwavesByZoneChart.zone heatwave) = true ->
         JS.get (JS.inheritedText (HeatwavesByZoneChart.zone heatwave))
           zoneCount = Some NotFinite.
Proof.
  destruct (forEach_invariant HeatwavesByZoneChart.countStreak
              (fun _ => True)
              (fun s done =>
                 (forall r q, JS.get r s = Some (Fin q) -> In r displayRegions)
                 /\ forall heatwave,
                      In heatwave done ->
                      JS.isInherited (HeatwavesByZoneChart.zone heatwave)
                      = true ->
                      JS.get
                        (JS.inheritedText
                           (HeatwavesByZoneChart.zone heatwave)) s
                      = Some NotFinite))
    with (l := apiData) (s := HeatwavesByZoneChart.zoneCount0)
         (done := @nil HeatwavesByZoneChart.HeatwaveData)
    as (s' & Hs' & _ & HP); [| |split|eauto].
  - intros s done x _ [Hfin Hnan].
    unfold HeatwavesByZoneChart.countStreak. cbv zeta.
    change HeatwavesByZoneChart.zoneToDisplayMap
      with DryVsRainyChart.zoneToRegionMap.
    remember (JS.lookup (HeatwavesByZoneChart.zone x)
                DryVsRainyChart.zoneToRegionMap) as found eqn:Hfound.
    destruct (JS.isTruthy found) eqn:Htruthy.
    + remember (JS.propertyKey found) as k eqn:Hk.
      eexists. split; [reflexivity|]. split.
      * intros r q. rewrite get_increment.
        destruct (String.eqb_spec r k) as [->|_]; [|apply Hfin].
        destruct (JS.get k s) as [[c|]|] eqn:Ek; try discriminate.
        intros _. eapply Hfin; eauto.
      * intros y Hy Hinh. rewrite get_increment.
        destruct (String.eqb_spec
                    (JS.inheritedText (HeatwavesByZoneChart.zone y)) k)
          as [E|Hne].
        -- rewrite <- E.
           destruct (JS.get _ s) as [[c|]|] eqn:Ek; try reflexivity.
           apply Hfin in Ek. now apply inherited_text_fresh in Ek.
        -- apply in_app_or in Hy as [Hy|[<-|[]]]; [now apply Hnan|].
           rewrite (inherited_unmapped _ Hinh) in Hfound. subst found k.
           now destruct Hne.
    + exists s. split; [reflexivity|]. split; [exact Hfin|].
      intros y Hy Hinh.
      apply in_app_or in Hy as [Hy|[<-|[]]]; [now apply Hnan|].
      rewrite (inherited_unmapped _ Hinh) in Hfound. subst found.
      discriminate.
  - apply Forall_forall. auto.
  - intros r q. unfold HeatwavesByZoneChart.zoneCount0. cbn [JS.get].
    repeat match goal with
           | |- context [String.eqb r ?k] =>
               destruct (String.eqb_spec r k) as [->|_]; [simpl; tauto|]
           end.
    discriminate.
  - intros heatwave [].
Qed.

(** X1: for a heatwave response in which no zone is a name inherited from
    [Object.prototype], the chart data has the four rows North, South, West,
    Houston in this order, and each row's count is the number of records
    whose zone maps to the row's region.  A record whose zone is such a name
    (say [toString]) adds a further row, keyed by the text of the inherited
    member, whose count is NaN. *)
Theorem heatwaves_count_per_region
    (apiData : list HeatwavesByZoneChart.HeatwaveData) :
  (plainZones HeatwavesByZoneChart.zone apiData ->
   exists rows,
     HeatwavesByZoneChart.aggregate apiData = Ok rows
     /\ map HeatwavesByZoneChart.ChartDataPoint.zone rows = displayRegions
     /\ forall row,
          In row rows ->
          jsnum_eq (HeatwavesByZoneChart.ChartDataPoint.heatwaves row)
            (Fin (JS.len
                    (streaksOf (HeatwavesByZoneChart.ChartDataPoint.zone row)
                       apiData))))
  /\ (forall heatwave,
        In heatwave apiData ->
        JS.isInherited (HeatwavesByZoneChart.zone heatwave) = true ->
        exists rows,
          HeatwavesByZoneChart.aggregate apiData = Ok rows
          /\ In (HeatwavesByZoneChart.ChartDataPoint.mk
                   (JS.inheritedText (HeatwavesByZoneChart.zone heatwave))
                   NotFinite) rows).
Proof.
  split.
  - intros Hplain.
    destruct (heatwaves_tallied apiData Hplain) as (s & Hs & Hkeys & Hcount).
    exists (map HeatwavesByZoneChart.toPoint s).
    unfold HeatwavesByZoneChart.aggregate. rewrite Hs. split; [reflexivity|].
    split.
    { rewrite <- Hkeys, map_map. apply map_ext. now intros [r c]. }
    intros row Hrow. apply in_map_iff in Hrow as ([k c] & <- & Hin).
    apply In_get in Hin; [|rewrite Hkeys; apply displayRegions_NoDup].
    simpl. auto.
  - intros heatwave Hin Hinh.
    destruct (heatwaves_inherited_entries apiData) as (s & Hs & Hnan).
    exists (map HeatwavesByZoneChart.toPoint s).
    unfold HeatwavesByZoneChart.aggregate. rewrite Hs. split; [reflexivity|].
    apply in_map_iff. eexists (_, _). split; [reflexivity|].
    apply get_In. now apply Hnan.
Qed.

Lemma heatwaves_inherited_example :
  let mapped :=
    HeatwavesByZoneChart.mkHeatwaveData "west" "2010-07-01" "2010-07-04"
      4 None in
  let inherited :=
    HeatwavesByZoneChart.mkHeatwaveData "toString" "2010-08-01" "2010-08-03"
      3 None in
  (plainZones HeatwavesByZoneChart.zone [mapped]
   /\ exists rows,
        HeatwavesByZoneChart.aggregate [mapped] = Ok rows
        /\ map HeatwavesByZoneChart.ChartDataPoint.zone rows = displayRegions)
  /\ exists rows,
       HeatwavesByZoneChart.aggregate [mapped; inherited] = Ok rows
       /\ In (HeatwavesByZoneChart.ChartDataPoint.mk
                "function toString() { [native code] }" NotFinite) rows.
Proof.
  intros mapped inherited. split.
  - assert (Hplain : plainZones HeatwavesByZoneChart.zone [mapped])
      by (repeat constructor).
    split; [exact Hplain|].
    destruct (proj1 (heatwaves_count_per_region [mapped]) Hplain)
      as (rows & Hagg & Hzones & _).
    exists rows. split; [exact Hagg | exact Hzones].
  - exact (proj2 (heatwaves_count_per_region [mapped; inherited]) inherited
             (or_intror (or_introl eq_refl)) eq_refl).
Defined.

(** The loop of DryVsRainyChart keeps, under each region, the sums of the
    loads of the dry and of the rainy records seen so far. *)
Lemma dry_vs_rainy_summed
    (apiData : list DryVsRainyChart.PrecipitationData) :
  plainZones DryVsRainyChart.zone apiData ->
  exists regionData,
    forEach DryVsRainyChart.accumulate apiData DryVsRainyChart.regionData0
    = Ok regionData
    /\ forall r v,
         JS.get r regionData = Some v ->
         DryVsRainyChart.Values.dry v
         = JS.sum (map DryVsRainyChart.avg_load_mw (dryRecords r apiData))
         /\ DryVsRainyChart.Values.rainy v
            = JS.sum (map DryVsRainyChart.avg_load_mw
                        (rainyRecords r apiData)).
Proof.
  intros Hplain.
  destruct (forEach_invariant DryVsRainyChart.accumulate
              (fun item => JS.isInherited (DryVsRainyChart.zone item) = false)
              (fun s done =>
                 map fst s = displayRegions
                 /\ forall r v,
                      JS.get r s = Some v ->
                      DryVsRainyChart.Values.dry v
                      = JS.sum (map DryVsRainyChart.avg_load_mw
                                  (dryRecords r done))
                      /\ DryVsRainyChart.Values.rainy v
                         = JS.sum (map DryVsRainyChart.avg_load_mw
                                     (rainyRecords r done))))
    with (l := apiData) (s := DryVsRainyChart.regionData0)
         (done := @nil DryVsRainyChart.PrecipitationData)
    as (s' & Hs' & _ & HP); [|exact Hplain| |eauto].
  - intros s done x Hx [Hkeys Hsum].
    rewrite dry_vs_rainy_plain_step by exact Hx.
    destruct (JS.get (DryVsRainyChart.zone x) DryVsRainyChart.zoneToRegionMap)
      as [r'|] eqn:Hz.
    + assert (Hr' : In r' (map fst s))
        by (rewrite Hkeys; eapply zone_region_cases; eauto).
      destruct (DryVsRainyChart.rainy_day x) eqn:Hrainy.
      * destruct (update_present r'
                    (DryVsRainyChart.addRainy (DryVsRainyChart.avg_load_mw x))
                    s (get_is_Some _ _ Hr')) as (s1 & -> & K1 & G1).
        rewrite <- K1 in Hr'.
        destruct (update_present r' DryVsRainyChart.incRainyCount
                    s1 (get_is_Some _ _ Hr')) as (s2 & E2 & K2 & G2).
        exists s2. split; [exact E2|]. split; [congruence|].
        intros r v Hv. rewrite G2, G1 in Hv.
        rewrite dryRecords_snoc_out by (rewrite Hrainy; intros [_ [=]]).
        destruct (String.eqb_spec r r') as [->|Hne].
        -- destruct (JS.get r' s) as [v0|] eqn:E0; [|discriminate].
           injection Hv as <-. destruct (Hsum r' v0 E0) as [Hd Hr].
           split; [exact Hd|].
           rewrite rainyRecords_snoc_in, map_app by assumption.
           cbn [map]. rewrite sum_snoc. simpl. now rewrite Hr.
        -- rewrite rainyRecords_snoc_out by (intros [H _]; congruence).
           auto.
      * destruct (update_present r'
                    (DryVsRainyChart.addDry (DryVsRainyChart.avg_load_mw x))
                    s (get_is_Some _ _ Hr')) as (s1 & -> & K1 & G1).
        rewrite <- K1 in Hr'.
        destruct (update_present r' DryVsRainyChart.incDryCount
                    s1 (get_is_Some _ _ Hr')) as (s2 & E2 & K2 & G2).
        exists s2. split; [exact E2|]. split; [congruence|].
        intros r v Hv. rewrite G2, G1 in Hv.
        rewrite rainyRecords_snoc_out by (rewrite Hrainy; intros [_ [=]]).
        destruct (String.eqb_spec r r') as [->|Hne].
        -- destruct (JS.get r' s) as [v0|] eqn:E0; [|discriminate].
           injection Hv as <-. destruct (Hsum r' v0 E0) as [Hd Hr].
           split; [|exact Hr].
           rewrite dryRecords_snoc_in, map_app by assumption.
           cbn [map]. rewrite sum_snoc. simpl. now rewrite Hd.
        -- rewrite dryRecords_snoc_out by (intros [H _]; congruence).
           auto.
    + exists s. split; [reflexivity|]. split; [exact Hkeys|].
      intros r v Hv.
      rewrite dryRecords_snoc_out, rainyRecords_snoc_out
        by (intros [H _]; congruence).
      auto.
  - split; [reflexivity|]. intros r v. unfold DryVsRainyChart.regionData0.
    cbn [JS.get].
    repeat match goal with
           | |- context [String.eqb r ?k] => destruct (String.eqb r k)
           end;
      intros [= <-]; split; reflexivity.
Qed.

Lemma update_absent {V} (k : string) (f : V -> V) (o : list (string * V)) :
  ~ In k (map fst o) ->
  JS.update k f o = Throw (ErrorObject "Cannot read properties of undefined").
Proof.
  induction o as [|[k' v] o IH]; simpl; [reflexivity|].
  intros Hk. destruct (String.eqb_spec k k') as [->|_]; [tauto|].
  rewrite IH by tauto. reflexivity.
Qed.

(** A record whose zone is an inherited name makes the loop of
    DryVsRainyChart throw a [TypeError]. *)
Lemma dry_vs_rainy_throws (apiData : list DryVsRainyChart.PrecipitationData)
    (s : list (string * DryVsRainyChart.Values.t)) :
  map fst s = displayRegions ->
  (exists item,
      In item apiData
      /\ JS.isInherited (DryVsRainyChart.zone item) = true) ->
  exists message,
    forEach DryVsRainyChart.accumulate apiData s
    = Throw (ErrorObject message).
Proof.
  revert s. induction apiData as [|x l IH]; intros s Hkeys (item & Hin & Hinh);
    [destruct Hin|].
  simpl. destruct (JS.isInherited (DryVsRainyChart.zone x)) eqn:Hx.
  - unfold DryVsRainyChart.accumulate.
    rewrite (inherited_unmapped _ Hx). cbn [JS.isTruthy JS.propertyKey].
    pose proof (inherited_text_fresh _ Hx) as Hfresh.
    rewrite <- Hkeys in Hfresh.
    destruct (DryVsRainyChart.rainy_day x);
      rewrite update_absent by exact Hfresh; simpl; eauto.
  - assert (Hrest : exists item,
               In item l
               /\ JS.isInherited (DryVsRainyChart.zone item) = true).
    { destruct Hin as [<-|Hin]; [congruence | eauto]. }
    rewrite dry_vs_rainy_plain_step by exact Hx.
    destruct (JS.get _ DryVsRainyChart.zoneToRegionMap) as [r|] eqn:Hz;
      [|now apply IH].
    assert (Hr : In r (map fst s))
      by (rewrite Hkeys; eapply zone_region_cases; eauto).
    destruct (DryVsRainyChart.rainy_day x).
    + destruct (update_present r
                  (DryVsRainyChart.addRainy (DryVsRainyChart.avg_load_mw x))
                  s (get_is_Some _ _ Hr)) as (s1 & -> & K1 & _).
      rewrite <- K1 in Hr.
      destruct (update_present r DryVsRainyChart.incRainyCount
                  s1 (get_is_Some _ _ Hr)) as (s2 & E2 & K2 & _).
      simpl. rewrite E2. apply IH; [congruence | exact Hrest].
    + destruct (update_present r
                  (DryVsRainyChart.addDry (DryVsRainyChart.avg_load_mw x))
                  s (get_is_Some _ _ Hr)) as (s1 & -> & K1 & _).
      rewrite <- K1 in Hr.
      destruct (update_present r DryVsRainyChart.incDryCount
                  s1 (get_is_Some _ _ Hr)) as (s2 & E2 & K2 & _).
      simpl. rewrite E2. apply IH; [congruence | exact Hrest].
Qed.

(** X2: for a precipitation response in which no zone is a name inherited
    from [Object.prototype], the chart data has the four rows North, South,
    West, Houston in this order; a row's dry value is the arithmetic mean of
    [avg_load_mw] over the dry-day records whose zone maps to the row's
    region, its rainy value the mean over the rainy-day records, and either
    is 0 when there is no such record.  A record whose zone is such a name
    (say [constructor]) makes the aggregation throw a [TypeError], so that
    there is no chart data. *)
Theorem dry_vs_rainy_means
    (apiData : list DryVsRainyChart.PrecipitationData) :
  (plainZones DryVsRainyChart.zone apiData ->
   exists rows,
     DryVsRainyChart.aggregate apiData = Ok rows
     /\ map DryVsRainyChart.region rows = displayRegions
     /\ forall row,
          In row rows ->
          jsnum_eq (DryVsRainyChart.dry row)
            (mean (map DryVsRainyChart.avg_load_mw
                     (dryRecords (DryVsRainyChart.region row) apiData)))
          /\ jsnum_eq (DryVsRainyChart.rainy row)
               (mean (map DryVsRainyChart.avg_load_mw
                        (rainyRecords (DryVsRainyChart.region row)
                           apiData))))
  /\ ((exists item,
         In item apiData
         /\ JS.isInherited (DryVsRainyChart.zone item) = true) ->
      exists message,
        DryVsRainyChart.aggregate apiData = Throw (ErrorObject message)).
Proof.
  split.
  - intros Hplain.
    destruct (dry_vs_rainy_accumulated apiData Hplain)
      as (s & Hs & Hkeys & Hcount).
    destruct (dry_vs_rainy_summed apiData Hplain) as (s' & Hs' & Hsum).
    assert (s' = s) as -> by congruence.
    exists (map DryVsRainyChart.toPoint s).
    unfold DryVsRainyChart.aggregate. rewrite Hs. split; [reflexivity|].
    split.
    { rewrite <- Hkeys, map_map. apply map_ext. now intros [r v]. }
    intros row Hrow. apply in_map_iff in Hrow as ([k v] & <- & Hin).
    apply In_get in Hin; [|rewrite Hkeys; apply displayRegions_NoDup].
    destruct (Hcount k v Hin) as [Hdc Hrc].
    destruct (Hsum k v Hin) as [Hds Hrs].
    simpl. unfold mean. rewrite !len_map. split; apply guarded_comp;
      try assumption; rewrite ?Hds, ?Hrs; reflexivity.
  - intros Hinh.
    destruct (dry_vs_rainy_throws apiData DryVsRainyChart.regionData0
                eq_refl Hinh) as (message & Hthrow).
    exists message. unfold DryVsRainyChart.aggregate. now rewrite Hthrow.
Qed.

Lemma dry_vs_rainy_inherited_example :
  let mapped := DryVsRainyChart.mkPrecipitationData "west" false 100 3 in
  let inherited :=
    DryVsRainyChart.mkPrecipitationData "constructor" false 100 3 in
  (plainZones DryVsRainyChart.zone [mapped]
   /\ exists rows,
        DryVsRainyChart.aggregate [mapped] = Ok rows
        /\ map DryVsRainyChart.region rows = displayRegions)
  /\ exists message,
       DryVsRainyChart.aggregate [mapped; inherited]
       = Throw (ErrorObject message).
Proof.
  intros mapped inherited. split.
  - assert (Hplain : plainZones DryVsRainyChart.zone [mapped])
      by (repeat constructor).
    split; [exact Hplain|].
    destruct (proj1 (dry_vs_rainy_means [mapped]) Hplain)
      as (rows & Hagg & Hregions & _).
    exists rows. split; [exact Hagg | exact Hregions].
  - apply (proj2 (dry_vs_rainy_means [mapped; inherited])).
    exists inherited. split; [right; now left | reflexivity].
Defined.

Lemma forEach_map {A B S} (body : S -> B -> result S) (f : A -> B)
    (l : list A) (s : S) :
  forEach body (map f l) s = forEach (fun s x => body s (f x)) l s.
Proof.
  revert s. induction l as [|x l IH]; intros s; simpl; [reflexivity|].
  destruct (body s (f x)); [apply IH | reflexivity].
Qed.

Lemma forEach_ext {A S} (body body' : S -> A -> result S) (l : list A)
    (s : S) :
  (forall s x, body s x = body' s x) ->
  forEach body l s = forEach body' l s.
Proof.
  intros H. revert s. induction l as [|x l IH]; intros s; simpl;
    [reflexivity|].
  rewrite H. destruct (body' s x); [apply IH | reflexivity].
Qed.

(** X3: the means of DryVsRainyChart are not weighted: whatever the
    [num_days] of the records are changed to, the chart data is the same. *)
Theorem dry_vs_rainy_ignores_num_days
    (days : DryVsRainyChart.PrecipitationData -> Q)
    (apiData : list DryVsRainyChart.PrecipitationData) :
  DryVsRainyChart.aggregate
    (map (fun item =>
            DryVsRainyChart.mkPrecipitationData
              (DryVsRainyChart.zone item) (DryVsRainyChart.rainy_day item)
              (DryVsRainyChart.avg_load_mw item) (days item)) apiData)
  = DryVsRainyChart.aggregate apiData.
Proof.
  unfold DryVsRainyChart.aggregate. rewrite forEach_map.
  erewrite forEach_ext; [reflexivity|]. reflexivity.
Qed.

(** ** The rows of ExtremeHeatLoadTable *)

Lemma insertSorted_Permutation {A} (cmp : A -> A -> comparison) (x : A)
    (l : list A) :
  JS.insertSorted cmp x l ≡ₚ x :: l.
Proof.
  induction l as [|y l IH]; simpl; [reflexivity|].
  destruct (cmp x y); try reflexivity.
  rewrite IH. apply perm_swap.
Qed.

Lemma sort_Permutation {A} (cmp : A -> A -> comparison) (l : list A) :
  JS.sort cmp l ≡ₚ l.
Proof.
  unfold JS.sort. induction l as [|x l IH]; simpl; [reflexivity|].
  now rewrite insertSorted_Permutation, IH.
Qed.

Lemma insertSorted_HdRel {A} (cmp : A -> A -> comparison) (x y : A)
    (l : list A) :
  cmp y x <> Gt ->
  HdRel (fun a b => cmp a b <> Gt) y l ->
  HdRel (fun a b => cmp a b <> Gt) y (JS.insertSorted cmp x l).
Proof.
  intros Hyx Hl. destruct l as [|z l]; simpl; [now constructor|].
  destruct (cmp x z); constructor; try exact Hyx.
  now inversion Hl.
Qed.

(** Inserting into an ordered list keeps it ordered, when the comparator
    does not put two elements each after the other. *)
Lemma insertSorted_Sorted {A} (cmp : A -> A -> comparison) (x : A)
    (l : list A) :
  (forall y, In y l -> cmp x y = Gt -> cmp y x <> Gt) ->
  Sorted (fun a b => cmp a b <> Gt) l ->
  Sorted (fun a b => cmp a b <> Gt) (JS.insertSorted cmp x l).
Proof.
  intros Hasym Hl. induction Hl as [|y l Hl IH Hhd]; simpl.
  - repeat constructor.
  - destruct (cmp x y) eqn:E.
    + constructor; [now constructor|]. constructor. congruence.
    + constructor; [now constructor|]. constructor. congruence.
    + constructor.
      * apply IH. intros z Hz. apply Hasym. now right.
      * apply insertSorted_HdRel; [|exact Hhd].
        apply Hasym; [now left | exact E].
Qed.

Lemma sort_Sorted {A} (cmp : A -> A -> comparison) (l : list A) :
  (forall a b, In a l -> In b l -> cmp a b = Gt -> cmp b a <> Gt) ->
  Sorted (fun a b => cmp a b <> Gt) (JS.sort cmp l).
Proof.
  unfold JS.sort. induction l as [|x l IH]; intros Hasym; simpl.
  - constructor.
  - apply insertSorted_Sorted.
    + intros y Hy. apply In_sort in Hy. apply Hasym; [now left | now right].
    + apply IH. intros a b Ha Hb. apply Hasym; now right.
Qed.

(** X4: for a response in which no zone is a name inherited from
    [Object.prototype], ExtremeHeatLoadTable shows one row for each display
    region that has a record in the response, and no other row.  The row
    carries the sum of the peak loads of the region's records, the rounded
    average of their extreme-heat days and the average of their temperature
    thresholds. *)
Theorem extreme_heat_rows_per_region localeCompare
    (apiData : list ExtremeHeatLoadTable.ExtremeHeatData) :
  plainZones ExtremeHeatLoadTable.zone apiData ->
  exists rows,
    ExtremeHeatLoadTable.aggregate localeCompare apiData = Ok rows
    /\ NoDup (map ExtremeHeatLoadTable.RegionData.region rows)
    /\ (forall r,
          In r (map ExtremeHeatLoadTable.RegionData.region rows) <->
          heatRecords r apiData <> [])
    /\ forall row,
         In row rows ->
         let items :=
           heatRecords (ExtremeHeatLoadTable.RegionData.region row) apiData in
         In (ExtremeHeatLoadTable.RegionData.region row) displayRegions
         /\ ExtremeHeatLoadTable.RegionData.median_peak_load_mw row
            = JS.sum (map ExtremeHeatLoadTable.median_peak_load_mw items)
         /\ ExtremeHeatLoadTable.RegionData.num_extreme_heat_days row
            = JS.round
                (jsdiv
                   (JS.sum
                      (map ExtremeHeatLoadTable.num_extreme_heat_days items))
                   (JS.len items))
         /\ ExtremeHeatLoadTable.RegionData.avg_threshold_temp_f row
            = jsdiv
                (JS.sum (map ExtremeHeatLoadTable.threshold_temp_f items))
                (JS.len items).
Proof.
  intros Hplain.
  destruct (extreme_heat_rows localeCompare apiData Hplain)
    as (s & -> & Hnd & Hin).
  eexists. split; [reflexivity|].
  assert (Hregions :
    map ExtremeHeatLoadTable.RegionData.region
      (JS.sort (ExtremeHeatLoadTable.byRegion localeCompare)
         (map ExtremeHeatLoadTable.toRow s)) ≡ₚ map fst s).
  { rewrite sort_Permutation, map_map.
    erewrite map_ext; [reflexivity|]. now intros [r c]. }
  split; [now rewrite Hregions|]. split.
  - intros r. rewrite <- !list_elem_of_In, Hregions, list_elem_of_In.
    rewrite in_map_iff. split.
    + intros ([r' c] & <- & Hrc). now apply Hin in Hrc.
    + intros Hne. exists (r, collectedOf (heatRecords r apiData)).
      split; [reflexivity|]. now apply Hin.
  - intros row Hrow items.
    apply In_sort, in_map_iff in Hrow as ([r c] & <- & Hrc).
    apply Hin in Hrc as [Hne ->]. simpl in items. subst items.
    split; [exact (heatRecords_region _ _ Hne)|].
    simpl. rewrite !len_map. auto.
Qed.

Lemma extreme_heat_rows_example :
  let apiData :=
    [ ExtremeHeatLoadTable.mkExtremeHeatData "west" 1000 3 95 101;
      ExtremeHeatLoadTable.mkExtremeHeatData "far_west" 500 4 95 103 ] in
  plainZones ExtremeHeatLoadTable.zone apiData
  /\ exists rows,
       ExtremeHeatLoadTable.aggregate String.compare apiData = Ok rows
       /\ forall r,
            In r (map ExtremeHeatLoadTable.RegionData.region rows) <->
            heatRecords r apiData <> [].
Proof.
  intros apiData.
  assert (Hplain : plainZones ExtremeHeatLoadTable.zone apiData)
    by (repeat constructor).
  split; [exact Hplain|].
  destruct (extreme_heat_rows_per_region String.compare apiData Hplain)
    as (rows & Hagg & _ & Hregions & _).
  exists rows. split; [exact Hagg | exact Hregions].
Defined.

Lemma Sorted_StronglySorted_on {A} (R : A -> A -> Prop) (P : A -> Prop)
    (l : list A) :
  (forall a b c, P a -> P b -> P c -> R a b -> R b c -> R a c) ->
  Forall P l -> Sorted R l -> StronglySorted R l.
Proof.
  intros Htrans HP Hl. induction Hl as [|x l Hl IH Hhd]; [constructor|].
  apply Forall_cons in HP as [Hx HP]. specialize (IH HP).
  constructor; [exact IH|].
  destruct Hhd as [|y l Hxy]; [constructor|].
  apply StronglySorted_inv in IH as [_ Hy].
  apply Forall_cons in HP as [Hpy HP].
  constructor; [exact Hxy|].
  rewrite Forall_forall in *. intros z Hz. eauto.
Qed.

(** X5: when the collation is consistent on the four display-region
    names and no zone of the response is a name inherited from
    [Object.prototype], the rows of ExtremeHeatLoadTable are in the order
    of the collation of their region names. *)
Theorem extreme_heat_rows_in_order localeCompare
    (apiData : list ExtremeHeatLoadTable.ExtremeHeatData) :
  consistentOn displayRegions localeCompare ->
  plainZones ExtremeHeatLoadTable.zone apiData ->
  exists rows,
    ExtremeHeatLoadTable.aggregate localeCompare apiData = Ok rows
    /\ inOrder localeCompare rows.
Proof.
  intros [Hopp Htrans] Hplain.
  destruct (extreme_heat_rows localeCompare apiData Hplain)
    as (s & -> & Hnd & Hin).
  eexists. split; [reflexivity|].
  assert (Hnames : forall row,
    In row (map ExtremeHeatLoadTable.toRow s) ->
    In (ExtremeHeatLoadTable.RegionData.region row) displayRegions).
  { intros row Hrow. apply in_map_iff in Hrow as ([r c] & <- & Hrc).
    apply Hin in Hrc as [Hne _]. exact (heatRecords_region _ _ Hne). }
  apply (Sorted_StronglySorted_on _
           (fun row =>
              In (ExtremeHeatLoadTable.RegionData.region row)
                displayRegions)).
  - intros a b c Ha Hb Hc. now apply Htrans.
  - apply Forall_forall. intros row Hrow.
    apply list_elem_of_In, In_sort in Hrow. auto.
  - apply (sort_Sorted (ExtremeHeatLoadTable.byRegion localeCompare)).
    intros a b Ha Hb Hgt. unfold ExtremeHeatLoadTable.byRegion in *.
    rewrite (Hopp _ _ (Hnames a Ha) (Hnames b Hb)), Hgt. discriminate.
Qed.

Lemma extreme_heat_order_example :
  let apiData :=
    [ ExtremeHeatLoadTable.mkExtremeHeatData "west" 1000 3 95 101;
      ExtremeHeatLoadTable.mkExtremeHeatData "coast" 5000 7 95 99;
      ExtremeHeatLoadTable.mkExtremeHeatData "north_c" 800 2 95 100 ] in
  exists rows,
    ExtremeHeatLoadTable.aggregate String.compare apiData = Ok rows
    /\ inOrder String.compare rows.
Proof.
  intros apiData.
  apply (extreme_heat_rows_in_order String.compare apiData);
    [|repeat constructor].
  split.
  - intros a b Ha Hb. simpl in Ha, Hb.
    destruct Ha as [<-|[<-|[<-|[<-|[]]]]];
      destruct Hb as [<-|[<-|[<-|[<-|[]]]]];
      reflexivity.
  - intros a b c Ha Hb Hc. simpl in Ha, Hb, Hc.
    destruct Ha as [<-|[<-|[<-|[<-|[]]]]];
      destruct Hb as [<-|[<-|[<-|[<-|[]]]]];
      destruct Hc as [<-|[<-|[<-|[<-|[]]]]];
      vm_compute; congruence.
Defined.

(** ** The rows of MetricsCard *)

(** X6: MetricsCard shows exactly one row for each key that a record of
    the response is grouped under, and no other row.  The key is the display
    region of the record's region, or the raw identifier when the table does
    not map it, or, for a region that is a name inherited from
    [Object.prototype], the text of the inherited member. *)
Theorem metrics_rows_per_key
    (apiData : list MetricsCard.ForecastMetrics) :
  NoDup (map MetricsCard.DisplayMetrics.region
           (MetricsCard.aggregate apiData))
  /\ (forall r,
        In r (map MetricsCard.DisplayMetrics.region
                (MetricsCard.aggregate apiData)) <->
        exists metric,
          In metric apiData /\ MetricsCard.displayRegionOf metric = r)
  /\ forall metric,
       MetricsCard.displayRegionOf metric
       = if JS.isInherited (MetricsCard.region metric)
         then JS.inheritedText (MetricsCard.region metric)
         else match JS.get (MetricsCard.region metric)
                      MetricsCard.regionToDisplayMap with
              | Some displayRegion => displayRegion
              | None => MetricsCard.region metric
              end.
Proof.
  split; [|split].
  - unfold MetricsCard.aggregate. rewrite map_map.
    erewrite map_ext; [apply (NoDup_fst_map_to_list
                                (MetricsCard.regionGroupsOf apiData))|].
    now intros [r g].
  - intros r. rewrite in_map_iff. split.
    + intros (row & <- & Hrow). apply list_elem_of_In in Hrow.
      destruct (metrics_row_group apiData row Hrow) as [Hne _].
      destruct (metricsOf _ apiData) as [|x group] eqn:E; [contradiction|].
      assert (Hx : x ∈ metricsOf (MetricsCard.DisplayMetrics.region row)
                         apiData) by (rewrite E; left).
      apply list_elem_of_filter in Hx as [Hd Hx].
      exists x. split; [now apply list_elem_of_In | exact Hd].
    + intros (metric & Hin & <-).
      pose proof (regionGroups_lookup apiData
                    (MetricsCard.displayRegionOf metric)) as Hg.
      assert (Hm : metric ∈ metricsOf (MetricsCard.displayRegionOf metric)
                              apiData).
      { apply list_elem_of_filter. split; [reflexivity|].
        now apply list_elem_of_In. }
      destruct (metricsOf (MetricsCard.displayRegionOf metric) apiData)
        as [|x group]; [now apply elem_of_nil in Hm|].
      match type of Hg with
      | _ = Some ?g =>
          exists (MetricsCard.toDisplay
                    (MetricsCard.displayRegionOf metric, g))
      end.
      split; [reflexivity|].
      apply list_elem_of_In, metrics_row_iff.
      eexists. split; [exact Hg | reflexivity].
  - intros metric.
    destruct (JS.isInherited (MetricsCard.region metric)) eqn:E;
      [|now apply metrics_plain_region].
    pose proof (inherited_unmapped _ E) as Hlookup.
    unfold MetricsCard.displayRegionOf, JS.lookup in *.
    rewrite metrics_table_same.
    destruct (JS.get _ DryVsRainyChart.zoneToRegionMap); [discriminate|].
    now rewrite E.
Qed.

(** ** Sampling, in general *)





(** ** Queries *)

(** X8: every view sends [start_date] exactly when the committed start
    date is not empty, and [end_date] exactly when the end date is not
    empty; an empty field is left out of the query, not sent as an empty
    value.  The three weather and peak-load views send the dates as they
    are; the hourly-load view and the three forecasting cards send the start
    of the start day and the end of the end day. *)
Theorem date_entries_when_given (dateRange : DateRange) :
  let start := startDate dateRange in
  let stop := endDate dateRange in
  let plain (r : Request) :=
    JS.get "start_date" (params r) = whenGiven start start
    /\ JS.get "end_date" (params r) = whenGiven stop stop in
  let stamped (r : Request) :=
    JS.get "start_date" (params r)
    = whenGiven start (start +:+ "T00:00:00")
    /\ JS.get "end_date" (params r)
       = whenGiven stop (stop +:+ "T23:59:59") in
  plain (DryVsRainyChart.request dateRange)
  /\ plain (HeatwavesByZoneChart.request dateRange)
  /\ plain (ExtremeHeatLoadTable.request dateRange)
  /\ stamped (LoadByRegionChart.request dateRange)
  /\ stamped (OutlierDetectionCard.request dateRange)
  /\ (forall selectedModel,
        stamped (MetricsCard.request dateRange selectedModel))
  /\ (forall selectedModel,
        stamped (HistoricalForecastCard.request dateRange selectedModel)).
Proof.
  destruct dateRange as [[|a start] [|b stop]]; repeat split.
Qed.

(** X9: besides the dates, the heatwave view always asks for
    [min_temp_f] 100 and [min_days] 3 and the outlier card for
    [std_dev_threshold] 3 and [limit] 1000.  The two forecasting cards send
    the same [model] entry: "xgb" when the selected model is "XGBoost" and
    "statistical" for every other selection. *)
Theorem endpoint_parameters (dateRange : DateRange) :
  (JS.get "min_temp_f" (params (HeatwavesByZoneChart.request dateRange))
   = Some "100"
   /\ JS.get "min_days" (params (HeatwavesByZoneChart.request dateRange))
      = Some "3")
  /\ (JS.get "std_dev_threshold"
        (params (OutlierDetectionCard.request dateRange)) = Some "3"
      /\ JS.get "limit" (params (OutlierDetectionCard.request dateRange))
         = Some "1000")
  /\ forall selectedModel,
       let model := if String.eqb selectedModel "XGBoost" then "xgb"
                    else "statistical" in
       JS.get "model" (params (MetricsCard.request dateRange selectedModel))
       = Some model
       /\ JS.get "model"
            (params (HistoricalForecastCard.request dateRange selectedModel))
          = Some model.
Proof.
  destruct dateRange as [[|a start] [|b stop]]; repeat split;
    unfold MetricsCard.request, HistoricalForecastCard.request,
      MetricsCard.modelParam, HistoricalForecastCard.modelParam; simpl;
    destruct (String.eqb_spec selectedModel "Statistical Model") as [->|_];
    try reflexivity; now destruct (String.eqb selectedModel "XGBoost").
Qed.

(** ** Failed and successful fetches *)

Lemma ok_true {A} (code : nat) (text : string) (body : result A) :
  200 <= code <= 299 -> JS.ok (mkResponse code text body) = true.
Proof.
  intros H. unfold JS.ok. cbn [status].
  apply andb_true_iff. rewrite !Nat.leb_le. lia.
Qed.

(** X10: when the request is rejected (transport failure), or the response
    is a success whose body does not parse, a view shows the message of the
    thrown error, or its fallback text when the thrown value is not an
    [Error]: "An error occurred" in ExtremeHeatLoadTable and "Failed to
    load data" in the other views.  The data is left as it was and the
    loading flag is cleared. *)
Theorem fetch_exception_message (e : thrown) (code : nat) (text : string) :
  200 <= code <= 299 ->
  let failed {D} (fallback : string) (st st' : ViewState D) :=
    error st' = Some (messageOf fallback e)
    /\ data st' = data st /\ loading st' = false in
  (forall st,
      failed "Failed to load data" st
        (DryVsRainyChart.fetchData (Rejected e) st)
      /\ failed "Failed to load data" st
           (DryVsRainyChart.fetchData (responded code text (Throw e)) st))
  /\ (forall st,
        failed "Failed to load data" st
          (HeatwavesByZoneChart.fetchData (Rejected e) st)
        /\ failed "Failed to load data" st
             (HeatwavesByZoneChart.fetchData
                (responded code text (Throw e)) st))
  /\ (forall localeCompare st,
        failed "An error occurred" st
          (ExtremeHeatLoadTable.fetchData localeCompare (Rejected e) st)
        /\ failed "An error occurred" st
             (ExtremeHeatLoadTable.fetchData localeCompare
                (responded code text (Throw e)) st))
  /\ (forall formatHour st,
        failed "Failed to load data" st
          (LoadByRegionChart.fetchData formatHour (Rejected e) st)
        /\ failed "Failed to load data" st
             (LoadByRegionChart.fetchData formatHour
                (responded code text (Throw e)) st))
  /\ (forall st,
        failed "Failed to load data" st
          (MetricsCard.fetchData (Rejected e) st)
        /\ failed "Failed to load data" st
             (MetricsCard.fetchData (responded code text (Throw e)) st))
  /\ (forall formatHour st,
        failed "Failed to load data" st
          (OutlierDetectionCard.fetchData formatHour (Rejected e) st)
        /\ failed "Failed to load data" st
             (OutlierDetectionCard.fetchData formatHour
                (responded code text (Throw e)) st))
  /\ (forall formatHour formatDate st,
        failed "Failed to load data" st
          (HistoricalForecastCard.fetchData formatHour formatDate
             (Rejected e) st)
        /\ failed "Failed to load data" st
             (HistoricalForecastCard.fetchData formatHour formatDate
                (responded code text (Throw e)) st)).
Proof.
  intros Hcode failed. subst failed.
  repeat match goal with |- _ /\ _ => split end; intros;
    unfold_fetch; rewrite ?ok_true by exact Hcode; repeat split.
Qed.

Lemma fetch_exception_example :
  let st := mkViewState [] true None in
  error (DryVsRainyChart.fetchData (Rejected (ErrorObject "Failed to fetch"))
           st)
  = Some "Failed to fetch"
  /\ error (DryVsRainyChart.fetchData
              (responded 200 "OK" (Throw (ErrorObject "Unexpected token")))
              st)
     = Some "Unexpected token".
Proof.
  intros st.
  pose proof (proj1 (fetch_exception_message (ErrorObject "Failed to fetch")
                       200 "OK" ltac:(lia)) st) as H1.
  pose proof (proj1 (fetch_exception_message (ErrorObject "Unexpected token")
                       200 "OK" ltac:(lia)) st) as H2.
  exact (conj (proj1 (proj1 H1)) (proj1 (proj2 H2))).
Defined.

Lemma last_cons_Some {A} (x : A) (l : list A) (d : A) :
  last (x :: l) = Some (List.last (x :: l) d).
Proof.
  revert x. induction l as [|y l IH]; intros x; [reflexivity|].
  change (last (y :: l) = Some (List.last (y :: l) d)). apply IH.
Qed.

(** X11: a response with a success status and a parsed body takes a view
    to the state that holds the new rows, no error and a cleared loading
    flag, whatever the state was before: an error of an earlier fetch is
    cleared and earlier data is replaced.  This holds for every response in
    HeatwavesByZoneChart, LoadByRegionChart, MetricsCard and the two cards
    below, and in DryVsRainyChart and ExtremeHeatLoadTable for a response
    in which no zone is a name inherited from [Object.prototype]; with such
    a zone DryVsRainyChart ends in the error state instead, with its
    earlier data.  The rows of MetricsCard are stated without their order.
    The outlier card keeps its earlier threshold lines, and the comparison
    card its earlier date labels, only when the response is empty. *)
Theorem fetch_success_state (code : nat) (text : string) :
  200 <= code <= 299 ->
  (forall apiData st,
      plainZones DryVsRainyChart.zone apiData ->
      exists rows,
        DryVsRainyChart.aggregate apiData = Ok rows
        /\ DryVsRainyChart.fetchData (responded code text (Ok apiData)) st
           = mkViewState rows false None)
  /\ (forall apiData st,
        (exists item,
            In item apiData
            /\ JS.isInherited (DryVsRainyChart.zone item) = true) ->
        exists message,
          DryVsRainyChart.fetchData (responded code text (Ok apiData)) st
          = mkViewState (data st) false (Some message))
  /\ (forall apiData st,
        exists rows,
          HeatwavesByZoneChart.aggregate apiData = Ok rows
          /\ HeatwavesByZoneChart.fetchData
               (responded code text (Ok apiData)) st
             = mkViewState rows false None)
  /\ (forall localeCompare apiData st,
        plainZones ExtremeHeatLoadTable.zone apiData ->
        exists rows,
          ExtremeHeatLoadTable.aggregate localeCompare apiData = Ok rows
          /\ ExtremeHeatLoadTable.fetchData localeCompare
               (responded code text (Ok apiData)) st
             = mkViewState rows false None)
  /\ (forall formatHour apiData st,
        LoadByRegionChart.fetchData formatHour
          (responded code text (Ok apiData)) st
        = mkViewState (LoadByRegionChart.transform formatHour apiData)
            false None)
  /\ (forall apiData st,
        let st' :=
          MetricsCard.fetchData (responded code text (Ok apiData)) st in
        loading st' = false
        /\ error st' = None
        /\ forall row, row ∈ data st' <-> row ∈ MetricsCard.aggregate apiData)
  /\ (forall formatHour apiData st,
        OutlierDetectionCard.fetchData formatHour
          (responded code text
             (Ok (OutlierDetectionCard.mkOutlierResult apiData))) st
        = mkViewState
            {| OutlierDetectionCard.scatter :=
                 OutlierDetectionCard.scatterData formatHour apiData;
               OutlierDetectionCard.thresholds :=
                 match apiData with
                 | first :: _ =>
                     {| OutlierDetectionCard.upper :=
                          3 * OutlierDetectionCard.std_dev first;
                        OutlierDetectionCard.lower :=
                          - (3) * OutlierDetectionCard.std_dev first |}
                 | [] => OutlierDetectionCard.thresholds (data st)
                 end |}
            false None)
  /\ (forall formatHour formatDate apiData st,
        HistoricalForecastCard.fetchData formatHour formatDate
          (responded code text (Ok apiData)) st
        = mkViewState
            {| HistoricalForecastCard.series :=
                 HistoricalForecastCard.transform formatHour apiData;
               HistoricalForecastCard.dateLabels :=
                 match apiData with
                 | first :: _ =>
                     {| HistoricalForecastCard.start :=
                          formatDate
                            (HistoricalForecastCard.hour_end first);
                        HistoricalForecastCard.end_ :=
                          formatDate
                            (HistoricalForecastCard.hour_end
                               (List.last apiData first)) |}
                 | [] => HistoricalForecastCard.dateLabels (data st)
                 end |}
            false None).
Proof.
  intros Hcode.
  repeat match goal with |- _ /\ _ => split end; intros.
  - destruct (dry_vs_rainy_accumulated apiData H) as (s & Hs & _).
    assert (Hagg : DryVsRainyChart.aggregate apiData
                   = Ok (map DryVsRainyChart.toPoint s))
      by (unfold DryVsRainyChart.aggregate; now rewrite Hs).
    eexists. split; [exact Hagg|].
    unfold_fetch. rewrite ok_true by exact Hcode.
    cbn [negb json mbind result_bind JS.bind]. now rewrite Hagg.
  - destruct (dry_vs_rainy_throws apiData DryVsRainyChart.regionData0
                eq_refl H) as (message & Hthrow).
    exists message.
    unfold_fetch. rewrite ok_true by exact Hcode.
    cbn [negb json mbind result_bind JS.bind].
    unfold DryVsRainyChart.aggregate. now rewrite Hthrow.
  - destruct (heatwaves_inherited_entries apiData) as (s & Hs & _).
    assert (Hagg : HeatwavesByZoneChart.aggregate apiData
                   = Ok (map HeatwavesByZoneChart.toPoint s))
      by (unfold HeatwavesByZoneChart.aggregate; now rewrite Hs).
    eexists. split; [exact Hagg|].
    unfold_fetch. rewrite ok_true by exact Hcode.
    cbn [negb json mbind result_bind JS.bind]. now rewrite Hagg.
  - destruct (extreme_heat_rows localeCompare apiData H) as (s & Hagg & _).
    eexists. split; [exact Hagg|].
    unfold_fetch. rewrite ok_true by exact Hcode.
    cbn [negb json mbind result_bind JS.bind]. now rewrite Hagg.
  - unfold_fetch. rewrite ok_true by exact Hcode. reflexivity.
  - subst st'. unfold_fetch. rewrite ok_true by exact Hcode.
    repeat split; auto.
  - unfold_fetch. rewrite ok_true by exact Hcode.
    destruct apiData; reflexivity.
  - unfold_fetch. rewrite ok_true by exact Hcode.
    unfold catchFinally, setData, setLoading, setError. simpl. f_equal.
    f_equal. unfold HistoricalForecastCard.labelsOf.
    destruct apiData as [|first rest]; [reflexivity|].
    cbn [head]. 
    now rewrite (last_cons_Some first rest first).
Qed.

Lemma fetch_success_example :
  let st := mkViewState [] false (Some "API error: 500") in
  plainZones DryVsRainyChart.zone []
  /\ exists rows,
       DryVsRainyChart.aggregate [] = Ok rows
       /\ DryVsRainyChart.fetchData (responded 200 "OK" (Ok [])) st
          = mkViewState rows false None.
Proof.
  intros st.
  assert (Hplain : plainZones DryVsRainyChart.zone []) by constructor.
  split; [exact Hplain|].
  exact (proj1 (fetch_success_state 200 "OK" ltac:(lia)) [] st Hplain).
Defined.

(** ** What the summary charts show *)

Lemma filter_one_of_four {A} (key : A -> string) (rows : list A) (r : string) :
  map key rows = displayRegions ->
  In r displayRegions ->
  exists row,
    In row rows /\ key row = r
    /\ List.filter (fun d => String.eqb (key d) r) rows = [row].
Proof.
  intros Hkeys Hr.
  destruct rows as [|a [|b [|c [|d [|? ?]]]]]; try discriminate Hkeys.
  injection Hkeys as Ha Hb Hc Hd. simpl in Hr.
  destruct Hr as [<-|[<-|[<-|[<-|[]]]]];
    [exists a | exists b | exists c | exists d];
    (split; [simpl; tauto|]); (split; [assumption|]);
    simpl; rewrite Ha, Hb, Hc, Hd; reflexivity.
Qed.

(** X12: after a successful fetch of a response in which no zone is a
    name inherited from [Object.prototype], DryVsRainyChart and
    HeatwavesByZoneChart do not show their "no data" text, not even for an
    empty response: with the selection "all" they draw the four bars North,
    South, West, Houston, and with a display region selected they draw
    exactly one bar, the one of that region. *)
Theorem summary_charts_after_success (code : nat) (text : string) :
  200 <= code <= 299 ->
  (forall apiData st,
      plainZones DryVsRainyChart.zone apiData ->
      let st' :=
        DryVsRainyChart.fetchData (responded code text (Ok apiData)) st in
      exists rows,
        map DryVsRainyChart.region rows = displayRegions
        /\ DryVsRainyChart.render "all" st' = DryVsRainyChart.BarChart rows
        /\ forall r,
             In r displayRegions ->
             exists row,
               In row rows /\ DryVsRainyChart.region row = r
               /\ DryVsRainyChart.render r st'
                  = DryVsRainyChart.BarChart [row])
  /\ (forall apiData st,
        plainZones HeatwavesByZoneChart.zone apiData ->
        let st' :=
          HeatwavesByZoneChart.fetchData
            (responded code text (Ok apiData)) st in
        exists rows,
          map HeatwavesByZoneChart.ChartDataPoint.zone rows = displayRegions
          /\ HeatwavesByZoneChart.render "all" st'
             = HeatwavesByZoneChart.BarChart rows
          /\ forall r,
               In r displayRegions ->
               exists row,
                 In row rows
                 /\ HeatwavesByZoneChart.ChartDataPoint.zone row = r
                 /\ HeatwavesByZoneChart.render r st'
                    = HeatwavesByZoneChart.BarChart [row]).
Proof.
  intros Hcode. split; intros apiData st Hplain st'.
  - destruct (dry_vs_rainy_accumulated apiData Hplain)
      as (s & Hs & Hkeys & _).
    assert (Hagg : DryVsRainyChart.aggregate apiData
                   = Ok (map DryVsRainyChart.toPoint s))
      by (unfold DryVsRainyChart.aggregate; now rewrite Hs).
    assert (Hst : st' = mkViewState (map DryVsRainyChart.toPoint s)
                          false None).
    { subst st'. unfold_fetch. rewrite ok_true by exact Hcode.
      cbn [negb json mbind result_bind JS.bind]. now rewrite Hagg. }
    assert (Hregions : map DryVsRainyChart.region
                         (map DryVsRainyChart.toPoint s) = displayRegions).
    { rewrite <- Hkeys, map_map. apply map_ext. now intros [r v]. }
    exists (map DryVsRainyChart.toPoint s). rewrite Hst.
    split; [exact Hregions|].
    destruct (map DryVsRainyChart.toPoint s) as [|p rows] eqn:E;
      [discriminate Hregions|].
    split; [reflexivity|]. intros r Hr.
    destruct (filter_one_of_four DryVsRainyChart.region (p :: rows) r
                Hregions Hr) as (row & Hin & Hrow & Hfilter).
    exists row. split; [exact Hin|]. split; [exact Hrow|].
    unfold DryVsRainyChart.render. cbn [loading error data shownError].
    rewrite Hfilter.
    assert (Hall : String.eqb r "all" = false).
    { simpl in Hr. destruct Hr as [<-|[<-|[<-|[<-|[]]]]]; reflexivity. }
    now rewrite Hall.
  - destruct (heatwaves_tallied apiData Hplain) as (s & Hs & Hkeys & _).
    assert (Hagg : HeatwavesByZoneChart.aggregate apiData
                   = Ok (map HeatwavesByZoneChart.toPoint s))
      by (unfold HeatwavesByZoneChart.aggregate; now rewrite Hs).
    assert (Hst : st' = mkViewState (map HeatwavesByZoneChart.toPoint s)
                          false None).
    { subst st'. unfold_fetch. rewrite ok_true by exact Hcode.
      cbn [negb json mbind result_bind JS.bind]. now rewrite Hagg. }
    assert (Hregions : map HeatwavesByZoneChart.ChartDataPoint.zone
                         (map HeatwavesByZoneChart.toPoint s)
                       = displayRegions).
    { rewrite <- Hkeys, map_map. apply map_ext. now intros [r v]. }
    exists (map HeatwavesByZoneChart.toPoint s). rewrite Hst.
    split; [exact Hregions|].
    destruct (map HeatwavesByZoneChart.toPoint s) as [|p rows] eqn:E;
      [discriminate Hregions|].
    split; [reflexivity|]. intros r Hr.
    destruct (filter_one_of_four HeatwavesByZoneChart.ChartDataPoint.zone
                (p :: rows) r Hregions Hr) as (row & Hin & Hrow & Hfilter).
    exists row. split; [exact Hin|]. split; [exact Hrow|].
    unfold HeatwavesByZoneChart.render. cbn [loading error data shownError].
    rewrite Hfilter.
    assert (Hall : String.eqb r "all" = false).
    { simpl in Hr. destruct Hr as [<-|[<-|[<-|[<-|[]]]]]; reflexivity. }
    now rewrite Hall.
Qed.

Lemma summary_charts_example :
  let st' :=
    DryVsRainyChart.fetchData (responded 200 "OK" (Ok []))
      (mkViewState [] true None) in
  exists rows,
    map DryVsRainyChart.region rows = displayRegions
    /\ DryVsRainyChart.render "all" st' = DryVsRainyChart.BarChart rows
    /\ forall r,
         In r displayRegions ->
         exists row,
           In row rows /\ DryVsRainyChart.region row = r
           /\ DryVsRainyChart.render r st' = DryVsRainyChart.BarChart [row].
Proof.
  exact (proj1 (summary_charts_after_success 200 "OK" ltac:(lia))
           [] (mkViewState [] true None) ltac:(constructor)).
Defined.

(** ** What the hourly-load chart shows *)

Lemma sampleData_length_min {T} (data : list T) (maxPoints : nat) :
  length (LoadByRegionChart.sampleData data maxPoints)
  = Nat.min (length data) maxPoints.
Proof.
  unfold LoadByRegionChart.sampleData.
  destruct (Nat.leb_spec (length data) maxPoints) as [Hle|Hgt].
  - rewrite length_map. lia.
  - rewrite length_map, length_seq. lia.
Qed.

(** Every sampled element is an element of the input, never [undefined]. *)
Lemma sampleData_elements {T} (data : list T) (maxPoints : nat) :
  Forall (fun o => exists x, o = Some x /\ In x data)
    (LoadByRegionChart.sampleData data maxPoints).
Proof.
  unfold LoadByRegionChart.sampleData.
  destruct (Nat.leb_spec (length data) maxPoints) as [Hle|Hgt].
  - apply Forall_forall. intros o Ho.
    apply list_elem_of_fmap in Ho as (x & -> & Hx).
    exists x. split; [reflexivity | now apply list_elem_of_In].
  - apply Forall_forall. intros o Ho.
    apply list_elem_of_fmap in Ho as (i & -> & Hi).
    apply list_elem_of_In, in_seq in Hi.
    unfold JS.len. rewrite sample_index by lia.
    destruct (lookup_lt_is_Some_2 data (i * length data / maxPoints))
      as [x Hx].
    { apply (quotient_lt i (length data) maxPoints); lia. }
    exists x. split; [exact Hx|].
    apply list_elem_of_In. eapply list_elem_of_lookup_2; eauto.
Qed.

(** X13: after a successful fetch the hourly-load chart shows "No data
    available" exactly when the response is empty.  Otherwise it draws as
    many points as the response has records, but at most 100, each of them
    a point of the response; with the selection "all" it draws the four
    lines North, South, West, Houston and with a display region selected
    only that region's line. *)
Theorem hourly_chart_after_success (code : nat) (text : string) :
  200 <= code <= 299 ->
  forall formatHour apiData st selectedRegion,
    let st' :=
      LoadByRegionChart.fetchData formatHour
        (responded code text (Ok apiData)) st in
    (apiData = [] ->
     LoadByRegionChart.render selectedRegion st' = LoadByRegionChart.NoData)
    /\ (apiData <> [] ->
        exists points lines,
          LoadByRegionChart.render selectedRegion st'
          = LoadByRegionChart.LineChart points lines
          /\ length points = Nat.min (length apiData) 100
          /\ Forall (fun point =>
                       exists item,
                         In item apiData
                         /\ point
                            = Some (LoadByRegionChart.toPoint formatHour item))
               points
          /\ (selectedRegion = "all" -> map fst lines = displayRegions)
          /\ (In selectedRegion displayRegions ->
              map fst lines = [selectedRegion])).
Proof.
  intros Hcode formatHour apiData st selectedRegion st'.
  assert (Hst : st' = mkViewState
                        (LoadByRegionChart.transform formatHour apiData)
                        false None).
  { subst st'. unfold_fetch. now rewrite ok_true by exact Hcode. }
  rewrite Hst. split.
  - intros ->. reflexivity.
  - intros Hne.
    pose proof (sampleData_length_min
                  (map (LoadByRegionChart.toPoint formatHour) apiData)
                  LoadByRegionChart.MAX_CHART_POINTS) as Hlen.
    rewrite length_map in Hlen.
    pose proof (sampleData_elements
                  (map (LoadByRegionChart.toPoint formatHour) apiData)
                  LoadByRegionChart.MAX_CHART_POINTS) as Hdef.
    unfold LoadByRegionChart.render, LoadByRegionChart.transform.
    cbn [loading error data shownError].
    destruct (LoadByRegionChart.sampleData _ _) as [|p points] eqn:E.
    { destruct apiData; [contradiction | discriminate Hlen]. }
    do 2 eexists. split; [reflexivity|]. split; [exact Hlen|].
    split; [|split].
    + eapply Forall_impl; [exact Hdef|].
      intros o (x & -> & Hx). apply in_map_iff in Hx as (item & <- & Hin).
      now exists item.
    + intros ->. reflexivity.
    + intros Hr. simpl in Hr.
      destruct Hr as [<-|[<-|[<-|[<-|[]]]]]; reflexivity.
Qed.

Lemma hourly_chart_example :
  let item := LoadByRegionChart.mkHourlyLoadData
                "2010-06-01T01:00:00" 10 20 30 40 50 60 70 80 in
  let st' :=
    LoadByRegionChart.fetchData (fun s => s)
      (responded 200 "OK" (Ok [item])) (mkViewState [] true None) in
  LoadByRegionChart.render "West" st'
  = LoadByRegionChart.LineChart
      [Some (LoadByRegionChart.toPoint (fun s => s) item)]
      [("West", "#8884d8")]
  /\ exists points lines,
       LoadByRegionChart.render "West" st'
       = LoadByRegionChart.LineChart points lines
       /\ length points = Nat.min (length [item]) 100
       /\ Forall (fun point =>
                    exists x,
                      In x [item]
                      /\ point
                         = Some (LoadByRegionChart.toPoint (fun s => s) x))
            points
       /\ ("West" = "all" -> map fst lines = displayRegions)
       /\ (In "West" displayRegions -> map fst lines = ["West"]).
Proof.
  intros item st'. split; [reflexivity|].
  apply (proj2 (hourly_chart_after_success 200 "OK" ltac:(lia)
                  (fun s => s) [item] (mkViewState [] true None) "West")).
  discriminate.
Defined.

(** ** The series of the comparison card *)

(** A loop that pushes a value for the records that pass a test builds the
    list of the values of these records, in their order. *)
Lemma foldl_push_filter {S A B} (step : S -> A -> S) (proj : S -> list B)
    (test : A -> bool) (value : A -> B) :
  (forall s x,
      proj (step s x) = if test x then proj s ++ [value x] else proj s) ->
  forall l s,
    proj (foldl step s l) = proj s ++ map value (List.filter test l).
Proof.
  intros Hstep l. induction l as [|x l IH]; intros s; simpl.
  - now rewrite app_nil_r.
  - rewrite IH, Hstep. destruct (test x); [|reflexivity].
    simpl. now rewrite <- app_assoc.
Qed.

(** X14: each series of the comparison card holds one point per record
    that has all the readings the series needs, in the order of the
    records: the ERCOT total for "All", and the sum of the two zones of the
    region for North, South, West and Houston (a reading of 0 counts as 0).
    A record that lacks a reading is left out of that series only. *)
Theorem comparison_series formatHour
    (apiData : list HistoricalForecastCard.LoadComparison) :
  let series := HistoricalForecastCard.transform formatHour apiData in
  let pair (a_actual a_expected b_actual b_expected :
              HistoricalForecastCard.LoadComparison -> option Q) :=
    map (fun item =>
           comparisonPoint formatHour item
             (orZeroOpt (a_actual item) + orZeroOpt (b_actual item))
             (orZeroOpt (a_expected item) + orZeroOpt (b_expected item)))
      (List.filter
         (fun item =>
            bothZones (a_actual item) (a_expected item)
              (b_actual item) (b_expected item)) apiData) in
  HistoricalForecastCard.All series
  = map (fun item =>
           comparisonPoint formatHour item
             (orZeroOpt (HistoricalForecastCard.ercot_actual item))
             (orZeroOpt (HistoricalForecastCard.ercot_expected item)))
      (List.filter
         (fun item =>
            defined (HistoricalForecastCard.ercot_actual item)
            && defined (HistoricalForecastCard.ercot_expected item))
         apiData)
  /\ HistoricalForecastCard.North series
     = pair HistoricalForecastCard.north_actual
         HistoricalForecastCard.north_expected
         HistoricalForecastCard.north_c_actual
         HistoricalForecastCard.north_c_expected
  /\ HistoricalForecastCard.South series
     = pair HistoricalForecastCard.southern_actual
         HistoricalForecastCard.southern_expected
         HistoricalForecastCard.south_c_actual
         HistoricalForecastCard.south_c_expected
  /\ HistoricalForecastCard.West series
     = pair HistoricalForecastCard.west_actual
         HistoricalForecastCard.west_expected
         HistoricalForecastCard.far_west_actual
         HistoricalForecastCard.far_west_expected
  /\ HistoricalForecastCard.Houston series
     = pair HistoricalForecastCard.coast_actual
         HistoricalForecastCard.coast_expected
         HistoricalForecastCard.east_actual
         HistoricalForecastCard.east_expected.
Proof.
  intros series pair. subst series pair.
  unfold HistoricalForecastCard.transform.
  repeat split;
    match goal with
    | |- ?proj (foldl ?step ?s apiData) = map ?value (List.filter ?test _) =>
        apply (foldl_push_filter step proj test value)
    end;
    intros s x; unfold HistoricalForecastCard.pushItem,
      HistoricalForecastCard.pairPoint, bothZones; simpl;
    match goal with
    | |- context [if ?c then _ else _] => destruct c
    end; reflexivity.
Qed.

(** ** The date filter *)

(** X15: typing in the two date inputs never changes the committed range,
    however many edits are made; only Update does.  After any history,
    typing a start date and an end date, in either order, and pressing
    Update commits exactly these two dates; pressing Update again changes
    nothing. *)
Theorem date_filter_edits_and_update :
  (forall events s,
      forallb DateRangeFilter.isEdit events = true ->
      DateFilterContext.dateRange (foldl DateRangeFilter.handle s events)
      = DateFilterContext.dateRange s)
  /\ (forall events s a b,
        let typed order :=
          foldl DateRangeFilter.handle s
            (events ++ order ++ [DateRangeFilter.ClickUpdate]) in
        DateFilterContext.dateRange
          (typed [DateRangeFilter.TypeStart a; DateRangeFilter.TypeEnd b])
        = mkDateRange a b
        /\ DateFilterContext.dateRange
             (typed [DateRangeFilter.TypeEnd b; DateRangeFilter.TypeStart a])
           = mkDateRange a b)
  /\ (forall s, applyDateRange (applyDateRange s) = applyDateRange s).
Proof.
  split; [|split].
  - intros events. induction events as [|e events IH]; intros s Hedits;
      [reflexivity|].
    simpl in Hedits. apply andb_true_iff in Hedits as [He Hedits].
    simpl. rewrite IH by exact Hedits.
    destruct e; [reflexivity | reflexivity | discriminate He].
  - intros events s a b typed. subst typed.
    split; rewrite foldl_app; reflexivity.
  - reflexivity.
Qed.

Lemma date_filter_example :
  forallb DateRangeFilter.isEdit
    [ DateRangeFilter.TypeStart "2010-07-01";
      DateRangeFilter.TypeEnd "2010-07-31";
      DateRangeFilter.TypeStart "2010-07-15" ] = true
  /\ DateFilterContext.dateRange
       (foldl DateRangeFilter.handle DateFilterProvider
          [ DateRangeFilter.TypeStart "2010-07-01";
            DateRangeFilter.TypeEnd "2010-07-31";
            DateRangeFilter.TypeStart "2010-07-15" ])
     = DateFilterContext.dateRange DateFilterProvider.
Proof.
  split; [reflexivity|].
  exact (proj1 date_filter_edits_and_update
           [ DateRangeFilter.TypeStart "2010-07-01";
             DateRangeFilter.TypeEnd "2010-07-31";
             DateRangeFilter.TypeStart "2010-07-15" ]
           DateFilterProvider eq_refl).
Defined.

(** ** The outlier card *)

Lemma gtb_lt (a b : Q) : gtb a b = true <-> (b < a)%Q.
Proof.
  unfold gtb. rewrite Qlt_alt, <- (Qcompare_antisym a b).
  destruct (a ?= b)%Q; simpl; split; congruence.
Qed.

(** X16: the threshold lines of the outlier card are symmetric about zero:
    they are when the card is created, and every fetch, whatever its
    outcome, leaves them symmetric.  With symmetric lines a point is listed
    as an outlier exactly when the absolute value of its residual exceeds
    the upper line. *)
Theorem outlier_band_symmetric :
  symmetric (OutlierDetectionCard.thresholds
               (data OutlierDetectionCard.initial))
  /\ (forall formatHour outcome st,
        symmetric (OutlierDetectionCard.thresholds (data st)) ->
        symmetric
          (OutlierDetectionCard.thresholds
             (data (OutlierDetectionCard.fetchData formatHour outcome st))))
  /\ (forall t residual,
        symmetric t ->
        (OutlierDetectionCard.isOutlier t residual = true <->
         (OutlierDetectionCard.upper t < Qabs residual)%Q)).
Proof.
  split; [reflexivity|]. split.
  - intros formatHour outcome st Hsym. unfold_fetch.
    destruct outcome as [e|r]; [exact Hsym|].
    cbn [JS.await mbind result_bind JS.bind].
    destruct (JS.ok r); [|exact Hsym]. cbn [negb].
    destruct (json r) as [[apiData]|e]; [|exact Hsym].
    destruct apiData as [|first rest]; [exact Hsym|].
    unfold symmetric. simpl. unfold OutlierDetectionCard.STD_DEV_THRESHOLD.
    ring.
  - intros t residual Hsym. unfold symmetric in Hsym.
    unfold OutlierDetectionCard.isOutlier.
    rewrite orb_true_iff, !gtb_lt, Hsym.
    destruct (Qlt_le_dec residual 0) as [Hneg|Hpos].
    + rewrite (Qabs_neg residual) by lra. split; intros; lra.
    + rewrite (Qabs_pos residual) by lra. split; intros; lra.
Qed.

Lemma outlier_band_example :
  let t := OutlierDetectionCard.mkThresholds 30 (-30) in
  symmetric t
  /\ (OutlierDetectionCard.isOutlier t (-45) = true <->
      (OutlierDetectionCard.upper t < Qabs (-45))%Q).
Proof.
  intros t.
  assert (Hsym : symmetric t) by reflexivity.
  split; [exact Hsym|].
  exact (proj2 (proj2 outlier_band_symmetric) t (-45)%Q Hsym).
Defined.

(** X17: the outlier list shows the first 20 outliers, or all of them when
    there are at most 20; "+N more" is shown exactly when there are more
    than 20, and N is the number of outliers that are not listed. *)
Theorem outlier_list_accounting
    (found : list OutlierDetectionCard.ScatterDataPoint.t) :
  length (OutlierDetectionCard.listed found) = Nat.min 20 (length found)
  /\ match OutlierDetectionCard.more found with
     | Some n =>
         20 < length found
         /\ found = OutlierDetectionCard.listed found ++ skipn 20 found
         /\ n = length (skipn 20 found)
     | None => OutlierDetectionCard.listed found = found
     end.
Proof.
  unfold OutlierDetectionCard.listed, OutlierDetectionCard.more.
  split; [apply length_firstn|].
  destruct (Nat.ltb_spec 20 (length found)) as [Hlt|Hge].
  - split; [exact Hlt|]. split; [now rewrite firstn_skipn|].
    now rewrite length_skipn.
  - apply firstn_all2. exact Hge.
Qed.

(** ** The region select of MetricsCard *)

Lemma metrics_region_present (apiData : list MetricsCard.ForecastMetrics)
    (r : string) :
  (exists row,
      In row (MetricsCard.aggregate apiData)
      /\ MetricsCard.DisplayMetrics.region row = r)
  <-> metricsOf r apiData <> [].
Proof.
  split.
  - intros (row & Hrow & <-). apply list_elem_of_In in Hrow.
    now destruct (metrics_row_group apiData row Hrow).
  - intros Hne.
    pose proof (regionGroups_lookup apiData r) as Hg.
    destruct (metricsOf r apiData) as [|x group]; [contradiction|].
    match type of Hg with
    | _ = Some ?g => exists (MetricsCard.toDisplay (r, g))
    end.
    split; [|reflexivity].
    apply list_elem_of_In, metrics_row_iff.
    eexists. split; [exact Hg | reflexivity].
Qed.

Lemma filter_key_at_most_one {A} (key : A -> string) (l : list A)
    (r : string) :
  NoDup (map key l) ->
  length (List.filter (fun x => String.eqb (key x) r) l) <= 1.
Proof.
  induction l as [|x l IH]; simpl; [lia|].
  intros Hnd. apply NoDup_cons in Hnd as [Hx Hnd].
  destruct (String.eqb_spec (key x) r) as [<-|Hne]; [|auto].
  assert (Hnone : List.filter (fun y => String.eqb (key y) (key x)) l = []).
  { destruct (List.filter _ l) as [|y rest] eqn:E; [reflexivity|].
    assert (Hy : In y (List.filter
                         (fun y => String.eqb (key y) (key x)) l))
      by (rewrite E; now left).
    apply filter_In in Hy as [Hy Hk]. apply String.eqb_eq in Hk.
    exfalso. apply Hx. rewrite <- Hk.
    apply list_elem_of_In. now apply in_map. }
  rewrite Hnone. simpl. lia.
Qed.

Lemma filter_nil_iff {A} (test : A -> bool) (l : list A) :
  List.filter test l = [] <-> forall x, In x l -> test x = false.
Proof.
  induction l as [|x l IH]; simpl; [tauto|].
  destruct (test x) eqn:E.
  - split; [discriminate|]. intros H. specialize (H x (or_introl eq_refl)).
    congruence.
  - rewrite IH. split; [intros H y [<-|Hy]; auto | auto].
Qed.

(** X18: with a region other than "All" chosen in its select, MetricsCard
    shows at most one row, the row of that region, and shows "No metrics
    available" exactly when no record of the response falls into that
    region, even when the response has records of other regions. *)
Theorem metrics_region_select (apiData : list MetricsCard.ForecastMetrics)
    (metricsRegion : string) :
  metricsRegion <> "All" ->
  let shown :=
    MetricsCard.metricsDataOf metricsRegion (MetricsCard.aggregate apiData) in
  let st := mkViewState (MetricsCard.aggregate apiData) false None in
  length shown <= 1
  /\ Forall (fun row => MetricsCard.DisplayMetrics.region row = metricsRegion)
       shown
  /\ (MetricsCard.render metricsRegion st = MetricsCard.NoMetrics <->
      metricsOf metricsRegion apiData = [])
  /\ (metricsOf metricsRegion apiData <> [] ->
      MetricsCard.render metricsRegion st = MetricsCard.Table shown).
Proof.
  intros Hsel shown st.
  assert (Hshown : shown
                   = List.filter
                       (fun m =>
                          String.eqb (MetricsCard.DisplayMetrics.region m)
                            metricsRegion)
                       (MetricsCard.aggregate apiData)).
  { subst shown. unfold MetricsCard.metricsDataOf.
    now destruct (String.eqb_spec metricsRegion "All"). }
  assert (Hempty : shown = [] <-> metricsOf metricsRegion apiData = []).
  { rewrite Hshown, filter_nil_iff. split.
    - intros Hnone.
      destruct (metricsOf metricsRegion apiData) as [|x group] eqn:E;
        [reflexivity|].
      destruct (proj2 (metrics_region_present apiData metricsRegion))
        as (row & Hrow & Hr); [now rewrite E|].
      specialize (Hnone row Hrow). rewrite Hr, String.eqb_refl in Hnone.
      discriminate.
    - intros Hnil row Hrow. apply String.eqb_neq. intros Hr.
      apply (proj1 (metrics_region_present apiData metricsRegion));
        [now exists row | exact Hnil]. }
  split; [|split; [|split]].
  - rewrite Hshown. apply filter_key_at_most_one.
    unfold MetricsCard.aggregate. rewrite map_map.
    erewrite map_ext; [apply (NoDup_fst_map_to_list
                                (MetricsCard.regionGroupsOf apiData))|].
    now intros [r g].
  - rewrite Hshown. apply Forall_forall. intros row Hrow.
    apply list_elem_of_In, filter_In in Hrow as [_ Hr].
    now apply String.eqb_eq.
  - rewrite <- Hempty. subst st. unfold MetricsCard.render.
    cbn [loading error data shownError]. fold shown.
    clearbody shown.
    destruct shown; split; intros H; try reflexivity; discriminate H.
  - intros Hne. subst st. unfold MetricsCard.render.
    cbn [loading error data shownError]. fold shown.
    clearbody shown.
    destruct shown as [|row rest]; [|reflexivity].
    now destruct Hne; apply Hempty.
Qed.

Lemma metrics_region_select_example :
  let apiData :=
    [ MetricsCard.mkForecastMetrics "north" 10 400 20 10 (1 # 2);
      MetricsCard.mkForecastMetrics "north_c" 30 900 30 30 (1 # 4) ] in
  "West" <> "All"
  /\ MetricsCard.render "West"
       (mkViewState (MetricsCard.aggregate apiData) false None)
     = MetricsCard.NoMetrics.
Proof.
  intros apiData.
  assert (Hsel : "West" <> "All") by discriminate.
  split; [exact Hsel|].
  apply (proj1 (proj2 (proj2 (metrics_region_select apiData "West" Hsel)))).
  reflexivity.
Defined.

(** ** What the extreme-heat table shows *)

Lemma heatRecords_all_nil
    (apiData : list ExtremeHeatLoadTable.ExtremeHeatData) :
  (forall r, heatRecords r apiData = []) <->
  (forall item,
      In item apiData ->
      JS.get (ExtremeHeatLoadTable.zone item)
        ExtremeHeatLoadTable.zoneToRegionMap = None).
Proof.
  split.
  - intros Hnil item Hin.
    destruct (JS.get (ExtremeHeatLoadTable.zone item)
                ExtremeHeatLoadTable.zoneToRegionMap) as [r|] eqn:Hz;
      [|reflexivity].
    assert (Hitem : item ∈ heatRecords r apiData).
    { apply list_elem_of_filter. split; [exact Hz|].
      now apply list_elem_of_In. }
    rewrite Hnil in Hitem. now apply elem_of_nil in Hitem.
  - intros Hnone r.
    destruct (heatRecords r apiData) as [|x items] eqn:E; [reflexivity|].
    assert (Hx : x ∈ heatRecords r apiData) by (rewrite E; left).
    apply list_elem_of_filter in Hx as [Hz Hx].
    apply list_elem_of_In in Hx. rewrite (Hnone x Hx) in Hz. discriminate.
Qed.

(** X19: after a successful fetch of a response in which no zone is a name
    inherited from [Object.prototype], ExtremeHeatLoadTable shows "No data
    available" exactly when no record of the response has a mapped zone, in
    particular for an empty response; otherwise it shows the table of the
    aggregated rows. *)
Theorem extreme_heat_table_after_success (code : nat) (text : string) :
  200 <= code <= 299 ->
  forall localeCompare apiData st,
    plainZones ExtremeHeatLoadTable.zone apiData ->
    let st' :=
      ExtremeHeatLoadTable.fetchData localeCompare
        (responded code text (Ok apiData)) st in
    (ExtremeHeatLoadTable.render st' = ExtremeHeatLoadTable.NoData <->
     forall item,
       In item apiData ->
       JS.get (ExtremeHeatLoadTable.zone item)
         ExtremeHeatLoadTable.zoneToRegionMap = None)
    /\ exists rows,
         ExtremeHeatLoadTable.aggregate localeCompare apiData = Ok rows
         /\ (rows <> [] ->
             ExtremeHeatLoadTable.render st'
             = ExtremeHeatLoadTable.Table rows).
Proof.
  intros Hcode localeCompare apiData st Hplain st'.
  destruct (extreme_heat_rows localeCompare apiData Hplain)
    as (s & Hagg & Hnd & Hin).
  assert (Hst : st' = mkViewState
                        (JS.sort (ExtremeHeatLoadTable.byRegion localeCompare)
                           (map ExtremeHeatLoadTable.toRow s))
                        false None).
  { subst st'. unfold_fetch. rewrite ok_true by exact Hcode.
    cbn [negb json mbind result_bind JS.bind]. now rewrite Hagg. }
  assert (Hrows : JS.sort (ExtremeHeatLoadTable.byRegion localeCompare)
                    (map ExtremeHeatLoadTable.toRow s) = [] <-> s = []).
  { split.
    - intros E.
      pose proof (sort_Permutation
                    (ExtremeHeatLoadTable.byRegion localeCompare)
                    (map ExtremeHeatLoadTable.toRow s)) as Hperm.
      rewrite E in Hperm. apply Permutation_nil in Hperm.
      now destruct s.
    - now intros ->. }
  assert (Hs : s = [] <-> forall r, heatRecords r apiData = []).
  { split.
    - intros -> r.
      destruct (heatRecords r apiData) as [|x items] eqn:E; [reflexivity|].
      destruct (proj2 (Hin r (collectedOf (heatRecords r apiData)))).
      split; [now rewrite E | reflexivity].
    - intros Hnil. destruct s as [|[r c] s]; [reflexivity|].
      destruct (proj1 (Hin r c) (or_introl eq_refl)) as [Hne _].
      now destruct Hne. }
  rewrite Hst. split.
  - rewrite <- heatRecords_all_nil, <- Hs, <- Hrows.
    unfold ExtremeHeatLoadTable.render. cbn [loading error data shownError].
    destruct (JS.sort _ _); split; intros H; try reflexivity; discriminate H.
  - eexists. split; [exact Hagg|]. intros Hne.
    unfold ExtremeHeatLoadTable.render. cbn [loading error data shownError].
    destruct (JS.sort _ _); [now destruct Hne | reflexivity].
Qed.

Lemma extreme_heat_table_example :
  let st' :=
    ExtremeHeatLoadTable.fetchData String.compare
      (responded 200 "OK"
         (Ok [ExtremeHeatLoadTable.mkExtremeHeatData "panhandle" 1 2 3 4]))
      (mkViewState [] true None) in
  ExtremeHeatLoadTable.render st' = ExtremeHeatLoadTable.NoData.
Proof.
  intros st'.
  apply (proj1 (extreme_heat_table_after_success 200 "OK" ltac:(lia)
                  String.compare
                  [ExtremeHeatLoadTable.mkExtremeHeatData "panhandle" 1 2 3 4]
                  (mkViewState [] true None) ltac:(repeat constructor))).
  intros item [<-|[]]. reflexivity.
Defined.

(** ** What a view shows after a failed response *)

(** X20: after a response whose status is outside 200-299 a view shows
    its error text in place of the chart or table, whatever data an earlier
    fetch left in its state and whatever is selected: "API error: " and the
    status code in the charts and in MetricsCard, and "Error: Failed to
    fetch data: " and the status text in ExtremeHeatLoadTable. *)
Theorem error_text_after_failed_response (code : nat) (text : string) :
  code < 200 \/ 299 < code ->
  (forall body st selectedRegion,
      DryVsRainyChart.render selectedRegion
        (DryVsRainyChart.fetchData (responded code text body) st)
      = DryVsRainyChart.ErrorText ("API error: " +:+ showNat code))
  /\ (forall body st selectedZone,
        HeatwavesByZoneChart.render selectedZone
          (HeatwavesByZoneChart.fetchData (responded code text body) st)
        = HeatwavesByZoneChart.ErrorText ("API error: " +:+ showNat code))
  /\ (forall formatHour body st selectedRegion,
        LoadByRegionChart.render selectedRegion
          (LoadByRegionChart.fetchData formatHour
             (responded code text body) st)
        = LoadByRegionChart.ErrorText ("API error: " +:+ showNat code))
  /\ (forall body st metricsRegion,
        MetricsCard.render metricsRegion
          (MetricsCard.fetchData (responded code text body) st)
        = MetricsCard.ErrorText ("API error: " +:+ showNat code))
  /\ (forall localeCompare body st,
        ExtremeHeatLoadTable.render
          (ExtremeHeatLoadTable.fetchData localeCompare
             (responded code text body) st)
        = ExtremeHeatLoadTable.ErrorText
            ("Error: " +:+ ("Failed to fetch data: " +:+ text))).
Proof.
  intros Hcode.
  repeat match goal with |- _ /\ _ => split end; intros;
    unfold_fetch; rewrite ok_false by exact Hcode; reflexivity.
Qed.

Lemma error_text_example :
  DryVsRainyChart.render "all"
    (DryVsRainyChart.fetchData (responded 404 "Not Found" (Ok []))
       (mkViewState
          [DryVsRainyChart.mkChartDataPoint "North" (Fin 1) (Fin 2)]
          false None))
  = DryVsRainyChart.ErrorText "API error: 404".
Proof.
  exact (proj1 (error_text_after_failed_response 404 "Not Found"
                  ltac:(right; lia))
           (Ok [])
           (mkViewState
              [DryVsRainyChart.mkChartDataPoint "North" (Fin 1) (Fin 2)]
              false None)
           "all").
Defined.
